(** * Focus Sessions: session store, statistics rollups and timer state machines

    A shallow embedding of the Go packages [models], [storage], [help],
    [timer] and [dashboard], followed by the properties proved about them.

    Conventions of the embedding.
    - Go's [int] is a 64-bit two's-complement integer: values are carried as
      [Z] and every [+], [++] and [*] of the source is followed by [wrap].
      [/] and [%] are truncated ([Z.quot], [Z.rem]).
    - [time.Time] is an instant, counted in nanoseconds from the zero value of
      the type (January 1 of year 1, UTC); [time.Duration] is an [int64]
      count of nanoseconds.
    - The functions of Go's standard library that go through floating point or
      through format strings ([Duration.Minutes], [Duration.Seconds],
      [fmt.Sprintf], [fmt.Sscanf]) are the fields of the class [GoLib]: the
      embedding is parametric in them, and so is every general theorem.
    - What the environment hands to one [Update] call (the fresh UUID, the
      readings of [time.Now()] and their formattings) is the record [Env];
      the calls to [time.Now()] inside one handler share one reading.
    - The two JSON files are the record [Storage]. A file is absent, holds a
      value, or holds bytes that [json.Unmarshal] rejects.
      [json.MarshalIndent] succeeds on the two types it is given, and the
      write of [sessions.json] is taken to succeed: the views drop its
      error. The calls whose error the program acts on, [os.WriteFile] on
      [config.json] and [os.Remove], can fail: the store carries the answers
      of the file system to the calls still to come.
    - A Go [map] is a [gmap]; [range] over it visits [map_to_list], which
      stands for the unspecified order of Go: a statement about the list of
      sub-rollups of a rollup holds up to the order of that list only. *)

From Stdlib Require Import ZArith String Ascii List Lia.
From stdpp Require Import base decidable option list strings gmap fin_maps pretty
  vector.

Local Open Scope Z_scope.

(** ** Machine integers *)

Definition int_min : Z := - 2 ^ 63.
Definition int_max : Z := 2 ^ 63 - 1.

Definition wrap (z : Z) : Z := (z + 2 ^ 63) mod 2 ^ 64 - 2 ^ 63.

Definition in_int (z : Z) : Prop := int_min <= z <= int_max.

Definition int_add (a b : Z) : Z := wrap (a + b).
Definition int_mul (a b : Z) : Z := wrap (a * b).

(** [len(l)] as an [int]. *)
Definition len {A} (l : list A) : Z := Z.of_nat (length l).

(** ** Instants and durations *)

Definition Time := Z.
Definition Duration_t := Z.

Definition Second : Duration_t := 1000000000.
Definition Minute : Duration_t := 60 * Second.
Definition minDuration : Duration_t := int_min.
Definition maxDuration : Duration_t := int_max.

(** [t.IsZero()] *)
Definition IsZero (t : Time) : bool := bool_decide (t = 0).

(** [t.Sub(u)]: the difference, saturated to the range of [Duration]. The
    instants modelled here carry no monotonic clock reading: they come out of
    the JSON file. *)
Definition Sub (t u : Time) : Duration_t :=
  if bool_decide (t - u < minDuration) then minDuration
  else if bool_decide (maxDuration < t - u) then maxDuration
  else t - u.

(** The library functions the embedding is parametric in. *)
Class GoLib := {
  (** [int(d.Minutes())] *)
  Minutes_int : Duration_t -> Z;
  (** [int(d.Seconds())] *)
  Seconds_int : Duration_t -> Z;
  (** [fmt.Sprintf("%04d-%02d", year, month)] *)
  Sprintf_month : Z -> Z -> string;
  (** What [fmt.Sscanf(s, "%4d-%02d", &year, &month)] stores: nothing, the
      year only, or the year and the month. *)
  Sscanf_month : string -> option (Z * option Z)
}.

(** ** Package models *)

Module models.

Record Session := mkSession {
  ID : string;
  StartTime : Time;
  EndTime : Time;
  Duration : Z;
  Completed : bool;
  Date : string;
  Week : Z;
  Month : string;
  Year : Z;
  Active : bool;
  ElapsedSeconds : Z;
  Paused : bool
}.

Definition set_EndTime (t : Time) (s : Session) : Session :=
  mkSession (ID s) (StartTime s) t (Duration s) (Completed s) (Date s)
    (Week s) (Month s) (Year s) (Active s) (ElapsedSeconds s) (Paused s).

Definition set_Completed (b : bool) (s : Session) : Session :=
  mkSession (ID s) (StartTime s) (EndTime s) (Duration s) b (Date s)
    (Week s) (Month s) (Year s) (Active s) (ElapsedSeconds s) (Paused s).

Definition set_Active (b : bool) (s : Session) : Session :=
  mkSession (ID s) (StartTime s) (EndTime s) (Duration s) (Completed s)
    (Date s) (Week s) (Month s) (Year s) b (ElapsedSeconds s) (Paused s).

Definition set_ElapsedSeconds (e : Z) (s : Session) : Session :=
  mkSession (ID s) (StartTime s) (EndTime s) (Duration s) (Completed s)
    (Date s) (Week s) (Month s) (Year s) (Active s) e (Paused s).

Definition set_Paused (b : bool) (s : Session) : Session :=
  mkSession (ID s) (StartTime s) (EndTime s) (Duration s) (Completed s)
    (Date s) (Week s) (Month s) (Year s) (Active s) (ElapsedSeconds s) b.

Record Config := mkConfig {
  SessionDuration : Z;
  DailySessionGoal : Z;
  WorkStartHour : Z;
  WorkEndHour : Z
}.

Definition DefaultConfig : Config :=
  {| SessionDuration := 60; DailySessionGoal := 8;
     WorkStartHour := 8; WorkEndHour := 16 |}.

Record DayStats := mkDayStats {
  day_Date : string;
  day_SessionsCount : Z;
  day_TotalMinutes : Z;
  day_Sessions : list Session
}.

Record WeekStats := mkWeekStats {
  week_Week : Z;
  week_Year : Z;
  week_SessionsCount : Z;
  week_TotalMinutes : Z;
  week_DailyStats : list DayStats
}.

Record MonthStats := mkMonthStats {
  month_Month : string;
  month_Year : Z;
  month_SessionsCount : Z;
  month_TotalMinutes : Z;
  month_WeeklyStats : list WeekStats
}.

Record YearStats := mkYearStats {
  year_Year : Z;
  year_SessionsCount : Z;
  year_TotalMinutes : Z;
  year_MonthlyStats : list MonthStats
}.

End models.
Import models.

(** ** Package storage *)

Module storage.

(** The state of one persisted file. *)
Inductive File (A : Type) : Type :=
  | Absent
  | Corrupt
  | Holds (a : A).
Arguments Absent {A}.
Arguments Corrupt {A}.
Arguments Holds {A} a.

(** The data directory: [sessions.json] and [config.json], and what the file
    system will answer to the successive calls of [os.WriteFile] on
    [config.json] and of [os.Remove] on a file that exists: [true] when the
    call fails, which leaves the file as it is. Once the answers are used
    up, the calls succeed. *)
Record Storage := mkStore {
  sessionsFile : File (list Session);
  configFile : File Config;
  ioFails : list bool
}.

(** A data directory on a file system that does not fail. *)
Definition mkStorage (sessions : File (list Session)) (config : File Config)
    : Storage :=
  mkStore sessions config [].

(** [ErrIO] is any other error of the file system (permission denied, disk
    full, ...). *)
Inductive error : Type :=
  | ErrNotExist
  | ErrUnmarshal
  | ErrIO.

(** [os.IsNotExist(err)] *)
Definition IsNotExist (e : error) : bool :=
  match e with ErrNotExist => true | ErrUnmarshal | ErrIO => false end.

(** Whether the next call that can fail does, and the store once the file
    system has answered it. *)
Definition nextFails (st : Storage) : bool := default false (head (ioFails st)).

Definition answered (st : Storage) : Storage :=
  {| sessionsFile := sessionsFile st; configFile := configFile st;
     ioFails := tail (ioFails st) |}.

Inductive result (A : Type) : Type :=
  | Ok (a : A)
  | Err (e : error).
Arguments Ok {A} a.
Arguments Err {A} e.

(** [os.ReadFile] followed by [json.Unmarshal]. *)
Definition load {A} (f : File A) : result A :=
  match f with
  | Absent => Err ErrNotExist
  | Corrupt => Err ErrUnmarshal
  | Holds a => Ok a
  end.

(** [json.MarshalIndent] followed by [os.WriteFile] on [sessions.json]. *)
Definition writeSessions (l : list Session) (st : Storage) : Storage :=
  {| sessionsFile := Holds l; configFile := configFile st;
     ioFails := ioFails st |}.

Definition writeConfig (c : Config) (st : Storage) : Storage :=
  {| sessionsFile := sessionsFile st; configFile := Holds c;
     ioFails := ioFails st |}.

Definition GetAllSessions (st : Storage) : result (list Session) :=
  match load (sessionsFile st) with
  | Err e => if IsNotExist e then Ok [] else Err e
  | Ok sessions => Ok sessions
  end.

(** The body of [SaveSession] between the read and the write: the first
    record with the id of [session] is overwritten at its index, and
    [session] is appended when the loop found none. *)
Definition upsert (session : Session) (sessions : list Session) : list Session :=
  match list_find (λ existingSession, ID existingSession = ID session) sessions with
  | Some (i, _) => <[i := session]> sessions
  | None => sessions ++ [session]
  end.

Definition SaveSession (session : Session) (st : Storage) : option error * Storage :=
  match GetAllSessions st with
  | Err e =>
      if negb (IsNotExist e) then (Some e, st)
      else (None, writeSessions (upsert session []) st)
  | Ok sessions => (None, writeSessions (upsert session sessions) st)
  end.

Definition GetActiveSession (st : Storage) : result (option Session) :=
  match GetAllSessions st with
  | Err e => Err e
  | Ok sessions =>
      Ok (snd <$> list_find (λ session, Active session = true ∧ Completed session = false) sessions)
  end.

Definition DeactivateAllSessions (st : Storage) : option error * Storage :=
  match GetAllSessions st with
  | Err e => (Some e, st)
  | Ok sessions => (None, writeSessions (set_Active false <$> sessions) st)
  end.

Definition GetSessionsByDate (date : string) (st : Storage) : result (list Session) :=
  match GetAllSessions st with
  | Err e => Err e
  | Ok allSessions => Ok (filter (λ session, Date session = date) allSessions)
  end.

Definition GetWeekSessions (year week : Z) (st : Storage) : result (list Session) :=
  match GetAllSessions st with
  | Err e => Err e
  | Ok allSessions =>
      Ok (filter (λ session, Year session = year ∧ Week session = week) allSessions)
  end.

Definition GetYearSessions (year : Z) (st : Storage) : result (list Session) :=
  match GetAllSessions st with
  | Err e => Err e
  | Ok allSessions => Ok (filter (λ session, Year session = year) allSessions)
  end.

(** [append(m[k], session)] followed by the store into [m[k]]. *)
Definition map_append `{Countable K} (k : K) (session : Session)
    (m : gmap K (list Session)) : gmap K (list Session) :=
  <[k := default [] (m !! k) ++ [session]]> m.

Section stats.
Context {lib : GoLib}.

Definition GetMonthSessions (year month : Z) (st : Storage) : result (list Session) :=
  match GetAllSessions st with
  | Err e => Err e
  | Ok allSessions =>
      let monthStr := Sprintf_month year month in
      Ok (filter (λ session, Month session = monthStr) allSessions)
  end.

(** The block that every rollup repeats verbatim for a completed session
    (GetDayStats, twice in GetWeekStats, twice in GetMonthStats,
    GetYearStats, ExportAllStats). *)
Definition actualMinutes (session : Session) : Z :=
  let actualMinutes := Z.quot (ElapsedSeconds session) 60 in
  let actualMinutes :=
    if bool_decide (actualMinutes = 0) && negb (IsZero (EndTime session))
       && negb (IsZero (StartTime session))
    then Minutes_int (Sub (EndTime session) (StartTime session))
    else actualMinutes in
  if bool_decide (actualMinutes = 0) then Duration session else actualMinutes.

(** The inner loops [TotalMinutes += actualMinutes]. *)
Definition sumMinutes (sessions : list Session) : Z :=
  foldl (λ total s, int_add total (actualMinutes s)) 0 sessions.

Definition GetDayStats (date : string) (st : Storage) : result DayStats :=
  match GetSessionsByDate date st with
  | Err e => Err e
  | Ok sessions =>
      let '(completedCount, totalMinutes) :=
        foldl (λ '(completedCount, totalMinutes) session,
                 if Completed session
                 then (int_add completedCount 1,
                       int_add totalMinutes (actualMinutes session))
                 else (completedCount, totalMinutes))
              (0, 0) sessions in
      Ok {| day_Date := date; day_SessionsCount := completedCount;
            day_Sessions := sessions; day_TotalMinutes := totalMinutes |}
  end.

(** The first loop shared in shape by the week, month and year rollups:
    count, total and the grouping map keyed by [key]. *)
Definition groupLoop `{Countable K} (key : Session -> K) (sessions : list Session)
    : Z * Z * gmap K (list Session) :=
  foldl (λ '(completedCount, totalMinutes, m) session,
           if Completed session
           then (int_add completedCount 1,
                 int_add totalMinutes (actualMinutes session),
                 map_append (key session) session m)
           else (completedCount, totalMinutes, m))
        (0, 0, ∅) sessions.

Definition GetWeekStats (year week : Z) (st : Storage) : result WeekStats :=
  match GetWeekSessions year week st with
  | Err e => Err e
  | Ok sessions =>
      let '(completedCount, totalMinutes, dateMap) := groupLoop Date sessions in
      Ok {| week_Week := week; week_Year := year;
            week_SessionsCount := completedCount;
            week_TotalMinutes := totalMinutes;
            week_DailyStats :=
              (λ '(date, dateSessions),
                 {| day_Date := date; day_SessionsCount := len dateSessions;
                    day_Sessions := dateSessions;
                    day_TotalMinutes := sumMinutes dateSessions |})
              <$> map_to_list dateMap |}
  end.

Definition GetMonthStats (year month : Z) (st : Storage) : result MonthStats :=
  match GetMonthSessions year month st with
  | Err e => Err e
  | Ok sessions =>
      let monthStr := Sprintf_month year month in
      let '(completedCount, totalMinutes, weekMap) := groupLoop Week sessions in
      Ok {| month_Month := monthStr; month_Year := year;
            month_SessionsCount := completedCount;
            month_TotalMinutes := totalMinutes;
            month_WeeklyStats :=
              (λ '(week, weekSessions),
                 {| week_Week := week; week_Year := year;
                    week_SessionsCount := len weekSessions;
                    week_TotalMinutes := sumMinutes weekSessions;
                    week_DailyStats := [] |})
              <$> map_to_list weekMap |}
  end.

(** [fmt.Sscanf(session.Month, "%4d-%02d", &year, &month)] with [month]
    freshly declared: it writes into the parameter [year] of GetYearStats. *)
Definition scanMonth (monthKey : string) (year : Z) : Z * Z :=
  match Sscanf_month monthKey with
  | None => (year, 0)
  | Some (y, None) => (y, 0)
  | Some (y, Some month) => (y, month)
  end.

(** The first loop of GetYearStats: the scanned year replaces the parameter
    as the loop goes. *)
Definition yearLoop (year : Z) (sessions : list Session)
    : Z * Z * Z * gmap Z (list Session) :=
  foldl (λ '(year, completedCount, totalMinutes, monthMap) session,
           if Completed session
           then let '(year, month) := scanMonth (Month session) year in
                (year, int_add completedCount 1,
                 int_add totalMinutes (actualMinutes session),
                 map_append month session monthMap)
           else (year, completedCount, totalMinutes, monthMap))
        (year, 0, 0, ∅) sessions.

Definition GetYearStats (year : Z) (st : Storage) : result YearStats :=
  match GetYearSessions year st with
  | Err e => Err e
  | Ok sessions =>
      let '(year, completedCount, totalMinutes, monthMap) :=
        yearLoop year sessions in
      Ok {| year_Year := year; year_SessionsCount := completedCount;
            year_TotalMinutes := totalMinutes;
            year_MonthlyStats :=
              omap (λ kv : Z * list Session,
                      let month := kv.1 in
                      match GetMonthStats year month st with
                      | Err _ => None
                      | Ok monthStats => Some monthStats
                      end)
                   (map_to_list monthMap) |}
  end.

End stats.

(** [json.MarshalIndent] does not fail on a [Config]; [os.WriteFile] does
    when the file system says so. *)
Definition SaveConfig (config : Config) (st : Storage) : option error * Storage :=
  if nextFails st then (Some ErrIO, answered st)
  else (None, writeConfig config (answered st)).

(** [GetConfig] returns a config and an error; the config returned next to a
    non-nil error is kept in the [inr] case. *)
Definition GetConfig (st : Storage) : (Config + Config * error) * Storage :=
  match load (configFile st) with
  | Err e =>
      if IsNotExist e then
        let config := DefaultConfig in
        match SaveConfig config st with
        | (Some err, st') => (inr (config, err), st')
        | (None, st') => (inl config, st')
        end
      else (inr (mkConfig 0 0 0 0, e), st)
  | Ok config => (inl config, st)
  end.

Definition IsFirstTime (st : Storage) : bool :=
  match configFile st with Absent => true | _ => false end.

(** [os.Remove] on the two files: on a missing file its error is one that
    [os.IsNotExist] recognises; on a file that exists the file system
    answers. *)
Definition removeSessions (st : Storage) : option error * Storage :=
  match sessionsFile st with
  | Absent => (Some ErrNotExist, st)
  | _ =>
      if nextFails st then (Some ErrIO, answered st)
      else (None, {| sessionsFile := Absent; configFile := configFile st;
                     ioFails := tail (ioFails st) |})
  end.

Definition removeConfig (st : Storage) : option error * Storage :=
  match configFile st with
  | Absent => (Some ErrNotExist, st)
  | _ =>
      if nextFails st then (Some ErrIO, answered st)
      else (None, {| sessionsFile := sessionsFile st; configFile := Absent;
                     ioFails := tail (ioFails st) |})
  end.

(** [err != nil && !os.IsNotExist(err)] *)
Definition isFailure (err : option error) : bool :=
  match err with Some err => negb (IsNotExist err) | None => false end.

Definition ResetAllData (st : Storage) : option error * Storage :=
  let '(err, st) := removeSessions st in
  if isFailure err then (err, st)
  else
    let '(err, st) := removeConfig st in
    if isFailure err then (err, st) else (None, st).

End storage.
Import storage.

(** ** The environment of one handler call *)

Record Env := mkEnv {
  (** [uuid.New().String()] *)
  uuid : string;
  (** [time.Now()] *)
  now : Time;
  (** [time.Now().Format("2006-01-02")] *)
  today : string;
  (** the week of [time.Now().ISOWeek()] *)
  isoWeek : Z;
  (** [time.Now().Format("2006-01")] *)
  monthKey : string;
  (** [time.Now().Year()] *)
  yearNow : Z;
  (** [int(time.Now().Month())] *)
  monthNow : Z
}.

(** [key.Matches(msg, binding)]: the key pressed is one of the binding's. *)
Definition Matches (k : string) (binding : list string) : bool :=
  bool_decide (k ∈ binding).

(** ** Bubble Tea commands *)

Module tea.

Inductive Cmd : Type :=
  | Nil
  | Tick
  | Quit
  | Println (text : string)
  | Batch (first second : Cmd)
  | Frame
  | ExportStats
  | ClearExportMsg.

End tea.

(** ** Package help *)

Module help.

Record Model := mkModel { width : Z; height : Z; quit : bool }.

Record keyMap := mkKeys {
  Back : list string; Quit : list string; Home : list string }.

Definition keys : keyMap :=
  {| Back := ["b"; "esc"]; Quit := ["q"; "ctrl+c"]; Home := ["h"] |}.

Definition New : Model := mkModel 0 0 false.

Definition UpdateSize (w h : Z) (m : Model) : Model := mkModel w h (quit m).

Definition UpdateKey (k : string) (m : Model) : Model :=
  if Matches k (Back keys) || Matches k (Quit keys) || Matches k (Home keys)
  then mkModel (width m) (height m) true
  else m.

Definition ShouldQuit (m : Model) : bool := quit m.

End help.

(** ** Package timer *)

Module timer.

Inductive Msg : Type :=
  | WindowSizeMsg (Width Height : Z)
  | KeyMsg (key : string)
  | tickMsg
  | FrameMsg.

(** The progress-bar widget of the Go struct is left out: it is only drawn. *)
Record Model := mkModel {
  duration : Z;
  elapsed : Z;
  running : bool;
  paused : bool;
  finished : bool;
  cancelled : bool;
  exitToMenu : bool;
  currentSession : option Session;
  width : Z;
  height : Z;
  isResuming : bool
}.

Definition set_elapsed (v : Z) (m : Model) : Model :=
  mkModel (duration m) v (running m) (paused m) (finished m) (cancelled m)
    (exitToMenu m) (currentSession m) (width m) (height m) (isResuming m).
Definition set_running (v : bool) (m : Model) : Model :=
  mkModel (duration m) (elapsed m) v (paused m) (finished m) (cancelled m)
    (exitToMenu m) (currentSession m) (width m) (height m) (isResuming m).
Definition set_paused (v : bool) (m : Model) : Model :=
  mkModel (duration m) (elapsed m) (running m) v (finished m) (cancelled m)
    (exitToMenu m) (currentSession m) (width m) (height m) (isResuming m).
Definition set_finished (v : bool) (m : Model) : Model :=
  mkModel (duration m) (elapsed m) (running m) (paused m) v (cancelled m)
    (exitToMenu m) (currentSession m) (width m) (height m) (isResuming m).
Definition set_cancelled (v : bool) (m : Model) : Model :=
  mkModel (duration m) (elapsed m) (running m) (paused m) (finished m) v
    (exitToMenu m) (currentSession m) (width m) (height m) (isResuming m).
Definition set_exitToMenu (v : bool) (m : Model) : Model :=
  mkModel (duration m) (elapsed m) (running m) (paused m) (finished m)
    (cancelled m) v (currentSession m) (width m) (height m) (isResuming m).
Definition set_currentSession (v : option Session) (m : Model) : Model :=
  mkModel (duration m) (elapsed m) (running m) (paused m) (finished m)
    (cancelled m) (exitToMenu m) v (width m) (height m) (isResuming m).
Definition set_size (w h : Z) (m : Model) : Model :=
  mkModel (duration m) (elapsed m) (running m) (paused m) (finished m)
    (cancelled m) (exitToMenu m) (currentSession m) w h (isResuming m).

Record keyMap := mkKeys {
  Start : list string; Pause : list string; Resume : list string;
  Cancel : list string; Quit : list string; Back : list string;
  Menu : list string; Home : list string }.

Definition keys : keyMap :=
  {| Start := ["s"]; Pause := ["p"]; Resume := ["r"]; Cancel := ["c"];
     Quit := ["q"; "ctrl+c"]; Back := ["b"; "esc"]; Menu := ["m"];
     Home := ["h"] |}.

Definition New (duration : Z) : Model :=
  mkModel (int_mul duration 60) 0 false false false false false None 0 0 false.

Definition NewFromSession (session : Session) : Model :=
  mkModel (int_mul (Duration session) 60) (ElapsedSeconds session) true
    (Paused session) false false false (Some session) 0 0 true.

Definition Init (m : Model) : tea.Cmd :=
  if isResuming m && running m && negb (paused m) then tea.Tick else tea.Nil.

(** [if m.currentSession != nil { ...assignments through the pointer...;
    m.storage.SaveSession( *m.currentSession) }]: the assignments are [f]; the
    error of SaveSession is dropped, as in the source. *)
Definition saveCurrent (f : Session -> Session) (m : Model) (st : Storage)
    : Model * Storage :=
  match currentSession m with
  | Some s => (set_currentSession (Some (f s)) m, (SaveSession (f s) st).2)
  | None => (m, st)
  end.

Definition Update (env : Env) (msg : Msg) (m : Model) (st : Storage)
    : Model * tea.Cmd * Storage :=
  match msg with
  | WindowSizeMsg w h => (set_size w h m, tea.Nil, st)
  | KeyMsg k =>
      if Matches k (Start keys) && negb (running m) && negb (finished m) then
        let st := (DeactivateAllSessions st).2 in
        let m := set_paused false (set_running true m) in
        let session :=
          {| ID := uuid env; StartTime := now env; EndTime := 0;
             Duration := Z.quot (duration m) 60; Completed := false;
             Date := today env; Week := isoWeek env; Month := monthKey env;
             Year := yearNow env; Active := true; ElapsedSeconds := 0;
             Paused := false |} in
        let m := set_currentSession (Some session) m in
        (m, tea.Tick, (SaveSession session st).2)
      else if Matches k (Pause keys) && running m && negb (paused m) then
        let m := set_paused true m in
        let '(m, st) :=
          saveCurrent (λ s, set_ElapsedSeconds (elapsed m) (set_Paused true s)) m st in
        (m, tea.Nil, st)
      else if Matches k (Resume keys) && running m && paused m then
        let m := set_paused false m in
        let '(m, st) := saveCurrent (set_Paused false) m st in
        (m, tea.Tick, st)
      else if Matches k (Cancel keys) && running m then
        let m := set_finished true (set_cancelled true (set_running false m)) in
        let '(m, st) :=
          saveCurrent (λ s, set_Active false (set_Completed false
                              (set_EndTime (now env) s))) m st in
        (m, tea.Quit, st)
      else if Matches k (Menu keys) && running m && negb (finished m) then
        let m := set_exitToMenu true m in
        let '(m, st) :=
          saveCurrent (λ s, set_Paused (paused m)
                              (set_ElapsedSeconds (elapsed m) s)) m st in
        (m, tea.Quit, st)
      else if Matches k (Home keys) then
        let m := set_exitToMenu true m in
        if running m && negb (finished m) then
          let '(m, st) :=
            saveCurrent (λ s, set_Paused true
                                (set_ElapsedSeconds (elapsed m) s)) m st in
          (m, tea.Quit, st)
        else (m, tea.Quit, st)
      else if Matches k (Quit keys) then
        if running m && negb (finished m) then
          let '(m, st) :=
            saveCurrent (λ s, set_Paused true
                                (set_ElapsedSeconds (elapsed m) s)) m st in
          (m, tea.Quit, st)
        else (m, tea.Quit, st)
      else if Matches k (Back keys) && finished m then (m, tea.Quit, st)
      else (m, tea.Nil, st)
  | tickMsg =>
      if running m && negb (paused m) && negb (finished m) then
        let m := set_elapsed (int_add (elapsed m) 1) m in
        let '(m, st) :=
          if bool_decide (Z.rem (elapsed m) 10 = 0)
          then saveCurrent (set_ElapsedSeconds (elapsed m)) m st
          else (m, st) in
        if elapsed m >=? duration m then
          let m := set_running false (set_finished true m) in
          let '(m, st) :=
            saveCurrent (λ s, set_Active false (set_Completed true
                                (set_EndTime (now env) s))) m st in
          (m, tea.Batch (tea.Println "Session completed!") tea.Quit, st)
        else (m, tea.Tick, st)
      else (m, tea.Nil, st)
  | FrameMsg => (m, tea.Frame, st)
  end.

End timer.

(** ** Package dashboard *)

Module dashboard.

Inductive Msg : Type :=
  | WindowSizeMsg (Width Height : Z)
  | KeyMsg (key : string)
  | tickMsg
  | FrameMsg
  | exportResultMsg (success : bool) (message : string)
  | clearExportMsg.

Inductive ViewState : Type :=
  | HomeView
  | StatsView
  | StatsDetailDaily
  | StatsDetailWeekly
  | StatsDetailMonthly
  | StatsDetailYearly
  | HelpView.

Global Instance ViewState_eq_dec : EqDecision ViewState.
Proof. solve_decision. Defined.

(** The progress-bar widget of the Go struct is left out: it is only drawn. *)
Record Model := mkModel {
  config : Config;
  todayStats : DayStats;
  weekStats : WeekStats;
  monthStats : MonthStats;
  yearStats : YearStats;
  activeSession : option Session;
  viewState : ViewState;
  width : Z;
  height : Z;
  timerRunning : bool;
  timerPaused : bool;
  timerElapsed : Z;
  timerDuration : Z;
  helpModel : help.Model;
  exportMessage : string;
  showExportMsg : bool;
  shouldQuit : bool;
  openSettings : bool
}.

Definition set_stats (d : DayStats) (w : WeekStats) (mo : MonthStats)
    (y : YearStats) (m : Model) : Model :=
  mkModel (config m) d w mo y (activeSession m) (viewState m) (width m)
    (height m) (timerRunning m) (timerPaused m) (timerElapsed m)
    (timerDuration m) (helpModel m) (exportMessage m) (showExportMsg m)
    (shouldQuit m) (openSettings m).
Definition set_activeSession (v : option Session) (m : Model) : Model :=
  mkModel (config m) (todayStats m) (weekStats m) (monthStats m) (yearStats m)
    v (viewState m) (width m) (height m) (timerRunning m) (timerPaused m)
    (timerElapsed m) (timerDuration m) (helpModel m) (exportMessage m)
    (showExportMsg m) (shouldQuit m) (openSettings m).
Definition set_viewState (v : ViewState) (m : Model) : Model :=
  mkModel (config m) (todayStats m) (weekStats m) (monthStats m) (yearStats m)
    (activeSession m) v (width m) (height m) (timerRunning m) (timerPaused m)
    (timerElapsed m) (timerDuration m) (helpModel m) (exportMessage m)
    (showExportMsg m) (shouldQuit m) (openSettings m).
Definition set_size (w h : Z) (m : Model) : Model :=
  mkModel (config m) (todayStats m) (weekStats m) (monthStats m) (yearStats m)
    (activeSession m) (viewState m) w h (timerRunning m) (timerPaused m)
    (timerElapsed m) (timerDuration m) (helpModel m) (exportMessage m)
    (showExportMsg m) (shouldQuit m) (openSettings m).
(** The four timer fields: running, paused, elapsed, duration. *)
Definition set_timer (r p : bool) (e d : Z) (m : Model) : Model :=
  mkModel (config m) (todayStats m) (weekStats m) (monthStats m) (yearStats m)
    (activeSession m) (viewState m) (width m) (height m) r p e d
    (helpModel m) (exportMessage m) (showExportMsg m) (shouldQuit m)
    (openSettings m).
Definition set_timerPaused (v : bool) (m : Model) : Model :=
  set_timer (timerRunning m) v (timerElapsed m) (timerDuration m) m.
Definition set_timerElapsed (v : Z) (m : Model) : Model :=
  set_timer (timerRunning m) (timerPaused m) v (timerDuration m) m.
Definition set_helpModel (v : help.Model) (m : Model) : Model :=
  mkModel (config m) (todayStats m) (weekStats m) (monthStats m) (yearStats m)
    (activeSession m) (viewState m) (width m) (height m) (timerRunning m)
    (timerPaused m) (timerElapsed m) (timerDuration m) v (exportMessage m)
    (showExportMsg m) (shouldQuit m) (openSettings m).
Definition set_export (text : string) (shown : bool) (m : Model) : Model :=
  mkModel (config m) (todayStats m) (weekStats m) (monthStats m) (yearStats m)
    (activeSession m) (viewState m) (width m) (height m) (timerRunning m)
    (timerPaused m) (timerElapsed m) (timerDuration m) (helpModel m) text
    shown (shouldQuit m) (openSettings m).
Definition set_shouldQuit (v : bool) (m : Model) : Model :=
  mkModel (config m) (todayStats m) (weekStats m) (monthStats m) (yearStats m)
    (activeSession m) (viewState m) (width m) (height m) (timerRunning m)
    (timerPaused m) (timerElapsed m) (timerDuration m) (helpModel m)
    (exportMessage m) (showExportMsg m) v (openSettings m).
Definition set_openSettings (v : bool) (m : Model) : Model :=
  mkModel (config m) (todayStats m) (weekStats m) (monthStats m) (yearStats m)
    (activeSession m) (viewState m) (width m) (height m) (timerRunning m)
    (timerPaused m) (timerElapsed m) (timerDuration m) (helpModel m)
    (exportMessage m) (showExportMsg m) (shouldQuit m) v.

Record keyMap := mkKeys {
  Start : list string; Pause : list string; Resume : list string;
  Cancel : list string; Home : list string; Stats : list string;
  Daily : list string; Weekly : list string; Monthly : list string;
  Yearly : list string; Back : list string; Help : list string;
  Settings : list string; Quit : list string; Export : list string }.

Definition keys : keyMap :=
  {| Start := ["s"]; Pause := ["p"]; Resume := ["r"]; Cancel := ["c"];
     Home := ["h"]; Stats := ["t"]; Daily := ["d"]; Weekly := ["w"];
     Monthly := ["m"]; Yearly := ["y"]; Back := ["b"; "esc"];
     Help := ["?"; "f1"]; Settings := ["g"]; Quit := ["q"; "ctrl+c"];
     Export := ["e"] |}.

(** The zero values that [stats, _ := ...] leaves when the call fails. *)
Definition zeroDayStats : DayStats := mkDayStats "" 0 0 [].
Definition zeroWeekStats : WeekStats := mkWeekStats 0 0 0 0 [].

(** [if m.activeSession != nil { ...assignments through the pointer...;
    m.storage.SaveSession( *m.activeSession) }]: the assignments are [f]; the
    error of SaveSession is dropped, as in the source. *)
Definition saveActive (f : Session -> Session) (m : Model) (st : Storage)
    : Model * Storage :=
  match activeSession m with
  | Some s => (set_activeSession (Some (f s)) m, (SaveSession (f s) st).2)
  | None => (m, st)
  end.

Section with_lib.
Context {lib : GoLib}.

Definition New (env : Env) (st : Storage) : result Model * Storage :=
  match GetConfig st with
  | (inr (_, err), st) => (Err err, st)
  | (inl config, st) =>
      let todayStats :=
        match GetDayStats (today env) st with
        | Ok stats => stats
        | Err _ => mkDayStats (today env) 0 0 []
        end in
      let week := isoWeek env in
      let weekStats :=
        match GetWeekStats (yearNow env) week st with
        | Ok stats => stats
        | Err _ => mkWeekStats week (yearNow env) 0 0 []
        end in
      let monthStats :=
        match GetMonthStats (yearNow env) (monthNow env) st with
        | Ok stats => stats
        | Err _ => mkMonthStats (monthKey env) (yearNow env) 0 0 []
        end in
      let yearStats :=
        match GetYearStats (yearNow env) st with
        | Ok stats => stats
        | Err _ => mkYearStats (yearNow env) 0 0 []
        end in
      let activeSession :=
        match GetActiveSession st with
        | Ok activeSession => activeSession
        | Err _ => None
        end in
      let m :=
        mkModel config todayStats weekStats monthStats yearStats activeSession
          HomeView 0 0 false false 0 (int_mul (SessionDuration config) 60)
          help.New "" false false false in
      match activeSession with
      | Some activeSession =>
          let timerDuration := int_mul (Duration activeSession) 60 in
          if negb (Paused activeSession) then
            let timeSinceStart := Sub (now env) (StartTime activeSession) in
            let timerElapsed := Seconds_int timeSinceStart in
            let timerElapsed :=
              if timerElapsed >? timerDuration then timerDuration
              else timerElapsed in
            (Ok (set_timer true (Paused activeSession) timerElapsed
                   timerDuration m), st)
          else
            (Ok (set_timer true (Paused activeSession)
                   (ElapsedSeconds activeSession) timerDuration m), st)
      | None => (Ok m, st)
      end
  end.

Definition Init (m : Model) : tea.Cmd :=
  if bool_decide (activeSession m ≠ None) && timerRunning m
     && negb (timerPaused m)
  then tea.Batch tea.Tick tea.Frame
  else tea.Frame.

Definition startNewSession (env : Env) (m : Model) (st : Storage)
    : Model * tea.Cmd * Storage :=
  let st := (DeactivateAllSessions st).2 in
  let session :=
    {| ID := uuid env; StartTime := now env; EndTime := 0;
       Duration := SessionDuration (config m); Completed := false;
       Date := today env; Week := isoWeek env; Month := monthKey env;
       Year := yearNow env; Active := true; ElapsedSeconds := 0;
       Paused := false |} in
  let st := (SaveSession session st).2 in
  let m := set_activeSession (Some session) m in
  let m := set_timer true false 0 (int_mul (SessionDuration (config m)) 60) m in
  (m, tea.Tick, st).

Definition refreshToday (env : Env) (m : Model) (st : Storage) : DayStats :=
  match GetDayStats (today env) st with
  | Ok stats => stats
  | Err _ => zeroDayStats
  end.

Definition cancelSession (env : Env) (m : Model) (st : Storage)
    : Model * tea.Cmd * Storage :=
  let '(m, st) :=
    saveActive (λ s, set_ElapsedSeconds (timerElapsed m) (set_Active false
                       (set_Completed false (set_EndTime (now env) s)))) m st in
  let m := set_activeSession None m in
  let m := set_timer false false 0 (timerDuration m) m in
  let m := set_stats (refreshToday env m st) (weekStats m) (monthStats m)
             (yearStats m) m in
  (m, tea.Nil, st).

Definition completeSession (env : Env) (m : Model) (st : Storage)
    : Model * tea.Cmd * Storage :=
  let '(m, st) :=
    saveActive (λ s, set_ElapsedSeconds (timerElapsed m) (set_Active false
                       (set_Completed true (set_EndTime (now env) s)))) m st in
  let m := set_activeSession None m in
  let m := set_timer false false 0 (timerDuration m) m in
  let todayStats := refreshToday env m st in
  let weekStats :=
    match GetWeekStats (yearNow env) (isoWeek env) st with
    | Ok stats => stats
    | Err _ => zeroWeekStats
    end in
  let m := set_stats todayStats weekStats (monthStats m) (yearStats m) m in
  if day_SessionsCount (dashboard.todayStats m) >=? DailySessionGoal (config m)
  then (m, tea.Println "DAILY GOAL ACHIEVED!", st)
  else (m, tea.Println "Session completed! Great job!", st).

(** The refresh of the four rollups on the Stats key: a rollup that fails
    to load keeps its old value. *)
Definition refreshStats (env : Env) (m : Model) (st : Storage) : Model :=
  let todayStats :=
    match GetDayStats (today env) st with
    | Ok stats => stats | Err _ => todayStats m end in
  let weekStats :=
    match GetWeekStats (yearNow env) (isoWeek env) st with
    | Ok stats => stats | Err _ => weekStats m end in
  let monthStats :=
    match GetMonthStats (yearNow env) (monthNow env) st with
    | Ok stats => stats | Err _ => monthStats m end in
  let yearStats :=
    match GetYearStats (yearNow env) st with
    | Ok stats => stats | Err _ => yearStats m end in
  set_stats todayStats weekStats monthStats yearStats m.

Definition isStatsScreen (v : ViewState) : bool :=
  match v with
  | StatsView | StatsDetailDaily | StatsDetailWeekly | StatsDetailMonthly
  | StatsDetailYearly => true
  | _ => false
  end.

Definition UpdateKey (env : Env) (k : string) (m : Model) (st : Storage)
    : Model * tea.Cmd * Storage :=
  if bool_decide (viewState m = HelpView) then
    let m := set_helpModel (help.UpdateKey k (helpModel m)) m in
    let m := if help.ShouldQuit (helpModel m) then set_viewState HomeView m
             else m in
    (m, tea.Nil, st)
  else if Matches k (Quit keys) then
    let '(m, st) :=
      if timerRunning m then
        saveActive (λ s, set_Paused (timerPaused m)
                           (set_ElapsedSeconds (timerElapsed m) s)) m st
      else (m, st) in
    (set_shouldQuit true m, tea.Quit, st)
  else if Matches k (Home keys) then (set_viewState HomeView m, tea.Nil, st)
  else if Matches k (Back keys) then
    let m :=
      match viewState m with
      | StatsDetailDaily | StatsDetailWeekly | StatsDetailMonthly
      | StatsDetailYearly => set_viewState StatsView m
      | StatsView => set_viewState HomeView m
      | HelpView => set_viewState HomeView m
      | HomeView => m
      end in
    (m, tea.Nil, st)
  else if Matches k (Help keys) then
    let m := set_viewState HelpView m in
    let m :=
      if (width m >? 0) && (height m >? 0)
      then set_helpModel (help.UpdateSize (width m) (height m) (helpModel m)) m
      else m in
    (m, tea.Nil, st)
  else if Matches k (Stats keys) then
    if bool_decide (viewState m = StatsView)
    then (set_viewState HomeView m, tea.Nil, st)
    else (refreshStats env (set_viewState StatsView m) st, tea.Nil, st)
  else if Matches k (Daily keys) && bool_decide (viewState m = StatsView) then
    (set_viewState StatsDetailDaily m, tea.Nil, st)
  else if Matches k (Weekly keys) && bool_decide (viewState m = StatsView) then
    (set_viewState StatsDetailWeekly m, tea.Nil, st)
  else if Matches k (Monthly keys) && bool_decide (viewState m = StatsView) then
    (set_viewState StatsDetailMonthly m, tea.Nil, st)
  else if Matches k (Yearly keys) && bool_decide (viewState m = StatsView) then
    (set_viewState StatsDetailYearly m, tea.Nil, st)
  else if Matches k (Start keys) && negb (timerRunning m) then
    startNewSession env m st
  else if Matches k (Pause keys) && timerRunning m && negb (timerPaused m) then
    let m := set_timerPaused true m in
    let '(m, st) :=
      saveActive (λ s, set_ElapsedSeconds (timerElapsed m)
                         (set_Paused true s)) m st in
    (m, tea.Nil, st)
  else if Matches k (Resume keys) && timerRunning m && timerPaused m then
    let m := set_timerPaused false m in
    let '(m, st) := saveActive (set_Paused false) m st in
    (m, tea.Tick, st)
  else if Matches k (Cancel keys) && timerRunning m then cancelSession env m st
  else if Matches k (Settings keys) then (set_openSettings true m, tea.Quit, st)
  else if Matches k (Export keys) then
    if isStatsScreen (viewState m) then (m, tea.ExportStats, st)
    else (m, tea.Nil, st)
  else (m, tea.Nil, st).

Definition Update (env : Env) (msg : Msg) (m : Model) (st : Storage)
    : Model * tea.Cmd * Storage :=
  match msg with
  | WindowSizeMsg w h =>
      let m := set_size w h m in
      let m :=
        if bool_decide (viewState m = HelpView)
        then set_helpModel (help.UpdateSize w h (helpModel m)) m
        else m in
      (m, tea.Nil, st)
  | KeyMsg k => UpdateKey env k m st
  | tickMsg =>
      if timerRunning m && negb (timerPaused m) then
        let m := set_timerElapsed (int_add (timerElapsed m) 1) m in
        let '(m, st) :=
          if bool_decide (Z.rem (timerElapsed m) 10 = 0)
          then saveActive (set_ElapsedSeconds (timerElapsed m)) m st
          else (m, st) in
        if timerElapsed m >=? timerDuration m then completeSession env m st
        else (m, tea.Tick, st)
      else (m, tea.Nil, st)
  | FrameMsg => (m, tea.Frame, st)
  | exportResultMsg _ message => (set_export message true m, tea.ClearExportMsg, st)
  | clearExportMsg => (set_export "" false m, tea.Nil, st)
  end.

(** The event loop: the messages are handled one at a time, each with the
    environment of its handler call. *)
Definition run (events : list (Env * Msg)) (m : Model) (st : Storage)
    : Model * Storage :=
  foldl (λ '(m, st) '(env, msg), let '(m, _, st) := Update env msg m st in (m, st))
        (m, st) events.

End with_lib.

End dashboard.
Import dashboard.

(** ** Package settings *)

Module settings.

Inductive Msg : Type :=
  | WindowSizeMsg (Width Height : Z)
  | KeyMsg (key : string)
  | OtherMsg.

Inductive Cmd : Type :=
  | Nil
  | Quit
  | InputCmds.

(** What the view takes from the text-input widget of the UI library, from
    [strconv] and from the [error] interface. *)
Class Widgets := {
  TextInput : Type;
  (** the input that [New] makes: [textinput.New()] with the placeholder
      set, then [SetValue(value)], then [Focus()] for the first input, then
      the character limit, the width 20 and the numeric validation set *)
  NewInput : string → string → bool → Z → TextInput;
  (** [input.Value()] *)
  Value : TextInput → string;
  (** [input.SetValue(s)] *)
  SetValue : string → TextInput → TextInput;
  (** [input.Focus()] and [input.Blur()] *)
  Focus : TextInput → TextInput;
  Blur : TextInput → TextInput;
  (** the model returned by [input.Update(msg)] *)
  InputUpdate : Msg → TextInput → TextInput;
  (** [strconv.Atoi]: the integer when the error is nil *)
  Atoi : string → option Z;
  (** [strconv.Itoa] *)
  Itoa : Z → string;
  (** [err.Error()] of an error of the store *)
  ErrorText : error → string
}.

Record keyMap := mkKeys {
  Tab : list string; ShiftTab : list string; Up : list string;
  Down : list string; Save : list string; Reset : list string;
  Back : list string; Quit_ : list string }.

Definition keys : keyMap :=
  {| Tab := ["tab"]; ShiftTab := ["shift+tab"]; Up := ["up"; "k"];
     Down := ["down"; "j"]; Save := ["s"]; Reset := ["r"];
     Back := ["b"; "esc"]; Quit_ := ["q"; "ctrl+c"] |}.

Section with_widgets.
Context {W : Widgets}.

(** [inputs] is the slice of four text inputs made by [New]; its length never
    changes. *)
Record Model := mkModel {
  config : Config;
  inputs : vec TextInput 4;
  focusIndex : Z;
  saved : bool;
  reset : bool;
  confirmReset : bool;
  errorMsg : string;
  width : Z;
  height : Z
}.

Definition set_config (v : Config) (m : Model) : Model :=
  mkModel v (inputs m) (focusIndex m) (saved m) (reset m) (confirmReset m)
    (errorMsg m) (width m) (height m).
Definition set_inputs (v : vec TextInput 4) (m : Model) : Model :=
  mkModel (config m) v (focusIndex m) (saved m) (reset m) (confirmReset m)
    (errorMsg m) (width m) (height m).
Definition set_focusIndex (v : Z) (m : Model) : Model :=
  mkModel (config m) (inputs m) v (saved m) (reset m) (confirmReset m)
    (errorMsg m) (width m) (height m).
Definition set_saved (v : bool) (m : Model) : Model :=
  mkModel (config m) (inputs m) (focusIndex m) v (reset m) (confirmReset m)
    (errorMsg m) (width m) (height m).
Definition set_reset (v : bool) (m : Model) : Model :=
  mkModel (config m) (inputs m) (focusIndex m) (saved m) v (confirmReset m)
    (errorMsg m) (width m) (height m).
Definition set_confirmReset (v : bool) (m : Model) : Model :=
  mkModel (config m) (inputs m) (focusIndex m) (saved m) (reset m) v
    (errorMsg m) (width m) (height m).
Definition set_errorMsg (v : string) (m : Model) : Model :=
  mkModel (config m) (inputs m) (focusIndex m) (saved m) (reset m)
    (confirmReset m) v (width m) (height m).
Definition set_size (w h : Z) (m : Model) : Model :=
  mkModel (config m) (inputs m) (focusIndex m) (saved m) (reset m)
    (confirmReset m) (errorMsg m) w h.

(** The error of [saveConfig]: a validation message made by [fmt.Errorf], or
    the error of [SaveConfig]. *)
Definition saveError : Type := string + error.

Definition errorString (e : saveError) : string :=
  match e with inl text => text | inr e => ErrorText e end.

Definition saveConfig (m : Model) (st : Storage)
    : option saveError * Model * Storage :=
  let fail text := (Some (inl text : saveError), m, st) in
  let durationStr := Value (inputs m !!! 0%fin) in
  if bool_decide (durationStr = "") then fail "session duration is required"
  else
  match Atoi durationStr with
  | None => fail "session duration must be between 1-180 minutes"
  | Some duration =>
  if (duration <? 1) || (duration >? 180)
  then fail "session duration must be between 1-180 minutes" else
  let goalStr := Value (inputs m !!! 1%fin) in
  if bool_decide (goalStr = "") then fail "daily session goal is required"
  else
  match Atoi goalStr with
  | None => fail "daily goal must be between 1-24 sessions"
  | Some goal =>
  if (goal <? 1) || (goal >? 24)
  then fail "daily goal must be between 1-24 sessions" else
  let startHourStr := Value (inputs m !!! 2%fin) in
  if bool_decide (startHourStr = "") then fail "work start hour is required"
  else
  match Atoi startHourStr with
  | None => fail "start hour must be between 0-23"
  | Some startHour =>
  if (startHour <? 0) || (startHour >? 23)
  then fail "start hour must be between 0-23" else
  let endHourStr := Value (inputs m !!! 3%fin) in
  if bool_decide (endHourStr = "") then fail "work end hour is required"
  else
  match Atoi endHourStr with
  | None => fail "end hour must be between 0-23"
  | Some endHour =>
  if (endHour <? 0) || (endHour >? 23)
  then fail "end hour must be between 0-23" else
  if endHour <=? startHour
  then fail "end hour must be greater than start hour" else
  let m := set_config (mkConfig duration goal startHour endHour) m in
  match SaveConfig (config m) st with
  | (Some e, st) => (Some (inr e), m, st)
  | (None, st) => (None, m, st)
  end
  end end end end.

Definition resetAllData (m : Model) (st : Storage)
    : option error * Model * Storage :=
  match ResetAllData st with
  | (Some e, st) => (Some e, m, st)
  | (None, st) =>
      let m := set_config DefaultConfig m in
      let c := config m in
      let v := inputs m in
      let v := vinsert 0%fin (SetValue (Itoa (SessionDuration c)) (v !!! 0%fin)) v in
      let v := vinsert 1%fin (SetValue (Itoa (DailySessionGoal c)) (v !!! 1%fin)) v in
      let v := vinsert 2%fin (SetValue (Itoa (WorkStartHour c)) (v !!! 2%fin)) v in
      let v := vinsert 3%fin (SetValue (Itoa (WorkEndHour c)) (v !!! 3%fin)) v in
      (None, set_inputs v m, st)
  end.

Definition New (st : Storage) : result Model * Storage :=
  match GetConfig st with
  | (inr (_, err), st) => (Err err, st)
  | (inl config, st) =>
      let inputs :=
        [# NewInput "60" (Itoa (SessionDuration config)) true 3;
           NewInput "8" (Itoa (DailySessionGoal config)) false 2;
           NewInput "8" (Itoa (WorkStartHour config)) false 2;
           NewInput "16" (Itoa (WorkEndHour config)) false 2] in
      (Ok (mkModel config inputs 0 false false false "" 0 0), st)
  end.

Definition updateFocus (m : Model) : Model :=
  set_inputs
    (fun_to_vec (λ i : fin 4,
       if bool_decide (Z.of_nat (fin_to_nat i) = focusIndex m)
       then Focus (inputs m !!! i) else Blur (inputs m !!! i)))
    m.

(** The loop of [updateInputs]; the commands of the inputs are batched into
    [InputCmds]. *)
Definition updateInputs (msg : Msg) (m : Model) : Model :=
  foldl (λ m (i : fin 4),
           let oldValue := Value (inputs m !!! i) in
           let m := set_inputs
                      (vinsert i (InputUpdate msg (inputs m !!! i)) (inputs m))
                      m in
           if bool_decide (Value (inputs m !!! i) ≠ oldValue)
           then set_errorMsg "" m else m)
        m [0%fin; 1%fin; 2%fin; 3%fin].

Definition Update (msg : Msg) (m : Model) (st : Storage)
    : Model * Cmd * Storage :=
  let rest m st := (updateInputs msg m, InputCmds, st) in
  match msg with
  | WindowSizeMsg w h => (set_size w h m, Nil, st)
  | KeyMsg k =>
      if Matches k (Tab keys) || Matches k (Down keys) then
        let m := set_focusIndex (int_add (focusIndex m) 1) m in
        let m := if focusIndex m >? 4 - 1 then set_focusIndex 0 m else m in
        (updateFocus m, Nil, st)
      else if Matches k (ShiftTab keys) || Matches k (Up keys) then
        let m := set_focusIndex (int_add (focusIndex m) (-1)) m in
        let m := if focusIndex m <? 0 then set_focusIndex (4 - 1) m else m in
        (updateFocus m, Nil, st)
      else if Matches k (Save keys) then
        match saveConfig m st with
        | (None, m, st) => (set_errorMsg "" (set_saved true m), Quit, st)
        | (Some err, m, st) =>
            rest (set_saved false (set_errorMsg (errorString err) m)) st
        end
      else if Matches k (Reset keys) then
        if negb (confirmReset m) then (set_confirmReset true m, Nil, st)
        else
          match resetAllData m st with
          | (None, m, st) => (set_reset true m, Quit, st)
          | (Some _, m, st) => rest m st
          end
      else if Matches k (Back keys) || Matches k (Quit_ keys) then
        if confirmReset m then (set_confirmReset false m, Nil, st)
        else (m, Quit, st)
      else rest m st
  | OtherMsg => rest m st
  end.

Definition run (msgs : list Msg) (m : Model) (st : Storage) : Model * Storage :=
  foldl (λ '(m, st) msg, let '(m, _, st) := Update msg m st in (m, st))
        (m, st) msgs.

End with_widgets.

End settings.

(** ** Package menu *)

Module menu.

Inductive Msg : Type :=
  | WindowSizeMsg (Width Height : Z)
  | KeyMsg (key : string)
  | OtherMsg.

(** The constants of [MenuChoice]. *)
Definition ResumeSession : Z := 0.
Definition StartSession : Z := 1.
Definition ViewToday : Z := 2.
Definition ViewWeek : Z := 3.
Definition ViewMonth : Z := 4.
Definition Settings : Z := 5.
Definition Exit : Z := 6.

Record Model := mkModel {
  choices : list string;
  cursor : Z;
  selected : Z;
  config : Config;
  todayStats : DayStats;
  activeSession : option Session;
  width : Z;
  height : Z;
  shouldQuit : bool
}.

Definition set_cursor (v : Z) (m : Model) : Model :=
  mkModel (choices m) v (selected m) (config m) (todayStats m)
    (activeSession m) (width m) (height m) (shouldQuit m).
Definition set_selected (v : Z) (m : Model) : Model :=
  mkModel (choices m) (cursor m) v (config m) (todayStats m)
    (activeSession m) (width m) (height m) (shouldQuit m).
Definition set_size (w h : Z) (m : Model) : Model :=
  mkModel (choices m) (cursor m) (selected m) (config m) (todayStats m)
    (activeSession m) w h (shouldQuit m).
Definition set_shouldQuit (v : bool) (m : Model) : Model :=
  mkModel (choices m) (cursor m) (selected m) (config m) (todayStats m)
    (activeSession m) (width m) (height m) v.

Record keyMap := mkKeys {
  Up : list string; Down : list string; Enter : list string;
  Quit_ : list string }.

Definition keys : keyMap :=
  {| Up := ["up"; "k"]; Down := ["down"; "j"]; Enter := ["enter"; " "];
     Quit_ := ["q"; "ctrl+c"] |}.

Section with_lib.
Context {lib : GoLib}.
(** [fmt.Sprintf("▶️  Resume Session (%s - %d min left)", status, minutes)] *)
Variable resumeLabel : string → Z → string.

Definition New (env : Env) (st : Storage) : result Model * Storage :=
  match GetConfig st with
  | (inr (_, err), st) => (Err err, st)
  | (inl config, st) =>
      let todayStats :=
        match GetDayStats (today env) st with
        | Ok stats => stats
        | Err _ => mkDayStats (today env) 0 0 []
        end in
      let activeSession :=
        match GetActiveSession st with
        | Ok activeSession => activeSession
        | Err _ => None
        end in
      let choices :=
        match activeSession with
        | Some activeSession =>
            let elapsed := ElapsedSeconds activeSession in
            let remaining :=
              wrap (int_mul (Duration activeSession) 60 - elapsed) in
            let minutes := Z.quot remaining 60 in
            let status :=
              if negb (Paused activeSession) then "Active" else "Paused" in
            [resumeLabel status minutes]
        | None => []
        end in
      let choices :=
        choices ++ ["🚀 Start New Focus Session"; "📊 Today's Progress";
                    "📅 This Week's Stats"; "📈 This Month's Stats";
                    "⚙️  Settings"; "👋 Exit"] in
      (Ok (mkModel choices 0 0 config todayStats activeSession 0 0 false), st)
  end.

End with_lib.

Definition Update (msg : Msg) (m : Model) : Model * tea.Cmd :=
  match msg with
  | WindowSizeMsg w h => (set_size w h m, tea.Nil)
  | KeyMsg k =>
      if Matches k (Up keys) then
        if cursor m >? 0 then (set_cursor (int_add (cursor m) (-1)) m, tea.Nil)
        else (set_cursor (wrap (len (choices m) - 1)) m, tea.Nil)
      else if Matches k (Down keys) then
        if cursor m <? wrap (len (choices m) - 1)
        then (set_cursor (int_add (cursor m) 1) m, tea.Nil)
        else (set_cursor 0 m, tea.Nil)
      else if Matches k (Enter keys) then
        let m :=
          if bool_decide (activeSession m ≠ None)
          then set_selected (cursor m) m
          else if bool_decide (cursor m = 0) then set_selected StartSession m
          else if bool_decide (cursor m = 1) then set_selected ViewToday m
          else if bool_decide (cursor m = 2) then set_selected ViewWeek m
          else if bool_decide (cursor m = 3) then set_selected ViewMonth m
          else if bool_decide (cursor m = 4) then set_selected Settings m
          else if bool_decide (cursor m = 5) then set_selected Exit m
          else m in
        let m := if bool_decide (selected m = Exit)
                 then set_shouldQuit true m else m in
        (m, tea.Quit)
      else if Matches k (Quit_ keys) then (set_shouldQuit true m, tea.Quit)
      else (m, tea.Nil)
  | OtherMsg => (m, tea.Nil)
  end.

Definition run (msgs : list Msg) (m : Model) : Model :=
  foldl (λ m msg, (Update msg m).1) m msgs.

End menu.

(** ** Package main

    [p.Run()] is taken to hand the messages of the terminal to [Update] one
    after the other and to return the last model; it may also fail, after
    any number of messages. What the terminal sends is the input of the
    model: for each turn of the loop of [runApp], the messages of the
    dashboard and those of the settings view, should it be opened. The
    store after the given turns is returned when they end before the loop
    does. *)

Module main.

Inductive appError : Type :=
  | StoreError (e : error)
  | ProgramError.

(** The input of one program: its messages, and whether [p.Run()] fails
    after them. *)
Record Input (M : Type) := mkInput { messages : list M; fails : bool }.
Arguments mkInput {M}.
Arguments messages {M}.
Arguments fails {M}.

Record Turn := mkTurn {
  turnEnv : Env;
  dashboardInput : Input (Env * Msg);
  settingsInput : Input settings.Msg
}.

Section with_lib.
Context {lib : GoLib} {W : settings.Widgets}.

(** [settings.New(store)] followed by the run of its program. *)
Definition runSettings (input : Input settings.Msg) (st : Storage)
    : option appError * Storage :=
  match settings.New st with
  | (Err err, st) => (Some (StoreError err), st)
  | (Ok settingsModel, st) =>
      let '(_, st) := settings.run (messages input) settingsModel st in
      if fails input then (Some ProgramError, st) else (None, st)
  end.

(** The [for] loop of [runApp]. *)
Fixpoint mainLoop (turns : list Turn) (st : Storage)
    : option appError * Storage :=
  match turns with
  | [] => (None, st)
  | turn :: turns =>
      match New (turnEnv turn) st with
      | (Err err, st) => (Some (StoreError err), st)
      | (Ok dashboardModel, st) =>
          let '(dashboardModel, st) :=
            run (messages (dashboardInput turn)) dashboardModel st in
          if fails (dashboardInput turn) then (Some ProgramError, st)
          else if shouldQuit dashboardModel then (None, st)
          else if openSettings dashboardModel then
            match runSettings (settingsInput turn) st with
            | (Some err, st) => (Some err, st)
            | (None, st) => mainLoop turns st
            end
          else mainLoop turns st
      end
  end.

Definition runApp (first : Input settings.Msg) (turns : list Turn)
    (st : Storage) : option appError * Storage :=
  if IsFirstTime st then
    match runSettings first st with
    | (Some err, st) => (Some err, st)
    | (None, st) => mainLoop turns st
    end
  else mainLoop turns st.

End with_lib.

End main.

(** ** A reference instance of the library functions

    Truncated division for the two conversions: Go computes them in
    [float64], with the same result when the duration is a whole number of
    seconds (for [Seconds]) and when it is a whole number of minutes or is
    shorter than a minute (for [Minutes]). Decimal printing and scanning for
    the month key, as Go does for years of at most four digits and keys that
    start with a digit. The general theorems do not depend on this instance:
    it serves to run the embedding on concrete inputs. *)

Fixpoint zeros (n : nat) : string :=
  match n with O => "" | S n => String "0" (zeros n) end.

(** [%0Nd]: the sign, then the digits padded with zeros to the width. *)
Definition padZ (width : nat) (n : Z) : string :=
  let digits := pretty (Z.abs n) in
  if n <? 0
  then "-" +:+ zeros (width - 1 - String.length digits) +:+ digits
  else zeros (width - String.length digits) +:+ digits.

Definition digit_val (c : ascii) : option Z :=
  let n := Z.of_nat (nat_of_ascii c) in
  if (48 <=? n) && (n <=? 57) then Some (n - 48) else None.

Fixpoint scanDigits (width : nat) (s : string) (acc : option Z)
    : option Z * string :=
  match width, s with
  | S w, String c rest =>
      match digit_val c with
      | Some d => scanDigits w rest (Some (default 0 acc * 10 + d))
      | None => (acc, s)
      end
  | _, _ => (acc, s)
  end.

Definition scanYearMonth (s : string) : option (Z * option Z) :=
  match scanDigits 4 s None with
  | (None, _) => None
  | (Some y, String "-" rest) => Some (y, (scanDigits 2 rest None).1)
  | (Some y, _) => Some (y, None)
  end.

Definition go_ref : GoLib :=
  {| Minutes_int d := Z.quot d Minute;
     Seconds_int d := Z.quot d Second;
     Sprintf_month y m := padZ 4 y +:+ "-" +:+ padZ 2 m;
     Sscanf_month := scanYearMonth |}.

(** ** Definitions used by the statements *)

(** The predicate of GetActiveSession. *)
Definition isActive (s : Session) : Prop :=
  Active s = true ∧ Completed s = false.

(** The sessions read from the store; none when the file cannot be read. *)
Definition stored (st : Storage) : list Session :=
  match GetAllSessions st with Ok l => l | Err _ => [] end.

(** How many stored sessions have [Active = true]. *)
Definition activeCount (st : Storage) : nat :=
  length (filter (λ s, Active s = true) (stored st)).

Definition atMostOneActive (st : Storage) : Prop := (activeCount st <= 1)%nat.

(** The session operations of the dashboard. *)
Inductive Op : Type := OpStart | OpCancel | OpComplete.

Definition applyOp {lib : GoLib} (env : Env) (op : Op) (m : Model)
    (st : Storage) : Model * Storage :=
  let '(m, _, st) :=
    match op with
    | OpStart => startNewSession env m st
    | OpCancel => cancelSession env m st
    | OpComplete => completeSession env m st
    end in
  (m, st).

Definition runOps {lib : GoLib} (ops : list (Env * Op)) (m : Model)
    (st : Storage) : Model * Storage :=
  foldl (λ '(m, st) '(env, op), applyOp env op m st) (m, st) ops.

(** The timer view driven by a list of messages. *)
Definition timer_run (events : list (Env * timer.Msg)) (m : timer.Model)
    (st : Storage) : timer.Model * Storage :=
  foldl (λ '(m, st) '(env, msg),
           let '(m, _, st) := timer.Update env msg m st in (m, st))
        (m, st) events.

(** The precedence in the words of the specification: the quotient if it is
    not zero, else the whole-minute difference if both timestamps are set,
    else the planned duration. *)
Definition spec_actualMinutes {lib : GoLib} (s : Session) : Z :=
  if bool_decide (Z.quot (ElapsedSeconds s) 60 ≠ 0)
  then Z.quot (ElapsedSeconds s) 60
  else if bool_decide (StartTime s ≠ 0 ∧ EndTime s ≠ 0)
  then Minutes_int (Sub (EndTime s) (StartTime s))
  else Duration s.

(** Sessions of one date carry one year and one ISO week. *)
Definition keysConsistent (l : list Session) : Prop :=
  ∀ s1 s2, s1 ∈ l → s2 ∈ l → Date s1 = Date s2 →
    Year s1 = Year s2 ∧ Week s1 = Week s2.

(** The completed sessions of a bucket, in stored order. *)
Definition completedIn (P : Session → Prop) `{∀ s, Decision (P s)}
    (all : list Session) : list Session :=
  filter (λ s, Completed s = true) (filter P all).

(** The running total of the rollup loops, from a start value. *)
Definition sumFrom {lib : GoLib} (t : Z) (l : list Session) : Z :=
  foldl (λ total s, int_add total (actualMinutes s)) t l.

(** The grouping map of the rollup loops, from a start map. *)
Definition groupFrom `{Countable K} (key : Session → K)
    (m : gmap K (list Session)) (l : list Session) : gmap K (list Session) :=
  foldl (λ m s, map_append (key s) s m) m l.

(** The invariant of the dashboard loop: the stored ids are pairwise
    distinct, and one id is carried by every stored session that is active
    and by the session the dashboard works on, if any. *)
Definition coherent (a : option Session) (st : Storage) : Prop :=
  NoDup (ID <$> stored st) ∧
  ∃ c, (∀ r, r ∈ stored st → Active r = true → ID r = c) ∧
       (∀ s, a = Some s → ID s = c).

(** A session record for the examples. *)
Definition sampleSession (id : string) (active completed : bool) : Session :=
  {| ID := id; StartTime := 0; EndTime := 0; Duration := 25;
     Completed := completed; Date := "2024-03-04"; Week := 10;
     Month := "2024-03"; Year := 2024; Active := active;
     ElapsedSeconds := 0; Paused := false |}.

(** ** A reference instance of the widgets

    Plain strings for the text inputs, and [strconv.Atoi] as Go defines it:
    an optional sign, then one or more decimal digits, with a value in the
    range of [int]. It serves to run the settings view on concrete inputs. *)

Fixpoint digitsValue (s : string) (acc : Z) : option Z :=
  match s with
  | "" => Some acc
  | String c rest =>
      match digit_val c with
      | Some d => digitsValue rest (acc * 10 + d)
      | None => None
      end
  end.

Definition atoi (s : string) : option Z :=
  match s with
  | "" => None
  | String c rest =>
      let '(negative, body) :=
        if bool_decide (c = "-"%char) then (true, rest)
        else if bool_decide (c = "+"%char) then (false, rest)
        else (false, s) in
      match body with
      | "" => None
      | _ =>
          match digitsValue body 0 with
          | Some n =>
              let v := if negative : bool then - n else n in
              if (int_min <=? v) && (v <=? int_max) then Some v else None
          | None => None
          end
      end
  end.

Definition plain_widgets : settings.Widgets :=
  {| settings.TextInput := string;
     settings.NewInput _ value _ _ := value;
     settings.Value t := t;
     settings.SetValue v _ := v;
     settings.Focus t := t;
     settings.Blur t := t;
     settings.InputUpdate _ t := t;
     settings.Atoi := atoi;
     settings.Itoa := pretty;
     settings.ErrorText e :=
       match e with
       | ErrNotExist => "file does not exist"
       | ErrUnmarshal => "invalid character"
       | ErrIO => "permission denied"
       end |}.

(** The ranges that the settings view accepts. *)
Definition validConfig (c : Config) : Prop :=
  1 <= SessionDuration c <= 180 ∧ 1 <= DailySessionGoal c <= 24 ∧
  0 <= WorkStartHour c ∧ WorkStartHour c < WorkEndHour c ∧
  WorkEndHour c <= 23.

(** Plain sums, as integers without wrap-around. *)
Definition zsum (l : list Z) : Z := foldr Z.add 0 l.

(** No stored record with the id of [s] is completed. *)
Definition notCompletedInStore (s : Session) (st : Storage) : Prop :=
  ∀ r, r ∈ stored st → ID r = ID s → Completed r = false.

(** Every stored completed session has at most its planned seconds. *)
Definition completedWithinPlanned (st : Storage) : Prop :=
  ∀ r, r ∈ stored st → Completed r = true →
    ElapsedSeconds r <= Duration r * 60.

(** The invariant of a dashboard whose timer was started in this run: the
    configured duration is at least a minute and fits an [int] in seconds,
    and a running timer works on a session that is not completed, has the
    duration of that session and an elapsed count below it. *)
Definition timerInv (m : Model) : Prop :=
  1 <= SessionDuration (config m) ∧
  SessionDuration (config m) * 60 <= int_max ∧
  (timerRunning m = true →
     ∃ s, activeSession m = Some s ∧ Completed s = false ∧
          timerDuration m = Duration s * 60 ∧
          0 <= timerElapsed m < timerDuration m ∧
          timerDuration m <= int_max).

(** The store mirrors a running timer of the dashboard: the sessions file
    can be read, the session the dashboard works on is stored as it is in
    memory, active and not completed, with the pause flag of the timer, and
    its stored seconds are those of the last checkpoint: at most the
    seconds of the timer and in the same ten seconds, and the same seconds
    while the timer is paused. *)
Definition mirrored (m : Model) (st : Storage) : Prop :=
  sessionsFile st ≠ Corrupt ∧
  (timerRunning m = true →
     ∃ s, activeSession m = Some s ∧ s ∈ stored st ∧
          Active s = true ∧ Completed s = false ∧
          Paused s = timerPaused m ∧
          timerDuration m = int_mul (Duration s) 60 ∧
          0 <= ElapsedSeconds s <= timerElapsed m ∧
          timerElapsed m < int_max ∧
          timerElapsed m `quot` 10 = ElapsedSeconds s `quot` 10 ∧
          (timerPaused m = true → ElapsedSeconds s = timerElapsed m)).

(** The invariant of a timer view made by [timer.New d]: its duration is
    [d] minutes in seconds; before the start no second has been counted; and
    while it runs it is not finished and works on a session that is not
    completed, planned for [d] minutes, whose stored seconds are at most
    those counted, which are fewer than planned. *)
Definition timerViewInv (d : Z) (m : timer.Model) : Prop :=
  timer.duration m = d * 60 ∧
  (timer.running m = false → timer.finished m = false →
     timer.elapsed m = 0) ∧
  (timer.running m = true →
     timer.finished m = false ∧
     ∃ s, timer.currentSession m = Some s ∧ Completed s = false ∧
          Duration s = d ∧
          ElapsedSeconds s <= timer.elapsed m ∧
          0 <= timer.elapsed m < d * 60).

(** A file system that answers no call with a failure. *)
Definition neverFails (st : Storage) : Prop :=
  Forall (λ b, b = false) (ioFails st).

(** The answers left in [st'] are those of [st] without the first ones. *)
Definition answersLeft (st st' : Storage) : Prop :=
  ∃ k, ioFails st' = drop k (ioFails st).

(** Two week rollups, two month rollups and two year rollups that differ at
    most in the order of the days, weeks and months that they list. *)
Definition sameWeek (a b : WeekStats) : Prop :=
  week_Week a = week_Week b ∧ week_Year a = week_Year b ∧
  week_SessionsCount a = week_SessionsCount b ∧
  week_TotalMinutes a = week_TotalMinutes b ∧
  week_DailyStats a ≡ₚ week_DailyStats b.

Definition sameMonth (a b : MonthStats) : Prop :=
  month_Month a = month_Month b ∧ month_Year a = month_Year b ∧
  month_SessionsCount a = month_SessionsCount b ∧
  month_TotalMinutes a = month_TotalMinutes b ∧
  month_WeeklyStats a ≡ₚ month_WeeklyStats b.

Definition sameYear (a b : YearStats) : Prop :=
  year_Year a = year_Year b ∧
  year_SessionsCount a = year_SessionsCount b ∧
  year_TotalMinutes a = year_TotalMinutes b ∧
  ∃ l, year_MonthlyStats a ≡ₚ l ∧ Forall2 sameMonth l (year_MonthlyStats b).

(** ** Machine integers: basic facts *)

Lemma wrap_id z : in_int z → wrap z = z.
Proof.
  unfold in_int, int_min, int_max, wrap. intros Hz.
  rewrite Z.mod_small; lia.
Qed.

Lemma wrap_in_int z : in_int (wrap z).
Proof.
  unfold in_int, int_min, int_max, wrap.
  pose proof (Z.mod_pos_bound (z + 2 ^ 63) (2 ^ 64)). lia.
Qed.

(** ** The session store *)

Lemma GetAllSessions_write l st : GetAllSessions (writeSessions l st) = Ok l.
Proof. reflexivity. Qed.

Lemma GetAllSessions_Corrupt st e :
  GetAllSessions st = Err e → sessionsFile st = Corrupt.
Proof.
  unfold GetAllSessions. destruct (sessionsFile st); simpl; congruence.
Qed.

Lemma SaveSession_Ok s st l :
  GetAllSessions st = Ok l →
  SaveSession s st = (None, writeSessions (upsert s l) st).
Proof. unfold SaveSession. by intros ->. Qed.

Lemma SaveSession_Err s st e :
  GetAllSessions st = Err e → SaveSession s st = (Some e, st).
Proof.
  intros H. unfold SaveSession. rewrite H.
  apply GetAllSessions_Corrupt in H as Hc.
  unfold GetAllSessions in H. rewrite Hc in H. simpl in H.
  by inversion H.
Qed.

Lemma upsert_found s l i r :
  l !! i = Some r → ID r = ID s →
  (∀ j y, l !! j = Some y → (j < i)%nat → ID y ≠ ID s) →
  upsert s l = <[i := s]> l.
Proof.
  intros Hi Hr Hlt. unfold upsert.
  assert (list_find (λ e, ID e = ID s) l = Some (i, r)) as ->; [|done].
  apply list_find_Some. eauto.
Qed.

Lemma upsert_fresh s l :
  (∀ r, r ∈ l → ID r ≠ ID s) → upsert s l = l ++ [s].
Proof.
  intros Hl. unfold upsert.
  assert (list_find (λ e, ID e = ID s) l = None) as ->; [|done].
  apply list_find_None, Forall_forall. eauto.
Qed.

Lemma upsert_cases s l :
  (∃ i r, l !! i = Some r ∧ ID r = ID s ∧
          (∀ j y, l !! j = Some y → (j < i)%nat → ID y ≠ ID s) ∧
          upsert s l = <[i := s]> l)
  ∨ ((∀ r, r ∈ l → ID r ≠ ID s) ∧ upsert s l = l ++ [s]).
Proof.
  unfold upsert.
  destruct (list_find _ l) as [[i r]|] eqn:Hf.
  - apply list_find_Some in Hf as (Hi & Hr & Hlt). left. eauto 10.
  - apply list_find_None in Hf. right. split; [|done].
    intros r Hr. by eapply Forall_forall in Hf.
Qed.

Lemma upsert_lookup_other s l j r :
  l !! j = Some r → ID r ≠ ID s → upsert s l !! j = Some r.
Proof.
  intros Hj Hne.
  destruct (upsert_cases s l) as [(i & r' & Hi & Hr' & _ & ->)|[_ ->]].
  - rewrite list_lookup_insert_ne; [done|]. intros ->. congruence.
  - by apply lookup_app_l_Some.
Qed.

Lemma filter_insert_out {A} (P : A → Prop) `{∀ x, Decision (P x)}
    (l : list A) i x y :
  l !! i = Some y → ¬ P x → ¬ P y → filter P (<[i := x]> l) = filter P l.
Proof.
  revert i. induction l as [|a l IH]; intros [|i] Hi Hx Hy; simplify_eq/=.
  - by rewrite !filter_cons_False.
  - rewrite !filter_cons. by rewrite (IH i).
Qed.

Lemma upsert_filter_other s l :
  filter (λ r, ID r ≠ ID s) (upsert s l) = filter (λ r, ID r ≠ ID s) l.
Proof.
  destruct (upsert_cases s l) as [(i & r & Hi & Hr & _ & ->)|[_ ->]].
  - apply (filter_insert_out _ _ _ _ r); [done| |]; intros ?; congruence.
  - rewrite filter_app, filter_cons_False, filter_nil, app_nil_r; [done|].
    intros ?; congruence.
Qed.

Lemma upsert_elem s l : s ∈ upsert s l.
Proof.
  destruct (upsert_cases s l) as [(i & r & Hi & Hr & _ & ->)|[_ ->]].
  - apply list_elem_of_lookup. exists i.
    apply list_lookup_insert_eq. by eapply lookup_lt_Some.
  - set_solver.
Qed.

(** C9. SaveSession on a readable store returns no error and leaves a
    sessions file that holds, and reads back as, the stored list with the
    first record of the same id overwritten at its index when there is one,
    and with the session appended at the end otherwise; a record with another
    id stays at its index, field for field, and the records with another id
    keep their order; the config file is not touched. *)
Theorem C9_SaveSession_in_place_or_append (st : Storage) (l : list Session)
    (s : Session) :
  GetAllSessions st = Ok l →
  ∃ l', SaveSession s st = (None, writeSessions l' st) ∧
    sessionsFile (SaveSession s st).2 = Holds l' ∧
    GetAllSessions (SaveSession s st).2 = Ok l' ∧
    configFile (SaveSession s st).2 = configFile st ∧
    ((∃ i r, l !! i = Some r ∧ ID r = ID s ∧
             (∀ j y, l !! j = Some y → (j < i)%nat → ID y ≠ ID s) ∧
             l' = <[i := s]> l)
     ∨ ((∀ r, r ∈ l → ID r ≠ ID s) ∧ l' = l ++ [s])) ∧
    (∀ j r, l !! j = Some r → ID r ≠ ID s → l' !! j = Some r) ∧
    filter (λ r, ID r ≠ ID s) l' = filter (λ r, ID r ≠ ID s) l.
Proof.
  intros Hl. exists (upsert s l).
  rewrite (SaveSession_Ok _ _ _ Hl).
  split; [done|]. split; [done|]. split; [done|]. split; [done|].
  split; [apply upsert_cases|]. split.
  - intros j r. apply upsert_lookup_other.
  - apply upsert_filter_other.
Qed.

Lemma C9_witness :
  let st := mkStorage (Holds [sampleSession "a" false true;
                              sampleSession "b" true false]) Absent in
  GetAllSessions st = Ok [sampleSession "a" false true;
                          sampleSession "b" true false] ∧
  ∃ l', GetAllSessions (SaveSession (sampleSession "b" false true) st).2
        = Ok l' ∧
        l' = [sampleSession "a" false true; sampleSession "b" false true].
Proof.
  split; [reflexivity|].
  destruct (C9_SaveSession_in_place_or_append
              (mkStorage (Holds [sampleSession "a" false true;
                                 sampleSession "b" true false]) Absent)
              _ (sampleSession "b" false true) eq_refl)
    as (l' & _ & _ & H & _).
  exists l'. split; [exact H|].
  vm_compute in H. by injection H as <-.
Defined.

Lemma list_find_middle {A} (P : A → Prop) `{∀ x, Decision (P x)} l1 x l2 :
  P x → Forall (λ y, ¬ P y) l1 →
  list_find P (l1 ++ x :: l2) = Some (length l1, x).
Proof.
  intros Hx Hl1. apply list_find_Some. split; [|split; [done|]].
  - by rewrite list_lookup_middle.
  - intros j y Hj Hlt. rewrite lookup_app_l in Hj by done.
    eapply Forall_forall in Hl1; [done|]. by eapply list_elem_of_lookup_2.
Qed.

(** C10. On a readable store GetActiveSession does not fail, whatever the
    number of sessions that are active and not completed: it returns the
    first of them in stored order, and it returns none exactly when no stored
    session is active and not completed. *)
Theorem C10_GetActiveSession_first (st : Storage) (l : list Session) :
  GetAllSessions st = Ok l →
  (∀ l1 s l2, l = l1 ++ s :: l2 → isActive s →
     Forall (λ r, ¬ isActive r) l1 → GetActiveSession st = Ok (Some s)) ∧
  (GetActiveSession st = Ok None ↔ Forall (λ r, ¬ isActive r) l) ∧
  (∃ o, GetActiveSession st = Ok o).
Proof.
  intros Hl. unfold GetActiveSession. rewrite Hl. split; [|split].
  - intros l1 s l2 -> Hs Hl1.
    by rewrite (list_find_middle isActive l1 s l2 Hs Hl1).
  - split.
    + intros Hn. apply (list_find_None isActive).
      destruct (list_find _ l) as [[??]|] eqn:E; [by simplify_eq/=|done].
    + intros Hn. apply (list_find_None isActive) in Hn.
      unfold isActive in Hn. by rewrite Hn.
  - eauto.
Qed.

Lemma C10_witness :
  let st := mkStorage (Holds [sampleSession "a" false true;
                              sampleSession "b" true false;
                              sampleSession "c" true false]) Absent in
  GetAllSessions st = Ok [sampleSession "a" false true;
                          sampleSession "b" true false;
                          sampleSession "c" true false] ∧
  GetActiveSession st = Ok (Some (sampleSession "b" true false)).
Proof.
  split; [reflexivity|].
  refine (proj1 (C10_GetActiveSession_first
                   (mkStorage (Holds [sampleSession "a" false true;
                                      sampleSession "b" true false;
                                      sampleSession "c" true false]) Absent)
                   _ eq_refl)
            [sampleSession "a" false true] (sampleSession "b" true false)
            [sampleSession "c" true false] eq_refl _ _).
  - split; reflexivity.
  - repeat constructor. intros [H _]. discriminate H.
Defined.




(** ** The rollup loops *)

Lemma wrap_add_l a b : wrap (wrap a + b) = wrap (a + b).
Proof.
  unfold wrap. f_equal.
  replace ((a + 2 ^ 63) mod 2 ^ 64 - 2 ^ 63 + b + 2 ^ 63)
    with ((a + 2 ^ 63) mod 2 ^ 64 + b) by lia.
  rewrite Zplus_mod_idemp_l. f_equal. lia.
Qed.

Lemma count_loop {A} (l : list A) c :
  foldl (λ c _, int_add c 1) (wrap c) l = wrap (c + len l).
Proof.
  revert c. induction l as [|x l IH]; intros c; simpl.
  - unfold len. simpl. f_equal. lia.
  - unfold int_add at 2. rewrite wrap_add_l, IH. f_equal.
    unfold len. simpl length. lia.
Qed.

Section loops.
Context {lib : GoLib}.

Lemma day_loop l c t :
  foldl (λ '(completedCount, totalMinutes) session,
           if Completed session
           then (int_add completedCount 1,
                 int_add totalMinutes (actualMinutes session))
           else (completedCount, totalMinutes)) (c, t) l
  = (foldl (λ c _, int_add c 1) c (filter (λ s, Completed s = true) l),
     sumFrom t (filter (λ s, Completed s = true) l)).
Proof.
  revert c t. induction l as [|s l IH]; intros c t; [done|].
  simpl foldl at 1. destruct (Completed s) eqn:Hs.
  - rewrite filter_cons_True by done. apply IH.
  - rewrite filter_cons_False by congruence. apply IH.
Qed.

Lemma group_loop `{Countable K} (key : Session → K) l c t
    (m : gmap K (list Session)) :
  foldl (λ '(completedCount, totalMinutes, m) session,
           if Completed session
           then (int_add completedCount 1,
                 int_add totalMinutes (actualMinutes session),
                 map_append (key session) session m)
           else (completedCount, totalMinutes, m)) (c, t, m) l
  = (foldl (λ c _, int_add c 1) c (filter (λ s, Completed s = true) l),
     sumFrom t (filter (λ s, Completed s = true) l),
     groupFrom key m (filter (λ s, Completed s = true) l)).
Proof.
  revert c t m. induction l as [|s l IH]; intros c t m; [done|].
  simpl foldl at 1. destruct (Completed s) eqn:Hs.
  - rewrite filter_cons_True by done. apply IH.
  - rewrite filter_cons_False by congruence. apply IH.
Qed.

Lemma groupFrom_lookup `{Countable K} (key : Session → K) l
    (m : gmap K (list Session)) k :
  groupFrom key m l !! k =
    if decide (filter (λ s, key s = k) l = []) then m !! k
    else Some (default [] (m !! k) ++ filter (λ s, key s = k) l).
Proof.
  revert m. induction l as [|s l IH]; intros m; [done|].
  change (groupFrom key m (s :: l))
    with (groupFrom key (map_append (key s) s m) l).
  rewrite IH. unfold map_append.
  destruct (decide (key s = k)) as [<-|Hne].
  - rewrite lookup_insert_eq, filter_cons_True by done. simpl.
    case_decide as Hl; [by rewrite Hl|]. by rewrite <- app_assoc.
  - by rewrite lookup_insert_ne, filter_cons_False by done.
Qed.

Lemma groupLoop_eq `{Countable K} (key : Session → K) l :
  groupLoop key l
  = (wrap (len (filter (λ s, Completed s = true) l)),
     sumMinutes (filter (λ s, Completed s = true) l),
     groupFrom key ∅ (filter (λ s, Completed s = true) l)).
Proof.
  unfold groupLoop. rewrite group_loop.
  change 0 with (wrap 0) at 1. by rewrite count_loop.
Qed.

Lemma group_elem `{Countable K} (key : Session → K) l k ks :
  (k, ks) ∈ map_to_list (groupFrom key ∅ l) →
  ks = filter (λ s, key s = k) l ∧ ks ≠ [].
Proof.
  rewrite elem_of_map_to_list, groupFrom_lookup, lookup_empty.
  case_decide; [done|]. simpl. intros [= <-]. done.
Qed.

End loops.

Section rollups.
Context {lib : GoLib}.

Lemma GetDayStats_eq st all date :
  GetAllSessions st = Ok all →
  let sessions := filter (λ s, Date s = date) all in
  let completed := filter (λ s, Completed s = true) sessions in
  GetDayStats date st
  = Ok (mkDayStats date (wrap (len completed)) (sumMinutes completed) sessions).
Proof.
  intros Hall. unfold GetDayStats, GetSessionsByDate. rewrite Hall. simpl.
  rewrite day_loop. change 0 with (wrap 0) at 1. by rewrite count_loop.
Qed.

Lemma GetWeekStats_eq st all year week :
  GetAllSessions st = Ok all →
  let completed :=
    filter (λ s, Completed s = true)
      (filter (λ s, Year s = year ∧ Week s = week) all) in
  GetWeekStats year week st
  = Ok (mkWeekStats week year (wrap (len completed)) (sumMinutes completed)
          ((λ '(date, dateSessions),
              mkDayStats date (len dateSessions) (sumMinutes dateSessions)
                dateSessions)
           <$> map_to_list (groupFrom Date ∅ completed))).
Proof.
  intros Hall. unfold GetWeekStats, GetWeekSessions. rewrite Hall. simpl.
  by rewrite groupLoop_eq.
Qed.

Lemma GetMonthStats_eq st all year month :
  GetAllSessions st = Ok all →
  let completed :=
    filter (λ s, Completed s = true)
      (filter (λ s, Month s = Sprintf_month year month) all) in
  GetMonthStats year month st
  = Ok (mkMonthStats (Sprintf_month year month) year (wrap (len completed))
          (sumMinutes completed)
          ((λ '(week, weekSessions),
              mkWeekStats week year (len weekSessions)
                (sumMinutes weekSessions) [])
           <$> map_to_list (groupFrom Week ∅ completed))).
Proof.
  intros Hall. unfold GetMonthStats, GetMonthSessions. rewrite Hall. simpl.
  by rewrite groupLoop_eq.
Qed.

Lemma year_loop l y c t (m : gmap Z (list Session)) :
  ∃ y' m',
    foldl (λ '(year, completedCount, totalMinutes, monthMap) session,
             if Completed session
             then let '(year, month) := scanMonth (Month session) year in
                  (year, int_add completedCount 1,
                   int_add totalMinutes (actualMinutes session),
                   map_append month session monthMap)
             else (year, completedCount, totalMinutes, monthMap))
          (y, c, t, m) l
    = (y', foldl (λ c _, int_add c 1) c (filter (λ s, Completed s = true) l),
       sumFrom t (filter (λ s, Completed s = true) l), m').
Proof.
  revert y c t m. induction l as [|s l IH]; intros y c t m; [by eauto|].
  simpl foldl at 1. destruct (Completed s) eqn:Hs.
  - rewrite filter_cons_True by done.
    destruct (scanMonth (Month s) y) as [y1 mo]. apply IH.
  - rewrite filter_cons_False by congruence. apply IH.
Qed.

Lemma GetYearStats_eq st all year :
  GetAllSessions st = Ok all →
  let completed :=
    filter (λ s, Completed s = true) (filter (λ s, Year s = year) all) in
  ∃ ys, GetYearStats year st = Ok ys ∧
    year_SessionsCount ys = wrap (len completed) ∧
    year_TotalMinutes ys = sumMinutes completed ∧
    ∀ ms, ms ∈ year_MonthlyStats ys →
      ∃ y month, GetMonthStats y month st = Ok ms.
Proof.
  intros Hall. unfold GetYearStats, GetYearSessions, yearLoop.
  rewrite Hall. simpl.
  destruct (year_loop (filter (λ s, Year s = year) all) year 0 0 ∅)
    as (y' & m' & ->).
  eexists. split; [done|]. simpl. split; [|split].
  - change 0 with (wrap 0) at 1. by rewrite count_loop.
  - done.
  - intros ms Hms. apply list_elem_of_omap in Hms as ([mo ?] & _ & Hmo).
    simpl in Hmo. exists y', mo.
    destruct (GetMonthStats y' mo st); by simplify_eq.
Qed.

Lemma actualMinutes_eq (s : Session) :
  actualMinutes s =
    let q := Z.quot (ElapsedSeconds s) 60 in
    let d := Minutes_int (Sub (EndTime s) (StartTime s)) in
    if bool_decide (q ≠ 0) then q
    else if bool_decide (StartTime s ≠ 0 ∧ EndTime s ≠ 0 ∧ d ≠ 0) then d
    else Duration s.
Proof.
  unfold actualMinutes, IsZero. cbv zeta.
  repeat case_bool_decide; simpl; try done; try tauto; try lia.
  all: repeat case_bool_decide; simpl in *; try done; try tauto; try lia.
Qed.

End rollups.

(** C1 (amended). The actual minutes of a completed session are the quotient
    [ElapsedSeconds/60] when it is not zero; otherwise the whole-minute
    difference [EndTime - StartTime] when both timestamps are set and that
    difference is not zero; otherwise the planned duration. A session with 125
    elapsed seconds counts for 2 minutes whatever its other fields. On a
    readable store the total of each rollup (day, week and its days, month and
    its weeks, year and its months) is the sum of that value over the
    completed sessions of its bucket. *)
Theorem C1_actual_minutes_precedence {lib : GoLib} :
  (∀ s, actualMinutes s =
        let q := Z.quot (ElapsedSeconds s) 60 in
        let d := Minutes_int (Sub (EndTime s) (StartTime s)) in
        if bool_decide (q ≠ 0) then q
        else if bool_decide (StartTime s ≠ 0 ∧ EndTime s ≠ 0 ∧ d ≠ 0) then d
        else Duration s) ∧
  (∀ s, ElapsedSeconds s = 125 → actualMinutes s = 2) ∧
  (∀ st all, GetAllSessions st = Ok all →
     (∀ date, ∃ ds, GetDayStats date st = Ok ds ∧
        day_TotalMinutes ds
        = sumMinutes (completedIn (λ s, Date s = date) all)) ∧
     (∀ year week, ∃ ws, GetWeekStats year week st = Ok ws ∧
        week_TotalMinutes ws
        = sumMinutes (completedIn (λ s, Year s = year ∧ Week s = week) all) ∧
        ∀ d, d ∈ week_DailyStats ws →
          day_Sessions d
          = filter (λ s, Date s = day_Date d)
              (completedIn (λ s, Year s = year ∧ Week s = week) all) ∧
          day_TotalMinutes d = sumMinutes (day_Sessions d)) ∧
     (∀ year month, ∃ ms, GetMonthStats year month st = Ok ms ∧
        month_TotalMinutes ms
        = sumMinutes
            (completedIn (λ s, Month s = Sprintf_month year month) all) ∧
        ∀ w, w ∈ month_WeeklyStats ms →
          week_TotalMinutes w
          = sumMinutes
              (filter (λ s, Week s = week_Week w)
                 (completedIn (λ s, Month s = Sprintf_month year month)
                    all))) ∧
     (∀ year, ∃ ys, GetYearStats year st = Ok ys ∧
        year_TotalMinutes ys
        = sumMinutes (completedIn (λ s, Year s = year) all) ∧
        ∀ ms, ms ∈ year_MonthlyStats ys →
          ∃ y month, GetMonthStats y month st = Ok ms)).
Proof.
  split; [apply actualMinutes_eq|]. split.
  - intros s Hs. rewrite actualMinutes_eq, Hs. reflexivity.
  - intros st all Hall. unfold completedIn. repeat split.
    + intros date. eexists. split; [by apply GetDayStats_eq|done].
    + intros year week. eexists. split; [by apply GetWeekStats_eq|].
      split; [done|]. simpl. intros d Hd.
      apply list_elem_of_fmap in Hd as ([date ks] & -> & Hks).
      apply group_elem in Hks as [-> _]. done.
    + intros year month. eexists. split; [by apply GetMonthStats_eq|].
      split; [done|]. simpl. intros w Hw.
      apply list_elem_of_fmap in Hw as ([week ks] & -> & Hks).
      apply group_elem in Hks as [-> _]. done.
    + intros year.
      destruct (GetYearStats_eq st all year Hall) as (ys & ? & _ & ? & ?).
      eauto.
Qed.

Lemma C1_witness :
  let s := set_ElapsedSeconds 125 (sampleSession "a" false true) in
  let st := mkStorage (Holds [s]) Absent in
  GetAllSessions st = Ok [s] ∧
  ∃ ds, GetDayStats (lib := go_ref) "2024-03-04" st = Ok ds ∧
        day_TotalMinutes ds = 2.
Proof.
  split; [reflexivity|].
  destruct (proj1 (proj2 (proj2 (C1_actual_minutes_precedence (lib := go_ref)))
                     (mkStorage (Holds [set_ElapsedSeconds 125
                                          (sampleSession "a" false true)])
                        Absent) _ eq_refl) "2024-03-04")
    as (ds & Hds & Ht).
  exists ds. split; [exact Hds|]. rewrite Ht. reflexivity.
Defined.

(** C1, as stated, fails: a completed session with no elapsed seconds, both
    timestamps set thirty seconds apart and 25 planned minutes counts for 25
    minutes in the code, and for 0 by the stated precedence. *)
Lemma C1_counterexample :
  ¬ (∀ s : Session, Completed s = true →
       actualMinutes (lib := go_ref) s = spec_actualMinutes (lib := go_ref) s).
Proof.
  intros H.
  specialize (H {| ID := "a"; StartTime := 1000 * Minute;
                   EndTime := 1000 * Minute + 30 * Second; Duration := 25;
                   Completed := true; Date := "2024-03-04"; Week := 10;
                   Month := "2024-03"; Year := 2024; Active := false;
                   ElapsedSeconds := 0; Paused := false |} eq_refl).
  vm_compute in H. discriminate H.
Qed.

Lemma filter_ext_in {A} (P Q : A → Prop) `{∀ x, Decision (P x)}
    `{∀ x, Decision (Q x)} (l : list A) :
  (∀ x, x ∈ l → P x ↔ Q x) → filter P l = filter Q l.
Proof.
  induction l as [|a l IH]; intros HPQ; [done|].
  assert (P a ↔ Q a) as Ha by (apply HPQ; constructor).
  assert (filter P l = filter Q l) as Hl
    by (apply IH; intros; apply HPQ; by constructor).
  rewrite !filter_cons, Hl.
  destruct (decide (P a)), (decide (Q a)); tauto.
Qed.

(** C8 (amended). On a readable store whose sessions of one date carry one
    year and one ISO week, every per-day rollup inside GetWeekStats has the
    completed-session count and the total minutes that GetDayStats computes
    for that date. *)
Theorem C8_week_day_rollup_matches_day_stats {lib : GoLib} (st : Storage)
    (all : list Session) (year week : Z) (ws : WeekStats) (d : DayStats) :
  GetAllSessions st = Ok all →
  keysConsistent all →
  len all <= int_max →
  GetWeekStats year week st = Ok ws →
  d ∈ week_DailyStats ws →
  ∃ ds, GetDayStats (day_Date d) st = Ok ds ∧
        day_SessionsCount ds = day_SessionsCount d ∧
        day_TotalMinutes ds = day_TotalMinutes d.
Proof.
  intros Hall Hkeys Hlen Hws Hd.
  rewrite (GetWeekStats_eq _ _ _ _ Hall) in Hws. simplify_eq/=.
  apply list_elem_of_fmap in Hd as ([date ks] & -> & Hks).
  apply group_elem in Hks as [Hks Hne]. simpl.
  eexists. split; [by apply GetDayStats_eq|]. simpl.
  assert (filter (λ s, Completed s = true) (filter (λ s, Date s = date) all)
          = ks) as ->.
  { assert (∃ s0, s0 ∈ ks) as [s0 Hs0].
    { destruct ks as [|s0 ?]; [done|]. exists s0. set_solver. }
    rewrite Hks, !list_elem_of_filter in Hs0.
    destruct Hs0 as (Hdate & Hc & [Hy Hw] & Hin).
    rewrite Hks, !list_filter_filter.
    apply filter_ext_in. intros x Hx. split; [|tauto].
    intros [Hcx Hdx].
    destruct (Hkeys x s0 Hx Hin) as [? ?]; [congruence|].
    repeat split; congruence. }
  split; [|done]. apply wrap_id.
  assert (length ks ≤ length all)%nat.
  { subst ks. etrans; [apply length_filter|]. etrans; [apply length_filter|].
    apply length_filter. }
  unfold in_int, int_min, len in *. lia.
Qed.

Lemma C8_witness :
  let s := set_ElapsedSeconds 1800 (sampleSession "a" false true) in
  let st := mkStorage (Holds [s]) Absent in
  GetWeekStats (lib := go_ref) 2024 10 st
  = Ok (mkWeekStats 10 2024 1 30 [mkDayStats "2024-03-04" 1 30 [s]]) ∧
  ∃ ds, GetDayStats (lib := go_ref) "2024-03-04" st = Ok ds ∧
        day_SessionsCount ds = 1 ∧ day_TotalMinutes ds = 30.
Proof.
  split; [vm_compute; reflexivity|].
  refine (C8_week_day_rollup_matches_day_stats (lib := go_ref)
            (mkStorage (Holds [set_ElapsedSeconds 1800
                                 (sampleSession "a" false true)]) Absent)
            [set_ElapsedSeconds 1800 (sampleSession "a" false true)]
            2024 10
            (mkWeekStats 10 2024 1 30
               [mkDayStats "2024-03-04" 1 30
                  [set_ElapsedSeconds 1800 (sampleSession "a" false true)]])
            (mkDayStats "2024-03-04" 1 30
               [set_ElapsedSeconds 1800 (sampleSession "a" false true)])
            eq_refl _ _ _ _).
  - intros s1 s2 H1 H2 _.
    apply list_elem_of_singleton in H1, H2. subst. split; reflexivity.
  - vm_compute. discriminate.
  - vm_compute. reflexivity.
  - constructor.
Defined.

(** C8, as stated for every collection, fails: with two completed sessions of
    one date filed under two different weeks, the day rollup of the first week
    counts one session and 30 minutes, and GetDayStats of that date counts two
    sessions and 60 minutes. *)
Lemma C8_counterexample :
  ¬ (∀ (st : Storage) (year week : Z) (ws : WeekStats) (d ds : DayStats),
       GetWeekStats (lib := go_ref) year week st = Ok ws →
       d ∈ week_DailyStats ws →
       GetDayStats (lib := go_ref) (day_Date d) st = Ok ds →
       day_SessionsCount ds = day_SessionsCount d ∧
       day_TotalMinutes ds = day_TotalMinutes d).
Proof.
  intros H.
  pose (s1 := set_ElapsedSeconds 1800 (sampleSession "a" false true)).
  pose (s2 := mkSession "b" 0 0 25 true "2024-03-04" 11 "2024-03" 2024 false
                1800 false).
  destruct (H (mkStorage (Holds [s1; s2]) Absent) 2024 10
              (mkWeekStats 10 2024 1 30 [mkDayStats "2024-03-04" 1 30 [s1]])
              (mkDayStats "2024-03-04" 1 30 [s1])
              (mkDayStats "2024-03-04" 2 60 [s1; s2])) as [Hc _].
  - vm_compute. reflexivity.
  - constructor.
  - vm_compute. reflexivity.
  - discriminate Hc.
Qed.

(** ** At most one active session *)

Lemma filter_insert_length {A} (P : A → Prop) `{∀ x, Decision (P x)}
    (l : list A) i x :
  (length (filter P (<[i := x]> l))
   ≤ length (filter P l) + (if decide (P x) then 1 else 0))%nat.
Proof.
  revert i. induction l as [|a l IH]; intros i; [simpl; lia|].
  destruct i as [|i]; simpl.
  - rewrite !filter_cons. repeat case_decide; simpl; lia.
  - rewrite !filter_cons. specialize (IH i).
    repeat case_decide; simpl in *; lia.
Qed.

Lemma upsert_count (P : Session → Prop) `{∀ x, Decision (P x)} s l :
  (length (filter P (upsert s l))
   ≤ length (filter P l) + (if decide (P s) then 1 else 0))%nat.
Proof.
  destruct (upsert_cases s l) as [(i & r & _ & _ & _ & ->)|[_ ->]].
  - apply filter_insert_length.
  - rewrite filter_app, length_app, filter_cons, filter_nil.
    case_decide; simpl; lia.
Qed.

Lemma stored_write l st : stored (writeSessions l st) = l.
Proof. reflexivity. Qed.

Lemma stored_Err st e : GetAllSessions st = Err e → stored st = [].
Proof. unfold stored. by intros ->. Qed.

Lemma stored_Ok st l : GetAllSessions st = Ok l → stored st = l.
Proof. unfold stored. by intros ->. Qed.

Lemma SaveSession_count s st :
  (activeCount (SaveSession s st).2
   ≤ activeCount st + (if Active s then 1 else 0))%nat.
Proof.
  unfold activeCount.
  destruct (GetAllSessions st) as [l|e] eqn:Hl.
  - rewrite (SaveSession_Ok _ _ _ Hl), (stored_Ok _ _ Hl).
    cbn [snd]. rewrite stored_write.
    etrans; [apply upsert_count|].
    case_decide as Hd; destruct (Active s); try done; lia.
  - rewrite (SaveSession_Err _ _ _ Hl). cbn [snd]. lia.
Qed.

Lemma Deactivate_count st : activeCount (DeactivateAllSessions st).2 = 0%nat.
Proof.
  unfold activeCount, DeactivateAllSessions.
  destruct (GetAllSessions st) as [l|e] eqn:Hl; simpl.
  - rewrite stored_write. clear Hl. induction l as [|a l IH]; [done|].
    rewrite fmap_cons, filter_cons_False; [exact IH|]. simpl. congruence.
  - by rewrite (stored_Err _ _ Hl).
Qed.

Lemma Deactivate_readable st l :
  GetAllSessions st = Ok l →
  GetAllSessions (DeactivateAllSessions st).2 = Ok (set_Active false <$> l).
Proof. unfold DeactivateAllSessions. by intros ->. Qed.

Lemma saveActive_inactive_count f m st :
  (∀ s, Active (f s) = false) →
  (activeCount (saveActive f m st).2 ≤ activeCount st)%nat.
Proof.
  intros Hf. unfold saveActive. destruct (activeSession m) as [s|]; [|done].
  simpl. etrans; [apply SaveSession_count|]. rewrite Hf. lia.
Qed.

Section ops.
Context {lib : GoLib}.

Lemma startNewSession_store env m st :
  (startNewSession env m st).2
  = (SaveSession
       {| ID := uuid env; StartTime := now env; EndTime := 0;
          Duration := SessionDuration (config m); Completed := false;
          Date := today env; Week := isoWeek env; Month := monthKey env;
          Year := yearNow env; Active := true; ElapsedSeconds := 0;
          Paused := false |}
       (DeactivateAllSessions st).2).2.
Proof. reflexivity. Qed.

Lemma cancelSession_store env m st :
  (cancelSession env m st).2
  = (saveActive (λ s, set_ElapsedSeconds (timerElapsed m) (set_Active false
                        (set_Completed false (set_EndTime (now env) s))))
       m st).2.
Proof. unfold cancelSession. by destruct (saveActive _ m st). Qed.

Lemma completeSession_store env m st :
  (completeSession env m st).2
  = (saveActive (λ s, set_ElapsedSeconds (timerElapsed m) (set_Active false
                        (set_Completed true (set_EndTime (now env) s))))
       m st).2.
Proof.
  unfold completeSession. destruct (saveActive _ m st) as [m1 st1].
  by case_match.
Qed.

Lemma applyOp_store env op m st :
  (applyOp env op m st).2
  = match op with
    | OpStart => (startNewSession env m st).2
    | OpCancel => (cancelSession env m st).2
    | OpComplete => (completeSession env m st).2
    end.
Proof.
  unfold applyOp.
  destruct op;
    [destruct (startNewSession env m st) as [[??]?]
    |destruct (cancelSession env m st) as [[??]?]
    |destruct (completeSession env m st) as [[??]?]]; done.
Qed.

Lemma applyOp_at_most_one env op m st :
  atMostOneActive st → atMostOneActive (applyOp env op m st).2.
Proof.
  unfold atMostOneActive. intros Hst. rewrite applyOp_store. destruct op.
  - rewrite startNewSession_store.
    etrans; [apply SaveSession_count|]. rewrite Deactivate_count. simpl. lia.
  - rewrite cancelSession_store.
    etrans; [by apply saveActive_inactive_count|done].
  - rewrite completeSession_store.
    etrans; [by apply saveActive_inactive_count|done].
Qed.

Lemma start_exactly_one env m st l :
  GetAllSessions st = Ok l →
  activeCount (applyOp env OpStart m st).2 = 1%nat.
Proof.
  intros Hl. rewrite applyOp_store, startNewSession_store.
  apply Nat.le_antisymm.
  - etrans; [apply SaveSession_count|]. rewrite Deactivate_count. simpl. lia.
  - unfold activeCount.
    rewrite (SaveSession_Ok _ _ _ (Deactivate_readable _ _ Hl)). simpl.
    rewrite stored_write.
    match goal with |- (_ ≤ length (filter ?P (upsert ?s ?l0)))%nat =>
      assert (s ∈ filter P (upsert s l0)) as Hin
        by (apply list_elem_of_filter; split; [done|apply upsert_elem]);
      destruct (filter P (upsert s l0)); [by inversion Hin|simpl; lia]
    end.
Qed.

End ops.

(** C2. Whatever the sequence of start, cancel and complete operations of the
    dashboard, run from a store with at most one active session (the empty
    store of a first run is one), the store has at most one active session
    after the sequence, hence after each operation of it; and on a readable
    store a start leaves exactly one. *)
Theorem C2_at_most_one_active {lib : GoLib} (ops : list (Env * Op))
    (m : Model) (st : Storage) :
  atMostOneActive st →
  atMostOneActive (runOps ops m st).2 ∧
  (∀ env l, GetAllSessions (runOps ops m st).2 = Ok l →
     activeCount
       (applyOp env OpStart (runOps ops m st).1 (runOps ops m st).2).2
     = 1%nat).
Proof.
  intros Hst. split.
  - revert m st Hst. induction ops as [|[env op] ops IH]; intros m st Hst;
      [done|].
    unfold runOps. cbn [foldl].
    destruct (applyOp env op m st) as [m1 st1] eqn:E.
    apply IH. change st1 with (m1, st1).2. rewrite <- E.
    by apply applyOp_at_most_one.
  - intros env l Hl. by eapply start_exactly_one.
Qed.

Lemma C2_witness :
  let st := mkStorage Absent Absent in
  let env := mkEnv "id-1" (1000 * Minute) "2024-03-04" 10 "2024-03" 2024 3 in
  let m := mkModel DefaultConfig zeroDayStats zeroWeekStats
             (mkMonthStats "" 0 0 0 []) (mkYearStats 0 0 0 []) None HomeView
             0 0 false false 0 3600 help.New "" false false false in
  atMostOneActive st ∧
  atMostOneActive
    (runOps (lib := go_ref) [(env, OpStart); (env, OpComplete); (env, OpStart)]
       m st).2.
Proof.
  split; [vm_compute; lia|].
  refine (proj1 (C2_at_most_one_active (lib := go_ref) _ _ _ _)).
  vm_compute. lia.
Defined.

(** ** The dashboard timer *)

Lemma SaveSession_readable s st l :
  GetAllSessions st = Ok l →
  GetAllSessions (SaveSession s st).2 = Ok (upsert s l).
Proof. intros Hl. by rewrite (SaveSession_Ok _ _ _ Hl). Qed.

Lemma SaveSession_stored_elem s st l :
  GetAllSessions st = Ok l → s ∈ stored (SaveSession s st).2.
Proof.
  intros Hl. rewrite (stored_Ok _ _ (SaveSession_readable s _ _ Hl)).
  apply upsert_elem.
Qed.

Lemma GetAllSessions_ext st1 st2 :
  sessionsFile st1 = sessionsFile st2 → GetAllSessions st1 = GetAllSessions st2.
Proof. unfold GetAllSessions. by intros ->. Qed.

Lemma GetActiveSession_ext st1 st2 :
  sessionsFile st1 = sessionsFile st2 →
  GetActiveSession st1 = GetActiveSession st2.
Proof.
  intros H. unfold GetActiveSession. by rewrite (GetAllSessions_ext _ _ H).
Qed.

Lemma GetConfig_sessions st r st1 :
  GetConfig st = (r, st1) → sessionsFile st1 = sessionsFile st.
Proof.
  unfold GetConfig, SaveConfig. destruct (load (configFile st)) as [c|e].
  - by intros [= _ <-].
  - destruct (IsNotExist e); [destruct (nextFails st)|]; by intros [= _ <-].
Qed.

Lemma GetActiveSession_stored st s :
  GetActiveSession st = Ok (Some s) →
  ∃ l, GetAllSessions st = Ok l ∧ s ∈ l ∧ isActive s.
Proof.
  unfold GetActiveSession. destruct (GetAllSessions st) as [l|e]; [|done].
  intros [= H]. exists l. split; [done|].
  destruct (list_find _ l) as [[i x]|] eqn:Hf; simplify_eq/=.
  apply list_find_Some in Hf as (Hi & Hx & _).
  split; [by eapply list_elem_of_lookup_2|done].
Qed.

Lemma saveActive_Some f m st s :
  activeSession m = Some s →
  saveActive f m st
  = (set_activeSession (Some (f s)) m, (SaveSession (f s) st).2).
Proof. unfold saveActive. by intros ->. Qed.

Section dashboard_timer.
Context {lib : GoLib}.

Lemma completeSession_fields env m st :
  let r := completeSession env m st in
  timerRunning r.1.1 = false ∧ timerPaused r.1.1 = false ∧
  timerElapsed r.1.1 = 0 ∧ activeSession r.1.1 = None.
Proof.
  unfold completeSession. destruct (saveActive _ m st) as [m1 st1].
  by case_match.
Qed.

(** A tick outside a running, unpaused timer changes nothing. *)
Lemma tick_idle env m st :
  timerRunning m && negb (timerPaused m) = false →
  Update env tickMsg m st = (m, tea.Nil, st).
Proof. intros H. simpl. by rewrite H. Qed.

(** The shape of a tick of the running timer. *)
Lemma tick_running env m st s :
  timerRunning m = true → timerPaused m = false →
  activeSession m = Some s →
  timerElapsed m < int_max → int_min <= timerElapsed m →
  let e := timerElapsed m + 1 in
  let checkpoint := bool_decide (Z.rem e 10 = 0) in
  let s1 := if checkpoint then set_ElapsedSeconds e s else s in
  let st1 := if checkpoint then (SaveSession s1 st).2 else st in
  let m1 := set_activeSession (Some s1) (set_timerElapsed e m) in
  Update env tickMsg m st
  = if e >=? timerDuration m then completeSession env m1 st1
    else (m1, tea.Tick, st1).
Proof.
  intros Hr Hp Hs Hmax Hmin e checkpoint s1 st1 m1.
  cbn [Update]. rewrite Hr, Hp. cbn [andb negb].
  unfold int_add. rewrite wrap_id by (unfold in_int; lia).
  fold e. cbn [timerElapsed set_timerElapsed set_timer].
  fold checkpoint. subst s1 st1 m1. destruct checkpoint.
  - rewrite (saveActive_Some _ _ _ s) by done. reflexivity.
  - destruct m; simpl in *; subst; reflexivity.
Qed.

End dashboard_timer.

(** ** The timer view *)

Lemma saveCurrent_Some f m st s :
  timer.currentSession m = Some s →
  timer.saveCurrent f m st
  = (timer.set_currentSession (Some (f s)) m, (SaveSession (f s) st).2).
Proof. unfold timer.saveCurrent. by intros ->. Qed.

Lemma timer_tick_idle env m st :
  timer.running m && negb (timer.paused m) && negb (timer.finished m) = false →
  timer.Update env timer.tickMsg m st = (m, tea.Nil, st).
Proof. intros H. simpl. by rewrite H. Qed.

Lemma timer_tick_running env m st s :
  timer.running m = true → timer.paused m = false →
  timer.finished m = false → timer.currentSession m = Some s →
  timer.elapsed m < int_max → int_min <= timer.elapsed m →
  let e := timer.elapsed m + 1 in
  let checkpoint := bool_decide (Z.rem e 10 = 0) in
  let s1 := if checkpoint then set_ElapsedSeconds e s else s in
  let st1 := if checkpoint then (SaveSession s1 st).2 else st in
  let m1 := timer.set_currentSession (Some s1) (timer.set_elapsed e m) in
  let s2 := set_Active false (set_Completed true (set_EndTime (now env) s1)) in
  timer.Update env timer.tickMsg m st
  = if e >=? timer.duration m
    then (timer.set_currentSession (Some s2)
            (timer.set_running false (timer.set_finished true m1)),
          tea.Batch (tea.Println "Session completed!") tea.Quit,
          (SaveSession s2 st1).2)
    else (m1, tea.Tick, st1).
Proof.
  intros Hr Hp Hf Hs Hmax Hmin e checkpoint s1 st1 m1 s2.
  cbn [timer.Update]. rewrite Hr, Hp, Hf. cbn [andb negb].
  unfold int_add. rewrite wrap_id by (unfold in_int; lia).
  fold e. cbn [timer.elapsed timer.set_elapsed].
  fold checkpoint. subst s2 s1 st1 m1. destruct checkpoint.
  - rewrite (saveCurrent_Some _ _ _ s) by done.
    cbn [timer.elapsed timer.duration timer.set_currentSession
         timer.set_elapsed].
    destruct (e >=? timer.duration m); [|reflexivity].
    by rewrite (saveCurrent_Some _ _ _ (set_ElapsedSeconds e s)).
  - cbn [timer.elapsed timer.duration timer.set_elapsed].
    destruct (e >=? timer.duration m).
    + rewrite (saveCurrent_Some _ _ _ s) by done.
      destruct m; simpl in *; subst; reflexivity.
    + destruct m; simpl in *; subst; reflexivity.
Qed.

Lemma geb_true a b : b <= a → (a >=? b) = true.
Proof. intros H. rewrite Z.geb_leb. by apply Z.leb_le. Qed.

Lemma geb_false a b : a < b → (a >=? b) = false.
Proof. intros H. rewrite Z.geb_leb. by apply Z.leb_gt. Qed.

(** The tick on which the count reaches the duration of the timer. *)
Lemma tick_completes {lib : GoLib} env m st s l :
  timerRunning m = true → timerPaused m = false →
  activeSession m = Some s →
  int_min <= timerElapsed m < int_max →
  GetAllSessions st = Ok l →
  timerDuration m <= timerElapsed m + 1 →
  let e := timerElapsed m + 1 in
  let r := Update env tickMsg m st in
  set_ElapsedSeconds e (set_Active false (set_Completed true
    (set_EndTime (now env) s))) ∈ stored r.2 ∧
  timerRunning r.1.1 = false ∧ activeSession r.1.1 = None ∧
  ∀ env', Update env' tickMsg r.1.1 r.2 = (r.1.1, tea.Nil, r.2).
Proof.
  intros Hr Hp Hs [Hmin Hmax] Hl Hge e r. subst r.
  rewrite (tick_running env m st s) by done. cbv zeta. fold e.
  rewrite geb_true by done.
  match goal with |- context [completeSession env ?m1 ?st1] =>
    pose proof (completeSession_fields env m1 st1) as (Hf1 & Hf2 & _ & Hf4);
    pose proof (completeSession_store env m1 st1) as Hst;
    set (r := completeSession env m1 st1) in *
  end.
  rewrite (saveActive_Some _ _ _
             (if bool_decide (Z.rem e 10 = 0)
              then set_ElapsedSeconds e s else s)) in Hst by done.
  cbn [snd timerElapsed set_activeSession set_timerElapsed set_timer] in Hst.
  repeat split; [|done|done|].
  - rewrite Hst. destruct (bool_decide (Z.rem e 10 = 0)).
    + eapply (SaveSession_stored_elem
                (set_ElapsedSeconds e (set_Active false
                   (set_Completed true (set_EndTime (now env)
                      (set_ElapsedSeconds e s)))))).
      by apply SaveSession_readable.
    + by eapply SaveSession_stored_elem.
  - intros env'. apply tick_idle. by rewrite Hf1.
Qed.

(** When the count was below the duration before the tick, the session is
    stored with exactly the planned seconds. *)
Lemma tick_completes_at_planned {lib : GoLib} env m st s l :
  timerRunning m = true → timerPaused m = false →
  activeSession m = Some s →
  int_min <= timerElapsed m < timerDuration m →
  timerDuration m <= int_max →
  timerDuration m = Duration s * 60 →
  GetAllSessions st = Ok l →
  timerDuration m <= timerElapsed m + 1 →
  set_ElapsedSeconds (Duration s * 60) (set_Active false (set_Completed true
    (set_EndTime (now env) s))) ∈ stored (Update env tickMsg m st).2.
Proof.
  intros Hr Hp Hs [Hmin Hlt] Hmax Hd Hl Hge.
  destruct (tick_completes env m st s l) as (H & _); try done; [lia|].
  by replace (Duration s * 60) with (timerElapsed m + 1) by lia.
Qed.

(** C4. A tick of a running, unpaused timer adds one to the elapsed seconds.
    When the count reaches the planned duration in seconds the session is
    saved with its end time set to the current time, completed, not active,
    and the timer stops: later ticks change nothing. This holds of the
    dashboard and of the timer view. A session of one planned minute started
    and ticked 60 times is stored completed, not active, with 60 elapsed
    seconds (and is still running after 59 ticks). *)
Theorem C4_tick_counts_and_completes {lib : GoLib} :
  (∀ env m st s l,
     timerRunning m = true → timerPaused m = false →
     activeSession m = Some s →
     timerDuration m = Duration s * 60 →
     int_min <= timerElapsed m < int_max →
     GetAllSessions st = Ok l →
     let e := timerElapsed m + 1 in
     let r := Update env tickMsg m st in
     (e < Duration s * 60 →
        timerElapsed r.1.1 = e ∧ timerRunning r.1.1 = true ∧
        timerPaused r.1.1 = false ∧ r.1.2 = tea.Tick) ∧
     (Duration s * 60 <= e →
        set_ElapsedSeconds e (set_Active false (set_Completed true
          (set_EndTime (now env) s))) ∈ stored r.2 ∧
        timerRunning r.1.1 = false ∧ activeSession r.1.1 = None ∧
        ∀ env', Update env' tickMsg r.1.1 r.2 = (r.1.1, tea.Nil, r.2))) ∧
  (∀ env m st s l,
     timer.running m = true → timer.paused m = false →
     timer.finished m = false → timer.currentSession m = Some s →
     timer.duration m = Duration s * 60 →
     int_min <= timer.elapsed m < int_max →
     GetAllSessions st = Ok l →
     let e := timer.elapsed m + 1 in
     let r := timer.Update env timer.tickMsg m st in
     (e < Duration s * 60 →
        timer.elapsed r.1.1 = e ∧ timer.running r.1.1 = true ∧
        timer.finished r.1.1 = false ∧ r.1.2 = tea.Tick) ∧
     (Duration s * 60 <= e →
        (∃ x, x ∈ stored r.2 ∧ timer.currentSession r.1.1 = Some x ∧
              ID x = ID s ∧ EndTime x = now env ∧ Completed x = true ∧
              Active x = false ∧
              (e = Duration s * 60 → ElapsedSeconds x = e)) ∧
        timer.running r.1.1 = false ∧ timer.finished r.1.1 = true ∧
        ∀ env', timer.Update env' timer.tickMsg r.1.1 r.2
                = (r.1.1, tea.Nil, r.2))) ∧
  (let env := mkEnv "id-1" (1000 * Minute) "2024-03-04" 10 "2024-03" 2024 3 in
   let st0 := mkStorage Absent (Holds (mkConfig 1 8 8 16)) in
   ∃ m0, New (lib := go_ref) env st0 = (Ok m0, st0) ∧
     (let r := run (lib := go_ref)
                 ((env, KeyMsg "s") :: replicate 59 (env, tickMsg)) m0 st0 in
      timerRunning r.1 = true ∧ timerElapsed r.1 = 59) ∧
     (let r := run (lib := go_ref)
                 ((env, KeyMsg "s") :: replicate 60 (env, tickMsg)) m0 st0 in
      timerRunning r.1 = false ∧ activeSession r.1 = None ∧
      ∃ x, stored r.2 = [x] ∧ Duration x = 1 ∧ ElapsedSeconds x = 60 ∧
           Completed x = true ∧ Active x = false ∧ EndTime x = now env)) ∧
  (let env := mkEnv "id-1" (1000 * Minute) "2024-03-04" 10 "2024-03" 2024 3 in
   let st0 := mkStorage Absent Absent in
   (let r := timer_run ((env, timer.KeyMsg "s")
                        :: replicate 59 (env, timer.tickMsg))
               (timer.New 1) st0 in
    timer.running r.1 = true ∧ timer.elapsed r.1 = 59) ∧
   (let r := timer_run ((env, timer.KeyMsg "s")
                        :: replicate 60 (env, timer.tickMsg))
               (timer.New 1) st0 in
    timer.running r.1 = false ∧ timer.finished r.1 = true ∧
    ∃ x, stored r.2 = [x] ∧ Duration x = 1 ∧ ElapsedSeconds x = 60 ∧
         Completed x = true ∧ Active x = false ∧ EndTime x = now env)).
Proof.
  split; [|split; [|split]].
  - intros env m st s l Hr Hp Hs Hd [Hmin Hmax] Hl e r. subst r. split.
    + intros Hlt. rewrite (tick_running env m st s) by done. cbv zeta.
      fold e. rewrite Hd, geb_false by done. done.
    + intros Hge. rewrite <- Hd in Hge.
      by apply (tick_completes env m st s l).
  - intros env m st s l Hr Hp Hf Hs Hd [Hmin Hmax] Hl e r. subst r.
    rewrite (timer_tick_running env m st s) by done. cbv zeta. fold e.
    rewrite Hd. split.
    + intros Hlt. rewrite geb_false by done. done.
    + intros Hge. rewrite geb_true by done. cbn [fst snd].
      split; [|split; [done|split; [done|]]];
        [|by intros; apply timer_tick_idle].
      eexists. split; [|split; [reflexivity|]].
      * destruct (bool_decide (Z.rem e 10 = 0)).
        -- eapply SaveSession_stored_elem. by apply SaveSession_readable.
        -- by eapply SaveSession_stored_elem.
      * repeat split; try by destruct (bool_decide (Z.rem e 10 = 0)).
        intros He. rewrite bool_decide_eq_true_2; [done|].
        rewrite He, Z.mul_comm.
        replace (60 * Duration s) with (Duration s * 6 * 10) by lia.
        apply Z.rem_mul. lia.
  - eexists. split; [vm_compute; reflexivity|]. split.
    + vm_compute. done.
    + vm_compute. repeat split. eexists. repeat split.
  - split.
    + vm_compute. done.
    + vm_compute. repeat split. eexists. repeat split.
Qed.

Lemma C4_witness :
  let env := mkEnv "id-1" (1000 * Minute) "2024-03-04" 10 "2024-03" 2024 3 in
  let s := mkSession "id-1" (999 * Minute) 0 1 false "2024-03-04" 10
             "2024-03" 2024 true 50 false in
  let st := mkStorage (Holds [s]) Absent in
  let m := mkModel DefaultConfig zeroDayStats zeroWeekStats
             (mkMonthStats "" 0 0 0 []) (mkYearStats 0 0 0 []) (Some s)
             HomeView 0 0 true false 59 60 help.New "" false false false in
  set_ElapsedSeconds 60 (set_Active false (set_Completed true
    (set_EndTime (now env) s)))
  ∈ stored (Update (lib := go_ref) env tickMsg m st).2.
Proof.
  intros env s st m.
  refine (proj1 (proj2 (proj1 (C4_tick_counts_and_completes (lib := go_ref))
                          env m st s [s] eq_refl eq_refl eq_refl eq_refl
                          _ eq_refl) _)).
  - unfold int_min, int_max. simpl. lia.
  - simpl. lia.
Defined.

(** C3. When the store holds an active session at start-up, the dashboard
    takes it up as a running timer. If the session was paused, the elapsed
    time is the stored [ElapsedSeconds]; otherwise it is the number of seconds
    from [StartTime] to now, capped at the planned duration in seconds: when
    now is [k] whole seconds after [StartTime], it is the smaller of [k] and
    the planned seconds. The conversion [int(d.Seconds())] is exact on a
    whole number of seconds: that is the hypothesis on the library. A
    session that was not paused, planned for 30 minutes and started 45
    minutes before now is taken up with 1800 elapsed seconds, not 2700, and
    the first tick stores it completed and stops the timer. *)
Theorem C3_resume_after_restart {lib : GoLib} (env : Env) (st st' : Storage)
    (s : Session) (m : Model) :
  (∀ k, minDuration <= k * Second <= maxDuration →
        Seconds_int (k * Second) = k) →
  GetActiveSession st = Ok (Some s) →
  New env st = (Ok m, st') →
  activeSession m = Some s ∧ timerRunning m = true ∧
  timerPaused m = Paused s ∧
  (Paused s = true → timerElapsed m = ElapsedSeconds s) ∧
  (Paused s = false → in_int (Duration s * 60) →
     timerElapsed m
     = Z.min (Seconds_int (Sub (now env) (StartTime s))) (Duration s * 60)) ∧
  (Paused s = false → in_int (Duration s * 60) →
     ∀ k, now env = StartTime s + k * Second →
          minDuration <= k * Second <= maxDuration →
          timerElapsed m = Z.min k (Duration s * 60)) ∧
  (Paused s = false → Duration s = 30 →
     now env = StartTime s + 45 * Minute →
     timerElapsed m = 1800 ∧
     ∀ env', let r := Update env' tickMsg m st' in
       timerRunning r.1.1 = false ∧ activeSession r.1.1 = None ∧
       ∃ x, x ∈ stored r.2 ∧ ID x = ID s ∧ Completed x = true ∧
            Active x = false ∧ EndTime x = now env').
Proof.
  intros Hlib Hact Hnew. unfold New in Hnew.
  destruct (GetConfig st) as [[c|[c e]] st1] eqn:Hc; [|done].
  assert (GetActiveSession st1 = Ok (Some s)) as Ha.
  { rewrite <- Hact. apply GetActiveSession_ext.
    by eapply GetConfig_sessions. }
  rewrite Ha in Hnew. cbv zeta in Hnew.
  destruct (Paused s) eqn:Hp; cbn [negb] in Hnew;
    injection Hnew as <- <-; cbn [activeSession timerRunning timerPaused
      timerElapsed set_timer].
  - repeat split; done.
  - split; [done|]. split; [done|]. split; [done|]. split; [done|].
    assert (∀ d, in_int (Duration s * 60) → Duration s * 60 = d →
              (if Seconds_int (Sub (now env) (StartTime s))
                  >? int_mul (Duration s) 60
               then int_mul (Duration s) 60
               else Seconds_int (Sub (now env) (StartTime s)))
              = Z.min (Seconds_int (Sub (now env) (StartTime s))) d) as Hmin.
    { intros d Hin <-. unfold int_mul. rewrite wrap_id by done.
      rewrite Z.gtb_ltb.
      destruct (Z.ltb_spec (Duration s * 60)
                  (Seconds_int (Sub (now env) (StartTime s)))); lia. }
    assert (∀ k, now env = StartTime s + k * Second →
              minDuration <= k * Second <= maxDuration →
              Seconds_int (Sub (now env) (StartTime s)) = k) as Hdiff.
    { intros k Hk Hrange. unfold Sub.
      replace (now env - StartTime s) with (k * Second) by lia.
      rewrite bool_decide_eq_false_2 by lia.
      rewrite bool_decide_eq_false_2 by lia.
      by apply Hlib. }
    split; [by intros _ Hin; apply Hmin|].
    split.
    { intros _ Hin k Hk Hrange. rewrite (Hmin _ Hin eq_refl).
      by rewrite (Hdiff k Hk Hrange). }
    intros _ Hd Hnow.
    assert (in_int (Duration s * 60)) as Hin
      by (rewrite Hd; unfold in_int, int_min, int_max; lia).
    assert (Seconds_int (Sub (now env) (StartTime s)) = 2700) as Hsec.
    { apply Hdiff; [rewrite Hnow; unfold Minute; lia|].
      unfold minDuration, maxDuration, int_min, int_max, Second. lia. }
    rewrite (Hmin 1800 Hin) by lia. rewrite Hsec.
    split; [reflexivity|]. intros env'.
    destruct (GetActiveSession_stored _ _ Ha) as (l & Hl & _ & _).
    match goal with |- context [Update env' tickMsg ?m0 st1] =>
      assert (int_min <= timerElapsed m0 < int_max) as Hb
        by (cbn [timerElapsed set_timer]; unfold int_min, int_max; simpl; lia);
      assert (timerDuration m0 <= timerElapsed m0 + 1) as Hge
        by (cbn [timerElapsed timerDuration set_timer]; unfold int_mul;
            rewrite wrap_id by done; rewrite Hd; simpl; lia);
      destruct (tick_completes env' m0 st1 s l eq_refl eq_refl eq_refl
                  Hb Hl Hge) as (H1 & H2 & H3 & _)
    end.
    split; [done|]. split; [done|]. eexists. split; [exact H1|done].
Qed.

Lemma C3_witness :
  let s := mkSession "id-1" (1000 * Minute) 0 30 false "2024-03-04" 10
             "2024-03" 2024 true 600 false in
  let st := mkStorage (Holds [s]) (Holds DefaultConfig) in
  let env := mkEnv "id-2" (1045 * Minute) "2024-03-04" 10 "2024-03" 2024 3 in
  let env10 :=
    mkEnv "id-2" (1010 * Minute) "2024-03-04" 10 "2024-03" 2024 3 in
  GetActiveSession st = Ok (Some s) ∧
  (∃ m, New (lib := go_ref) env st = (Ok m, st) ∧ timerElapsed m = 1800) ∧
  (∃ m, New (lib := go_ref) env10 st = (Ok m, st) ∧ timerElapsed m = 600).
Proof.
  intros s st env env10.
  assert (∀ k, minDuration <= k * Second <= maxDuration →
            Seconds_int (GoLib := go_ref) (k * Second) = k) as Hlib
    by (intros k _; apply Z.quot_mul; discriminate).
  split; [reflexivity|]. split.
  - eexists. split; [vm_compute; reflexivity|].
    refine (proj1 (proj2 (proj2 (proj2 (proj2 (proj2 (proj2
              (C3_resume_after_restart (lib := go_ref) env st st s _
                 Hlib eq_refl _)))))) eq_refl eq_refl eq_refl)).
    vm_compute. reflexivity.
  - eexists. split; [vm_compute; reflexivity|].
    refine (proj1 (proj2 (proj2 (proj2 (proj2 (proj2
              (C3_resume_after_restart (lib := go_ref) env10 st st s _
                 Hlib eq_refl _)))))) eq_refl _ 600 eq_refl _).
    + vm_compute. reflexivity.
    + unfold in_int, int_min, int_max. simpl. lia.
    + unfold minDuration, maxDuration, int_min, int_max, Second. lia.
Defined.

(** ** Leaving the program with a session in flight *)

(** The Home and Quit keys of the timer view save the session paused. *)
Lemma timer_home_quit_pause env m st s k :
  k = "h" ∨ k = "q" ∨ k = "ctrl+c" →
  timer.running m = true → timer.finished m = false →
  timer.currentSession m = Some s →
  (timer.Update env (timer.KeyMsg k) m st).2
  = (SaveSession (set_Paused true (set_ElapsedSeconds (timer.elapsed m) s))
       st).2 ∧
  (timer.Update env (timer.KeyMsg k) m st).1.2 = tea.Quit.
Proof.
  intros Hk Hr Hf Hs. destruct m. simpl in *. subst.
  destruct Hk as [-> | [-> | ->]]; split; reflexivity.
Qed.

(** The Menu key of the timer view saves the session with the pause flag of
    the moment. *)
Lemma timer_menu_keeps_pause env m st s :
  timer.running m = true → timer.finished m = false →
  timer.currentSession m = Some s →
  (timer.Update env (timer.KeyMsg "m") m st).2
  = (SaveSession (set_Paused (timer.paused m)
                    (set_ElapsedSeconds (timer.elapsed m) s)) st).2 ∧
  (timer.Update env (timer.KeyMsg "m") m st).1.2 = tea.Quit.
Proof.
  intros Hr Hf Hs. destruct m. simpl in *. subst. split; reflexivity.
Qed.

(** The Quit key of the dashboard saves the session with the pause flag of
    the moment; the Settings key leaves the store as it is. *)
Lemma dashboard_quit_keeps_pause {lib : GoLib} env m st s k :
  k = "q" ∨ k = "ctrl+c" →
  viewState m ≠ HelpView → timerRunning m = true →
  activeSession m = Some s →
  (Update env (KeyMsg k) m st).2
  = (SaveSession (set_Paused (timerPaused m)
                    (set_ElapsedSeconds (timerElapsed m) s)) st).2 ∧
  (Update env (KeyMsg k) m st).1.2 = tea.Quit ∧
  shouldQuit (Update env (KeyMsg k) m st).1.1 = true.
Proof.
  intros Hk Hv Hr Hs. cbn [Update]. unfold UpdateKey.
  rewrite bool_decide_eq_false_2 by done.
  rewrite Hr, (saveActive_Some _ _ _ s) by done.
  destruct Hk as [-> | ->]; repeat split; reflexivity.
Qed.

Lemma dashboard_settings_saves_nothing {lib : GoLib} env m st :
  viewState m ≠ HelpView →
  Update env (KeyMsg "g") m st = (set_openSettings true m, tea.Quit, st).
Proof.
  intros Hv. cbn [Update]. unfold UpdateKey.
  rewrite bool_decide_eq_false_2 by done.
  destruct (timerRunning m), (timerPaused m),
    (bool_decide (viewState m = StatsView)); reflexivity.
Qed.

(** C5 (the code at the failing input). The store holds an active session
    that is not paused, planned for 30 minutes and started 45 minutes ago.
    The dashboard takes it up with 1800 elapsed seconds, and the first tick
    stores it completed with 1801 elapsed seconds, one more than the planned
    1800. *)
Theorem C5_restart_completion_exceeds_planned :
  let s := mkSession "id-1" (1000 * Minute) 0 30 false "2024-03-04" 10
             "2024-03" 2024 true 600 false in
  let st := mkStorage (Holds [s]) (Holds DefaultConfig) in
  let env := mkEnv "id-2" (1045 * Minute) "2024-03-04" 10 "2024-03" 2024 3 in
  ∃ m, New (lib := go_ref) env st = (Ok m, st) ∧ timerElapsed m = 1800 ∧
    ∃ x, stored (Update (lib := go_ref) env tickMsg m st).2 = [x] ∧
         Completed x = true ∧ Duration x * 60 = 1800 ∧
         ElapsedSeconds x = 1801.
Proof.
  eexists. split; [vm_compute; reflexivity|]. split; [reflexivity|].
  eexists. split; [vm_compute; reflexivity|]. repeat split.
Qed.

(** C6 (the code at the failing input). A session runs unpaused in the
    dashboard, 600 seconds in. The Quit key stores it with 600 elapsed seconds
    and [Paused = false]. In the timer view the Menu key does the same, and
    the Home and Quit keys store it paused. *)
Theorem C6_quit_leaves_session_unpaused :
  let s := mkSession "id-1" (1000 * Minute) 0 30 false "2024-03-04" 10
             "2024-03" 2024 true 0 false in
  let st := mkStorage (Holds [s]) (Holds DefaultConfig) in
  let env := mkEnv "id-2" (1010 * Minute) "2024-03-04" 10 "2024-03" 2024 3 in
  (∃ m, New (lib := go_ref) env st = (Ok m, st) ∧
        timerPaused m = false ∧ timerElapsed m = 600 ∧
        let r := Update (lib := go_ref) env (KeyMsg "q") m st in
        shouldQuit r.1.1 = true ∧ r.1.2 = tea.Quit ∧
        stored r.2 = [set_Paused false (set_ElapsedSeconds 600 s)]) ∧
  (let m := timer.set_elapsed 600 (timer.NewFromSession s) in
   stored (timer.Update env (timer.KeyMsg "m") m st).2
   = [set_Paused false (set_ElapsedSeconds 600 s)] ∧
   stored (timer.Update env (timer.KeyMsg "h") m st).2
   = [set_Paused true (set_ElapsedSeconds 600 s)] ∧
   stored (timer.Update env (timer.KeyMsg "q") m st).2
   = [set_Paused true (set_ElapsedSeconds 600 s)]).
Proof.
  split.
  - eexists. split; [vm_compute; reflexivity|]. repeat split.
  - repeat split.
Qed.

(** ** The invariant along the dashboard loop

    The operations of the claim apart, the dashboard also saves its session
    with [Active = true] on the checkpoint ticks and on the Pause, Resume and
    Quit keys. With pairwise distinct stored ids these saves land on the
    record of the session in flight, and the store keeps at most one active
    session along every run of the loop. *)

Lemma upsert_elem_inv s l r : r ∈ upsert s l → r = s ∨ r ∈ l.
Proof.
  destruct (upsert_cases s l) as [(i & r' & Hi & _ & _ & ->)|[_ ->]].
  - intros Hr. apply list_elem_of_lookup in Hr as [j Hj].
    apply list_lookup_insert_Some in Hj as [(_ & -> & _)|[_ Hj]]; [by left|].
    right. by eapply list_elem_of_lookup_2.
  - rewrite elem_of_app, list_elem_of_singleton. tauto.
Qed.

Lemma upsert_NoDup s l : NoDup (ID <$> l) → NoDup (ID <$> upsert s l).
Proof.
  intros Hl.
  destruct (upsert_cases s l) as [(i & r & Hi & Hr & _ & ->)|[Hfresh ->]].
  - rewrite list_fmap_insert, list_insert_id; [done|].
    by rewrite list_lookup_fmap, Hi, <- Hr.
  - rewrite fmap_app. change (ID <$> [s]) with [ID s].
    apply NoDup_app. split; [done|]. split.
    + intros x Hx. apply list_elem_of_fmap in Hx as (r & -> & Hr).
      rewrite list_elem_of_singleton. by apply Hfresh.
    + apply NoDup_singleton.
Qed.

Lemma one_id_at_most_one (P : Session → Prop) `{∀ x, Decision (P x)} l c :
  NoDup (ID <$> l) → (∀ r, r ∈ l → P r → ID r = c) →
  (length (filter P l) ≤ 1)%nat.
Proof.
  induction l as [|a l IH]; intros Hnd Hc; [simpl; lia|].
  rewrite fmap_cons in Hnd. apply NoDup_cons in Hnd as [Ha Hnd].
  assert (length (filter P l) ≤ 1)%nat as IH'.
  { apply IH; [done|]. intros r Hr. apply Hc. by constructor. }
  rewrite filter_cons. case_decide as Hp; [|done].
  assert (filter P l = []) as ->; [|simpl; lia].
  destruct (filter P l) as [|b ?] eqn:E; [done|]. exfalso.
  assert (b ∈ filter P l) as Hb by (rewrite E; constructor).
  apply list_elem_of_filter in Hb as [Hpb Hbl].
  apply Ha. rewrite (Hc a) by (done || constructor).
  rewrite <- (Hc b) by (done || by constructor).
  by apply list_elem_of_fmap_2.
Qed.

Lemma stored_SaveSession s st :
  stored (SaveSession s st).2 = upsert s (stored st)
  ∨ (stored (SaveSession s st).2 = [] ∧ stored st = []).
Proof.
  destruct (GetAllSessions st) as [l|e] eqn:Hl.
  - left. by rewrite (stored_Ok _ _ (SaveSession_readable s _ _ Hl)),
      (stored_Ok _ _ Hl).
  - right. rewrite (SaveSession_Err _ _ _ Hl). simpl.
    by rewrite (stored_Err _ _ Hl).
Qed.

Lemma stored_Deactivate st :
  stored (DeactivateAllSessions st).2 = set_Active false <$> stored st.
Proof.
  unfold DeactivateAllSessions.
  destruct (GetAllSessions st) as [l|e] eqn:Hl; simpl.
  - by rewrite stored_write, (stored_Ok _ _ Hl).
  - by rewrite (stored_Err _ _ Hl).
Qed.

Lemma coherent_at_most_one a st : coherent a st → atMostOneActive st.
Proof.
  intros [Hnd (c & Hc & _)]. by apply (one_id_at_most_one _ _ c).
Qed.

Lemma coherent_None a st : coherent a st → coherent None st.
Proof. intros [Hnd (c & Hc & _)]. split; [done|]. exists c. by split. Qed.

Lemma coherent_save s s' st :
  coherent (Some s) st → ID s' = ID s →
  coherent (Some s') (SaveSession s' st).2.
Proof.
  intros [Hnd (c & Hc & Hs)] Hid.
  specialize (Hs s eq_refl). subst c.
  destruct (stored_SaveSession s' st) as [E|[E E0]]; split; rewrite E.
  - by apply upsert_NoDup.
  - exists (ID s). split; [|by intros ? [= <-]].
    intros r Hr Ha. apply upsert_elem_inv in Hr as [->|Hr]; [done|].
    by apply Hc.
  - constructor.
  - exists (ID s). split; [|by intros ? [= <-]]. by intros r Hr%elem_of_nil.
Qed.

Lemma coherent_saveActive f m st :
  (∀ s, ID (f s) = ID s) →
  coherent (activeSession m) st →
  coherent (activeSession (saveActive f m st).1) (saveActive f m st).2.
Proof.
  intros Hf Hc. unfold saveActive.
  destruct (activeSession m) as [s|] eqn:Hs; [|simpl; by rewrite Hs].
  simpl. by apply (coherent_save s).
Qed.

Lemma coherent_start a s st :
  Active s = true →
  coherent a st →
  coherent (Some s) (SaveSession s (DeactivateAllSessions st).2).2.
Proof.
  intros Hact [Hnd _].
  assert (NoDup (ID <$> stored (DeactivateAllSessions st).2)) as Hnd'.
  { rewrite stored_Deactivate, <- list_fmap_compose.
    by replace (ID ∘ set_Active false) with ID. }
  destruct (stored_SaveSession s (DeactivateAllSessions st).2)
    as [E|[E E0]]; split; rewrite E.
  - by apply upsert_NoDup.
  - exists (ID s). split; [|by intros ? [= <-]].
    intros r Hr Ha. apply upsert_elem_inv in Hr as [->|Hr]; [done|].
    rewrite stored_Deactivate in Hr.
    apply list_elem_of_fmap in Hr as (r0 & -> & _). done.
  - constructor.
  - exists (ID s). split; [|by intros ? [= <-]]. by intros r Hr%elem_of_nil.
Qed.

Lemma coherent_loaded st s :
  NoDup (ID <$> stored st) → atMostOneActive st →
  GetActiveSession st = Ok s → coherent s st.
Proof.
  intros Hnd Hone Hs. split; [done|].
  unfold atMostOneActive, activeCount in Hone.
  destruct (filter (λ s, Active s = true) (stored st)) as [|x [|??]] eqn:E;
    [| |simpl in Hone; lia].
  - exists (from_option ID "" s). split.
    + intros r Hr Ha. assert (r ∈ filter (λ s, Active s = true) (stored st))
        as Hin by by apply list_elem_of_filter.
      rewrite E in Hin. by apply elem_of_nil in Hin.
    + by intros ? ->.
  - exists (ID x).
    assert (∀ r, r ∈ stored st → Active r = true → r = x) as Hx.
    { intros r Hr Ha.
      assert (r ∈ filter (λ s, Active s = true) (stored st)) as Hin
        by by apply list_elem_of_filter.
      rewrite E in Hin. by apply list_elem_of_singleton in Hin. }
    split; [by intros r Hr Ha; rewrite (Hx r)|].
    intros s0 ->. apply GetActiveSession_stored in Hs as (l & Hl & Hin & Ha & _).
    rewrite (Hx s0); [done| |done]. by rewrite (stored_Ok _ _ Hl).
Qed.

Section loop_invariant.
Context {lib : GoLib}.

Lemma startNewSession_coherent env m st :
  coherent (activeSession m) st →
  coherent (activeSession (startNewSession env m st).1.1)
    (startNewSession env m st).2.
Proof. intros Hc. by apply (coherent_start (activeSession m)). Qed.

Lemma cancelSession_coherent env m st :
  coherent (activeSession m) st →
  coherent (activeSession (cancelSession env m st).1.1)
    (cancelSession env m st).2.
Proof.
  intros Hc. unfold cancelSession.
  match goal with |- context [saveActive ?f m st] =>
    pose proof (coherent_saveActive f m st (λ _, eq_refl) Hc) as H;
    destruct (saveActive f m st) as [m1 st1]
  end.
  by apply (coherent_None (activeSession m1)).
Qed.

Lemma completeSession_coherent env m st :
  coherent (activeSession m) st →
  coherent (activeSession (completeSession env m st).1.1)
    (completeSession env m st).2.
Proof.
  intros Hc. unfold completeSession.
  match goal with |- context [saveActive ?f m st] =>
    pose proof (coherent_saveActive f m st (λ _, eq_refl) Hc) as H;
    destruct (saveActive f m st) as [m1 st1]
  end.
  case_match; by apply (coherent_None (activeSession m1)).
Qed.

Lemma Update_coherent env msg m st :
  coherent (activeSession m) st →
  coherent (activeSession (Update env msg m st).1.1) (Update env msg m st).2.
Proof.
  intros Hc. destruct msg as [w h|k| | |ok text|]; cbn [Update].
  - by case_match.
  - unfold UpdateKey.
    repeat match goal with
    | |- context [if ?b then _ else _] => destruct b
    | |- context [match viewState m with _ => _ end] => destruct (viewState m)
    end;
    try match goal with
    | |- context [saveActive ?f ?m0 st] =>
        pose proof (coherent_saveActive f m0 st (λ _, eq_refl) Hc);
        destruct (saveActive f m0 st) as [? ?]
    | |- context [startNewSession env m st] =>
        exact (startNewSession_coherent env m st Hc)
    | |- context [cancelSession env m st] =>
        exact (cancelSession_coherent env m st Hc)
    end; done.
  - destruct (timerRunning m && negb (timerPaused m)); [|done].
    case_bool_decide.
    + match goal with |- context [saveActive ?f ?m0 st] =>
        pose proof (coherent_saveActive f m0 st (λ _, eq_refl) Hc) as Hsv;
        destruct (saveActive f m0 st) as [m1 st1]
      end.
      case_match; [by apply completeSession_coherent|done].
    + case_match; [by apply completeSession_coherent|done].
  - done.
  - done.
  - done.
Qed.

Lemma run_coherent events m st :
  coherent (activeSession m) st →
  coherent (activeSession (run events m st).1) (run events m st).2.
Proof.
  revert m st. induction events as [|[env msg] events IH]; intros m st Hc;
    [done|].
  unfold run. cbn [foldl].
  pose proof (Update_coherent env msg m st Hc) as H.
  destruct (Update env msg m st) as [[m1 c] st1]. by apply IH.
Qed.

(** Along every run of the dashboard loop started by [New] on a store with
    pairwise distinct ids and at most one active session, the store has at
    most one active session. *)
Lemma run_at_most_one_active env0 st0 m0 st1 events :
  NoDup (ID <$> stored st0) → atMostOneActive st0 →
  New env0 st0 = (Ok m0, st1) →
  atMostOneActive (run events m0 st1).2.
Proof.
  intros Hnd Hone Hnew.
  apply (coherent_at_most_one (activeSession (run events m0 st1).1)).
  apply run_coherent.
  unfold New in Hnew.
  destruct (GetConfig st0) as [[c|[c e]] st'] eqn:Hc; [|done].
  apply GetConfig_sessions in Hc.
  assert (stored st' = stored st0) as Hst
    by (unfold stored; by rewrite (GetAllSessions_ext _ _ Hc)).
  assert (coherent (match GetActiveSession st' with
                    | Ok a => a | Err _ => None end) st') as Hcoh.
  { destruct (GetActiveSession st') as [a|e] eqn:Ha.
    - apply coherent_loaded; [by rewrite Hst| |done].
      unfold atMostOneActive, activeCount. by rewrite Hst.
    - split; [by rewrite Hst|].
      unfold GetActiveSession in Ha.
      destruct (GetAllSessions st') as [l|e'] eqn:Hl; [done|].
      exists "". rewrite (stored_Err _ _ Hl).
      split; [by intros r Hr%elem_of_nil|done]. }
  cbv zeta in Hnew.
  destruct (match GetActiveSession st' with Ok a => a | Err _ => None end)
    as [s|] eqn:Es.
  - destruct (negb (Paused s)); by injection Hnew as <- <-.
  - by injection Hnew as <- <-.
Qed.

End loop_invariant.

(** The same invariant along the timer view. *)

Lemma coherent_saveCurrent f m st :
  (∀ s, ID (f s) = ID s) →
  coherent (timer.currentSession m) st →
  coherent (timer.currentSession (timer.saveCurrent f m st).1)
    (timer.saveCurrent f m st).2.
Proof.
  intros Hf Hc. unfold timer.saveCurrent.
  destruct (timer.currentSession m) as [s|] eqn:Hs; [|simpl; by rewrite Hs].
  simpl. by apply (coherent_save s).
Qed.

Lemma timer_Update_coherent env msg m st :
  coherent (timer.currentSession m) st →
  coherent (timer.currentSession (timer.Update env msg m st).1.1)
    (timer.Update env msg m st).2.
Proof.
  intros Hc. destruct msg as [w h|k| |]; cbn [timer.Update]; [done| | |done].
  - repeat match goal with
    | |- context [if ?b then _ else _] => destruct b
    end;
    try match goal with
    | |- context [timer.saveCurrent ?f ?m0 st] =>
        pose proof (coherent_saveCurrent f m0 st (λ _, eq_refl) Hc);
        destruct (timer.saveCurrent f m0 st) as [? ?]
    | |- context [DeactivateAllSessions st] =>
        by apply (coherent_start (timer.currentSession m))
    end; done.
  - destruct (timer.running m && negb (timer.paused m)
              && negb (timer.finished m)); [|done].
    case_bool_decide.
    + match goal with |- context [timer.saveCurrent ?f ?m0 st] =>
        pose proof (coherent_saveCurrent f m0 st (λ _, eq_refl) Hc) as Hsv;
        destruct (timer.saveCurrent f m0 st) as [m1 st1]
      end.
      case_match; [|done].
      match goal with |- context [timer.saveCurrent ?f ?m0 st1] =>
        pose proof (coherent_saveCurrent f m0 st1 (λ _, eq_refl) Hsv);
        destruct (timer.saveCurrent f m0 st1) as [? ?]
      end. done.
    + case_match; [|done].
      match goal with |- context [timer.saveCurrent ?f ?m0 st] =>
        pose proof (coherent_saveCurrent f m0 st (λ _, eq_refl) Hc);
        destruct (timer.saveCurrent f m0 st) as [? ?]
      end. done.
Qed.

Lemma timer_run_at_most_one_active events m st :
  coherent (timer.currentSession m) st →
  atMostOneActive (timer_run events m st).2.
Proof.
  intros Hc.
  apply (coherent_at_most_one (timer.currentSession (timer_run events m st).1)).
  revert m st Hc. induction events as [|[env msg] events IH]; intros m st Hc;
    [done|].
  unfold timer_run. cbn [foldl].
  pose proof (timer_Update_coherent env msg m st Hc) as H.
  destruct (timer.Update env msg m st) as [[m1 c] st1]. by apply IH.
Qed.

(** * Further properties of the code *)

(** ** The session store: deactivation, saving, queries *)

Lemma set_Active_false_twice (l : list Session) :
  set_Active false <$> (set_Active false <$> l) = set_Active false <$> l.
Proof. rewrite <- list_fmap_compose. by apply list_fmap_ext. Qed.

Lemma no_active_after_deactivate (l : list Session) :
  list_find (λ s, Active s = true ∧ Completed s = false)
    (set_Active false <$> l) = None.
Proof.
  apply list_find_None, Forall_forall. intros r Hr.
  apply list_elem_of_fmap in Hr as (r0 & -> & _). by intros [? _].
Qed.

(** X1. DeactivateAllSessions changes no field but [Active], keeps the
    records in their order, and is idempotent; after it GetActiveSession on a
    readable store finds no session. *)
Theorem X1_DeactivateAllSessions_idempotent (st : Storage) :
  DeactivateAllSessions (DeactivateAllSessions st).2
  = DeactivateAllSessions st ∧
  stored (DeactivateAllSessions st).2 = set_Active false <$> stored st ∧
  (∀ l, GetAllSessions st = Ok l →
     GetActiveSession (DeactivateAllSessions st).2 = Ok None).
Proof.
  split; [|split; [apply stored_Deactivate|]].
  - unfold DeactivateAllSessions at 2 3.
    destruct (GetAllSessions st) as [l|e] eqn:Hl; cbn [snd].
    + unfold DeactivateAllSessions. rewrite GetAllSessions_write.
      by rewrite set_Active_false_twice.
    + unfold DeactivateAllSessions. by rewrite Hl.
  - intros l Hl. unfold GetActiveSession.
    rewrite (Deactivate_readable _ _ Hl). by rewrite no_active_after_deactivate.
Qed.

Lemma X1_witness :
  let st := mkStorage (Holds [sampleSession "a" true false;
                              sampleSession "b" true false]) Absent in
  GetAllSessions st = Ok [sampleSession "a" true false;
                          sampleSession "b" true false] ∧
  GetActiveSession (DeactivateAllSessions st).2 = Ok None.
Proof.
  split; [reflexivity|].
  exact (proj2 (proj2 (X1_DeactivateAllSessions_idempotent
                         (mkStorage (Holds [sampleSession "a" true false;
                                            sampleSession "b" true false])
                            Absent))) _ eq_refl).
Defined.

Lemma upsert_find s l :
  ∃ i, list_find (λ r, ID r = ID s) (upsert s l) = Some (i, s).
Proof.
  destruct (upsert_cases s l) as [(i & r & Hi & Hr & Hlt & ->)|[Hfresh ->]].
  - exists i. apply list_find_Some. split; [|split; [done|]].
    + apply list_lookup_insert_eq. by eapply lookup_lt_Some.
    + intros j y Hj Hji. rewrite list_lookup_insert_ne in Hj by lia.
      by eapply Hlt.
  - exists (length l). apply list_find_Some. split; [|split; [done|]].
    + by rewrite list_lookup_middle.
    + intros j y Hj Hji. rewrite lookup_app_l in Hj by done.
      apply Hfresh. by eapply list_elem_of_lookup_2.
Qed.

Lemma upsert_idempotent s l : upsert s (upsert s l) = upsert s l.
Proof.
  destruct (upsert_find s l) as [i Hi]. unfold upsert at 1. rewrite Hi.
  apply list_find_Some in Hi as (Hi & _). by apply list_insert_id.
Qed.

(** X2. After SaveSession on a readable store, the first stored record with
    the id of the session is the session itself, and saving the same session
    again changes nothing. *)
Theorem X2_SaveSession_lookup_idempotent (st : Storage) (l : list Session)
    (s : Session) :
  GetAllSessions st = Ok l →
  (∃ i, list_find (λ r, ID r = ID s) (stored (SaveSession s st).2)
        = Some (i, s)) ∧
  SaveSession s (SaveSession s st).2 = (None, (SaveSession s st).2).
Proof.
  intros Hl. rewrite (SaveSession_Ok _ _ _ Hl). cbn [snd].
  rewrite stored_write. split; [apply upsert_find|].
  rewrite (SaveSession_Ok _ _ (upsert s l)) by done.
  by rewrite upsert_idempotent.
Qed.

Lemma X2_witness :
  let st := mkStorage (Holds [sampleSession "a" false true;
                              sampleSession "b" true false]) Absent in
  let s := set_Paused true (sampleSession "b" true false) in
  GetAllSessions st = Ok [sampleSession "a" false true;
                          sampleSession "b" true false] ∧
  SaveSession s (SaveSession s st).2 = (None, (SaveSession s st).2).
Proof.
  split; [reflexivity|].
  exact (proj2 (X2_SaveSession_lookup_idempotent
                  (mkStorage (Holds [sampleSession "a" false true;
                                     sampleSession "b" true false]) Absent)
                  _ (set_Paused true (sampleSession "b" true false))
                  eq_refl)).
Defined.

(** X3. SaveSession on a readable store keeps the number of records when the
    id is already stored and adds one record otherwise; pairwise distinct ids
    stay pairwise distinct. *)
Theorem X3_SaveSession_length_and_ids (st : Storage) (l : list Session)
    (s : Session) :
  GetAllSessions st = Ok l →
  length (stored (SaveSession s st).2)
  = (if decide (ID s ∈ ID <$> l) then length l else S (length l)) ∧
  (NoDup (ID <$> l) → NoDup (ID <$> stored (SaveSession s st).2)).
Proof.
  intros Hl. rewrite (SaveSession_Ok _ _ _ Hl). cbn [snd].
  rewrite stored_write. split; [|apply upsert_NoDup].
  destruct (upsert_cases s l) as [(i & r & Hi & Hr & _ & ->)|[Hfresh ->]].
  - rewrite length_insert, decide_True; [done|].
    rewrite <- Hr. apply list_elem_of_fmap_2. by eapply list_elem_of_lookup_2.
  - rewrite length_app, decide_False; [simpl; lia|].
    intros Hin. apply list_elem_of_fmap in Hin as (r & Hr & Hin).
    by apply (Hfresh r).
Qed.

Lemma X3_witness :
  let st := mkStorage (Holds [sampleSession "a" false true]) Absent in
  GetAllSessions st = Ok [sampleSession "a" false true] ∧
  length (stored (SaveSession (sampleSession "b" true false) st).2) = 2%nat.
Proof.
  split; [reflexivity|].
  exact (proj1 (X3_SaveSession_length_and_ids
                  (mkStorage (Holds [sampleSession "a" false true]) Absent)
                  _ (sampleSession "b" true false) eq_refl)).
Defined.

(** ** A sessions file that cannot be decoded *)

Lemma GetAllSessions_of_Corrupt st :
  sessionsFile st = Corrupt → GetAllSessions st = Err ErrUnmarshal.
Proof. unfold GetAllSessions. by intros ->. Qed.

Lemma SaveSession_of_Corrupt s st :
  sessionsFile st = Corrupt → SaveSession s st = (Some ErrUnmarshal, st).
Proof.
  intros H. apply SaveSession_Err. by apply GetAllSessions_of_Corrupt.
Qed.

Lemma Deactivate_of_Corrupt st :
  sessionsFile st = Corrupt →
  DeactivateAllSessions st = (Some ErrUnmarshal, st).
Proof.
  intros H. unfold DeactivateAllSessions.
  by rewrite GetAllSessions_of_Corrupt.
Qed.

Lemma saveActive_of_Corrupt f m st :
  sessionsFile st = Corrupt → (saveActive f m st).2 = st.
Proof.
  intros H. unfold saveActive. destruct (activeSession m); [|done].
  simpl. by rewrite SaveSession_of_Corrupt.
Qed.

Lemma saveCurrent_of_Corrupt f m st :
  sessionsFile st = Corrupt → (timer.saveCurrent f m st).2 = st.
Proof.
  intros H. unfold timer.saveCurrent.
  destruct (timer.currentSession m); [|done].
  simpl. by rewrite SaveSession_of_Corrupt.
Qed.

Section corrupt.
Context {lib : GoLib}.

Lemma Update_of_Corrupt env msg m st :
  sessionsFile st = Corrupt → (Update env msg m st).2 = st.
Proof.
  intros Hc. destruct msg as [w h|k| | |ok text|]; cbn [Update];
    [done| | |done..].
  - unfold UpdateKey.
    repeat match goal with
    | |- context [if ?b then _ else _] => destruct b
    | |- context [match viewState m with _ => _ end] => destruct (viewState m)
    end;
    try match goal with
    | |- context [saveActive ?f ?m0 st] =>
        pose proof (saveActive_of_Corrupt f m0 st Hc);
        destruct (saveActive f m0 st) as [? ?]
    | |- context [startNewSession env m st] =>
        rewrite startNewSession_store, (Deactivate_of_Corrupt _ Hc);
        cbn [snd]; by rewrite SaveSession_of_Corrupt
    | |- context [cancelSession env m st] =>
        rewrite cancelSession_store; by apply saveActive_of_Corrupt
    end; done.
  - destruct (timerRunning m && negb (timerPaused m)); [|done].
    case_bool_decide.
    + match goal with |- context [saveActive ?f ?m0 st] =>
        pose proof (saveActive_of_Corrupt f m0 st Hc) as Hsv;
        destruct (saveActive f m0 st) as [m1 st1]
      end.
      simpl in Hsv. subst st1.
      case_match; [|done].
      rewrite completeSession_store. by apply saveActive_of_Corrupt.
    + case_match; [|done].
      rewrite completeSession_store. by apply saveActive_of_Corrupt.
Qed.

Lemma timer_Update_of_Corrupt env msg m st :
  sessionsFile st = Corrupt → (timer.Update env msg m st).2 = st.
Proof.
  intros Hc. destruct msg as [w h|k| |]; cbn [timer.Update]; [done| | |done].
  - repeat match goal with
    | |- context [if ?b then _ else _] => destruct b
    end;
    try match goal with
    | |- context [timer.saveCurrent ?f ?m0 st] =>
        pose proof (saveCurrent_of_Corrupt f m0 st Hc);
        destruct (timer.saveCurrent f m0 st) as [? ?]
    | |- context [DeactivateAllSessions st] =>
        rewrite (Deactivate_of_Corrupt _ Hc); cbn [snd];
        by rewrite SaveSession_of_Corrupt
    end; done.
  - destruct (timer.running m && negb (timer.paused m)
              && negb (timer.finished m)); [|done].
    case_bool_decide.
    + match goal with |- context [timer.saveCurrent ?f ?m0 st] =>
        pose proof (saveCurrent_of_Corrupt f m0 st Hc) as Hsv;
        destruct (timer.saveCurrent f m0 st) as [m1 st1]
      end.
      simpl in Hsv. subst st1. case_match; [|done].
      match goal with |- context [timer.saveCurrent ?f ?m0 st] =>
        pose proof (saveCurrent_of_Corrupt f m0 st Hc);
        destruct (timer.saveCurrent f m0 st) as [? ?]
      end. done.
    + case_match; [|done].
      match goal with |- context [timer.saveCurrent ?f ?m0 st] =>
        pose proof (saveCurrent_of_Corrupt f m0 st Hc);
        destruct (timer.saveCurrent f m0 st) as [? ?]
      end. done.
Qed.

End corrupt.

(** X4. A sessions file that cannot be decoded is never overwritten:
    SaveSession and DeactivateAllSessions return the decoding error and leave
    the store as it is, the reads and the four rollups return the error, and
    no sequence of messages of the dashboard or of the timer view changes the
    store. *)
Theorem X4_corrupt_sessions_file_is_left_alone {lib : GoLib} (st : Storage) :
  sessionsFile st = Corrupt →
  (∀ s, SaveSession s st = (Some ErrUnmarshal, st)) ∧
  DeactivateAllSessions st = (Some ErrUnmarshal, st) ∧
  GetActiveSession st = Err ErrUnmarshal ∧
  (∀ date, GetDayStats date st = Err ErrUnmarshal) ∧
  (∀ year week, GetWeekStats year week st = Err ErrUnmarshal) ∧
  (∀ year month, GetMonthStats year month st = Err ErrUnmarshal) ∧
  (∀ year, GetYearStats year st = Err ErrUnmarshal) ∧
  (∀ events m, (run events m st).2 = st) ∧
  (∀ events m, (timer_run events m st).2 = st).
Proof.
  intros Hc. pose proof (GetAllSessions_of_Corrupt _ Hc) as Hall.
  repeat split.
  - intros s. by apply SaveSession_of_Corrupt.
  - by apply Deactivate_of_Corrupt.
  - unfold GetActiveSession. by rewrite Hall.
  - intros d. unfold GetDayStats, GetSessionsByDate. by rewrite Hall.
  - intros y w. unfold GetWeekStats, GetWeekSessions. by rewrite Hall.
  - intros y mo. unfold GetMonthStats, GetMonthSessions. by rewrite Hall.
  - intros y. unfold GetYearStats, GetYearSessions. by rewrite Hall.
  - intros events. induction events as [|[env msg] events IH]; intros m;
      [done|].
    unfold run. cbn [foldl].
    pose proof (Update_of_Corrupt env msg m st Hc) as H.
    destruct (Update env msg m st) as [[m1 c] st1]. simpl in H. subst st1.
    apply IH.
  - intros events. induction events as [|[env msg] events IH]; intros m;
      [done|].
    unfold timer_run. cbn [foldl].
    pose proof (timer_Update_of_Corrupt env msg m st Hc) as H.
    destruct (timer.Update env msg m st) as [[m1 c] st1]. simpl in H.
    subst st1. apply IH.
Qed.

Lemma X4_witness :
  let st := mkStorage Corrupt (Holds DefaultConfig) in
  let env := mkEnv "id-1" (1000 * Minute) "2024-03-04" 10 "2024-03" 2024 3 in
  sessionsFile st = Corrupt ∧
  ∃ m, New (lib := go_ref) env st = (Ok m, st) ∧
       (run (lib := go_ref) [(env, KeyMsg "s"); (env, tickMsg);
                             (env, KeyMsg "p"); (env, KeyMsg "q")] m st).2
       = st.
Proof.
  split; [reflexivity|]. eexists. split; [vm_compute; reflexivity|].
  exact (proj1 (proj2 (proj2 (proj2 (proj2 (proj2 (proj2 (proj2
           (X4_corrupt_sessions_file_is_left_alone (lib := go_ref)
              (mkStorage Corrupt (Holds DefaultConfig)) eq_refl)))))))) _ _).
Defined.

(** ** Saved sessions and the queries *)

(** X5. A session saved on a readable store is returned by the queries of its
    own buckets: its date, its year and week, its year, and the month whose
    key it carries. *)
Theorem X5_saved_session_is_found_by_queries {lib : GoLib} (st : Storage)
    (l : list Session) (s : Session) :
  GetAllSessions st = Ok l →
  let st' := (SaveSession s st).2 in
  (∃ found, GetSessionsByDate (Date s) st' = Ok found ∧ s ∈ found) ∧
  (∃ found, GetWeekSessions (Year s) (Week s) st' = Ok found ∧ s ∈ found) ∧
  (∃ found, GetYearSessions (Year s) st' = Ok found ∧ s ∈ found) ∧
  (∀ year month, Month s = Sprintf_month year month →
     ∃ found, GetMonthSessions year month st' = Ok found ∧ s ∈ found).
Proof.
  intros Hl st'. pose proof (SaveSession_readable s _ _ Hl) as Hl'.
  fold st' in Hl'. pose proof (upsert_elem s l) as Hin.
  unfold GetSessionsByDate, GetWeekSessions, GetYearSessions,
    GetMonthSessions. rewrite Hl'.
  repeat split; try (eexists; split; [done|]; by apply list_elem_of_filter).
Qed.

Lemma X5_witness :
  let st := mkStorage Absent Absent in
  let s := sampleSession "a" true false in
  GetAllSessions st = Ok [] ∧
  ∃ found, GetSessionsByDate "2024-03-04" (SaveSession s st).2 = Ok found ∧
           s ∈ found.
Proof.
  split; [reflexivity|].
  exact (proj1 (X5_saved_session_is_found_by_queries (lib := go_ref)
                  (mkStorage Absent Absent) [] (sampleSession "a" true false)
                  eq_refl)).
Defined.

(** ** The config file *)



(** ** Rollups: what counts and how it adds up *)

Lemma zsum_cons a l : zsum (a :: l) = a + zsum l.
Proof. reflexivity. Qed.

Lemma zsum_app l1 l2 : zsum (l1 ++ l2) = zsum l1 + zsum l2.
Proof. induction l1 as [|a l1 IH]; simpl; [done|]. rewrite IH. lia. Qed.

Lemma zsum_perm l1 l2 : l1 ≡ₚ l2 → zsum l1 = zsum l2.
Proof. induction 1; simpl; lia. Qed.

Lemma wrap_add_r a b : wrap (a + wrap b) = wrap (a + b).
Proof. rewrite Z.add_comm, wrap_add_l. f_equal. lia. Qed.

Lemma wrap_wrap a : wrap (wrap a) = wrap a.
Proof. apply wrap_id, wrap_in_int. Qed.

Lemma wrap_zsum_wrap l : wrap (zsum (wrap <$> l)) = wrap (zsum l).
Proof.
  induction l as [|a l IH]; [done|].
  rewrite fmap_cons.
  change (zsum (wrap a :: (wrap <$> l))) with (wrap a + zsum (wrap <$> l)).
  change (zsum (a :: l)) with (a + zsum l).
  rewrite wrap_add_l.
  by rewrite <- (wrap_add_r a (zsum (wrap <$> l))), IH, wrap_add_r.
Qed.

Lemma sumFrom_wrap {lib : GoLib} t l :
  sumFrom (wrap t) l = wrap (t + zsum (actualMinutes <$> l)).
Proof.
  revert t. induction l as [|s l IH]; intros t.
  - unfold sumFrom. cbn [foldl]. f_equal. change (zsum _) with 0. lia.
  - change (sumFrom (wrap t) (s :: l))
      with (sumFrom (int_add (wrap t) (actualMinutes s)) l).
    unfold int_add. rewrite wrap_add_l, IH, fmap_cons.
    change (zsum (actualMinutes s :: (actualMinutes <$> l)))
      with (actualMinutes s + zsum (actualMinutes <$> l)).
    f_equal. lia.
Qed.

Lemma sumMinutes_wrap {lib : GoLib} l :
  sumMinutes l = wrap (zsum (actualMinutes <$> l)).
Proof. apply (sumFrom_wrap 0). Qed.

(** X7. A completed session with a planned duration other than zero never
    counts for zero minutes. *)
Theorem X7_actualMinutes_zero_only_without_plan {lib : GoLib} (s : Session) :
  Duration s ≠ 0 → actualMinutes s ≠ 0.
Proof.
  intros Hd. rewrite actualMinutes_eq. cbv zeta.
  repeat case_bool_decide; try done; tauto.
Qed.

Lemma X7_witness :
  actualMinutes (lib := go_ref) (sampleSession "a" false true) ≠ 0.
Proof.
  apply (X7_actualMinutes_zero_only_without_plan (lib := go_ref)).
  simpl. discriminate.
Defined.

Lemma upsert_filter_out (Q : Session → Prop) `{∀ x, Decision (Q x)} s l :
  ¬ Q s → (∀ r, r ∈ l → ID r = ID s → ¬ Q r) →
  filter Q (upsert s l) = filter Q l.
Proof.
  intros Hs Hl.
  destruct (upsert_cases s l) as [(i & r & Hi & Hr & _ & ->)|[_ ->]].
  - apply (filter_insert_out _ _ _ _ r); [done..|].
    apply Hl; [by eapply list_elem_of_lookup_2|done].
  - by rewrite filter_app, filter_cons_False, filter_nil, app_nil_r.
Qed.

Lemma upsert_filter_in (Q : Session → Prop) `{∀ x, Decision (Q x)} s l :
  Q s → (∀ r, r ∈ l → ID r = ID s → ¬ Q r) →
  filter Q (upsert s l) ≡ₚ s :: filter Q l.
Proof.
  intros Hs Hl.
  destruct (upsert_cases s l) as [(i & r & Hi & Hr & _ & ->)|[_ ->]].
  - assert (¬ Q r) as Hnr
      by (apply Hl; [by eapply list_elem_of_lookup_2|done]).
    rewrite insert_take_drop by (by eapply lookup_lt_Some).
    rewrite <- (take_drop_middle l i r Hi) at 3.
    rewrite !filter_app, !filter_cons, decide_True, decide_False by done.
    by rewrite Permutation_middle.
  - rewrite filter_app, filter_cons_True, filter_nil by done.
    by rewrite <- Permutation_cons_append.
Qed.

Section counted.
Context {lib : GoLib}.

Lemma completedIn_upsert_out (P : Session → Prop) `{∀ x, Decision (P x)}
    s l :
  Completed s = false →
  (∀ r, r ∈ l → ID r = ID s → Completed r = false) →
  completedIn P (upsert s l) = completedIn P l.
Proof.
  intros Hs Hl. unfold completedIn. rewrite !list_filter_filter.
  apply upsert_filter_out.
  - intros [? _]. congruence.
  - intros r Hr Hid [? _]. specialize (Hl r Hr Hid). congruence.
Qed.

Lemma yearLoop_completed y l :
  yearLoop y l = yearLoop y (filter (λ s, Completed s = true) l).
Proof.
  unfold yearLoop. generalize (y, 0, 0, (∅ : gmap Z (list Session))).
  induction l as [|s l IH]; intros acc; [done|].
  rewrite filter_cons. destruct (decide (Completed s = true)) as [Hc|Hc].
  - cbn [foldl]. apply IH.
  - cbn [foldl]. rewrite IH. destruct acc as [[[??]?]?].
    by destruct (Completed s).
Qed.

Lemma sameWeek_refl a : sameWeek a a.
Proof. by repeat split. Qed.

Lemma sameMonth_refl a : sameMonth a a.
Proof. by repeat split. Qed.

Lemma sameYear_refl a : sameYear a a.
Proof.
  split; [done|]. split; [done|]. split; [done|].
  exists (year_MonthlyStats a). split; [done|].
  apply Forall_Forall2_diag, Forall_forall. intros x _. apply sameMonth_refl.
Qed.

Lemma GetYearStats_readable st l year :
  GetAllSessions st = Ok l → ∃ ys, GetYearStats year st = Ok ys.
Proof.
  intros Hl. unfold GetYearStats, GetYearSessions. rewrite Hl.
  destruct (yearLoop year _) as [[[y c] t] mm]. by eexists.
Qed.

(** X8. Saving a session that is not completed, on a readable store where
    no record with its id is completed, changes no rollup: the count and the
    total of every day stay the same, and the week, month and year rollups
    are computed before and after, with the same week, month, year, count
    and total, and with the same days, weeks and months up to the order in
    which they are listed (the order in which Go ranges over a map is not
    specified). *)
Theorem X8_incomplete_sessions_never_counted (st : Storage)
    (l : list Session) (s : Session) :
  GetAllSessions st = Ok l →
  Completed s = false →
  notCompletedInStore s st →
  let st' := (SaveSession s st).2 in
  (∀ date, ∃ ds ds', GetDayStats date st = Ok ds ∧
     GetDayStats date st' = Ok ds' ∧
     day_SessionsCount ds' = day_SessionsCount ds ∧
     day_TotalMinutes ds' = day_TotalMinutes ds) ∧
  (∀ year week, ∃ ws ws', GetWeekStats year week st = Ok ws ∧
     GetWeekStats year week st' = Ok ws' ∧ sameWeek ws' ws) ∧
  (∀ year month, ∃ ms ms', GetMonthStats year month st = Ok ms ∧
     GetMonthStats year month st' = Ok ms' ∧ sameMonth ms' ms) ∧
  (∀ year, ∃ ys ys', GetYearStats year st = Ok ys ∧
     GetYearStats year st' = Ok ys' ∧ sameYear ys' ys).
Proof.
  intros Hl Hs Hstore st'.
  pose proof (SaveSession_readable s _ _ Hl) as Hl'. fold st' in Hl'.
  assert (∀ r, r ∈ l → ID r = ID s → Completed r = false) as Hl0.
  { intros r Hr. apply Hstore. by rewrite (stored_Ok _ _ Hl). }
  assert (∀ (P : Session → Prop) `{∀ x, Decision (P x)},
            filter (λ r, Completed r = true) (filter P (upsert s l))
            = filter (λ r, Completed r = true) (filter P l)) as Hout
    by (intros; by apply completedIn_upsert_out).
  assert (∀ year month,
            GetMonthStats year month st' = GetMonthStats year month st)
    as Hmonth.
  { intros y mo. rewrite (GetMonthStats_eq _ _ _ _ Hl'),
      (GetMonthStats_eq _ _ _ _ Hl). cbv zeta.
    by rewrite (Hout (λ s, Month s = Sprintf_month y mo) _). }
  assert (∀ year week,
            GetWeekStats year week st' = GetWeekStats year week st)
    as Hweek.
  { intros y w. rewrite (GetWeekStats_eq _ _ _ _ Hl'),
      (GetWeekStats_eq _ _ _ _ Hl). cbv zeta.
    by rewrite (Hout (λ s, Year s = y ∧ Week s = w) _). }
  assert (∀ year, GetYearStats year st' = GetYearStats year st) as Hyear.
  { intros y. unfold GetYearStats, GetYearSessions. rewrite Hl', Hl.
    rewrite (yearLoop_completed y (filter _ (upsert s l))),
      (yearLoop_completed y (filter _ l)).
    rewrite (Hout (λ s, Year s = y) _).
    destruct (yearLoop y _) as [[[y' c] t] mm]. do 2 f_equal.
    apply list_omap_ext, Forall2_same_length_lookup. split; [done|].
    intros i a b Ha Hb. simplify_eq. by rewrite Hmonth. }
  split; [|split; [|split]].
  - intros date. eexists _, _.
    split; [by apply GetDayStats_eq|]. split; [by apply GetDayStats_eq|].
    cbn [day_SessionsCount day_TotalMinutes].
    by rewrite (Hout (λ s, Date s = date) _).
  - intros y w. eexists _, _.
    split; [by apply GetWeekStats_eq|].
    split; [rewrite Hweek; by apply GetWeekStats_eq|].
    apply sameWeek_refl.
  - intros y mo. eexists _, _.
    split; [by apply GetMonthStats_eq|].
    split; [rewrite Hmonth; by apply GetMonthStats_eq|].
    apply sameMonth_refl.
  - intros y. destruct (GetYearStats_readable st l y Hl) as [ys Hys].
    exists ys, ys. split; [done|]. split; [by rewrite Hyear|].
    apply sameYear_refl.
Qed.

(** X9. Saving a completed session, on a readable store where no record with
    its id is completed, adds one to the count of its day and its actual
    minutes to the total of its day, and leaves the count and the total of
    every other day as they are. *)
Theorem X9_completed_session_adds_to_its_day (st : Storage)
    (l : list Session) (s : Session) (date : string) :
  GetAllSessions st = Ok l →
  Completed s = true →
  notCompletedInStore s st →
  ∃ ds ds', GetDayStats date st = Ok ds ∧
    GetDayStats date (SaveSession s st).2 = Ok ds' ∧
    day_SessionsCount ds'
    = (if decide (Date s = date) then int_add (day_SessionsCount ds) 1
       else day_SessionsCount ds) ∧
    day_TotalMinutes ds'
    = (if decide (Date s = date)
       then int_add (day_TotalMinutes ds) (actualMinutes s)
       else day_TotalMinutes ds).
Proof.
  intros Hl Hs Hstore.
  pose proof (SaveSession_readable s _ _ Hl) as Hl'.
  assert (∀ r, r ∈ l → ID r = ID s → Completed r = false) as Hl0.
  { intros r Hr. apply Hstore. by rewrite (stored_Ok _ _ Hl). }
  eexists _, _.
  split; [by apply GetDayStats_eq|]. split; [by apply GetDayStats_eq|].
  cbn [day_SessionsCount day_TotalMinutes].
  rewrite !list_filter_filter, !sumMinutes_wrap.
  set (Q := λ r : Session, Completed r = true ∧ Date r = date).
  assert (∀ r, r ∈ l → ID r = ID s → ¬ Q r) as HQ.
  { intros r Hr Hid [Hc _]. specialize (Hl0 r Hr Hid). congruence. }
  case_decide as Hd.
  - assert (filter Q (upsert s l) ≡ₚ s :: filter Q l) as Hp
      by (by apply upsert_filter_in).
    unfold int_add. rewrite !wrap_add_l. split.
    + f_equal. unfold len. rewrite Hp. simpl length. lia.
    + f_equal. rewrite (zsum_perm _ _ (fmap_Permutation _ _ _ Hp)).
      rewrite fmap_cons, zsum_cons. lia.
  - rewrite (upsert_filter_out Q); [done| |done]. intros [_ ?]. done.
Qed.

End counted.

Lemma X8_witness :
  let st := mkStorage (Holds [set_ElapsedSeconds 1800
                                (sampleSession "a" false true)]) Absent in
  let s := sampleSession "b" true false in
  GetAllSessions st
  = Ok [set_ElapsedSeconds 1800 (sampleSession "a" false true)] ∧
  ∃ ws ws', GetWeekStats (lib := go_ref) 2024 10 st = Ok ws ∧
    GetWeekStats (lib := go_ref) 2024 10 (SaveSession s st).2 = Ok ws' ∧
    week_SessionsCount ws' = 1 ∧ sameWeek ws' ws.
Proof.
  split; [reflexivity|].
  destruct (proj1 (proj2 (X8_incomplete_sessions_never_counted (lib := go_ref)
              (mkStorage (Holds [set_ElapsedSeconds 1800
                                   (sampleSession "a" false true)]) Absent)
              _ (sampleSession "b" true false) eq_refl eq_refl
              ltac:(intros r Hr Hid; apply list_elem_of_singleton in Hr;
                    subst r; discriminate Hid))) 2024 10)
    as (ws & ws' & H1 & H2 & H3).
  exists ws, ws'. split; [exact H1|]. split; [exact H2|]. split; [|exact H3].
  destruct H3 as (_ & _ & -> & _).
  assert (Ok ws = Ok (mkWeekStats 10 2024 1 30
            [mkDayStats "2024-03-04" 1 30
               [set_ElapsedSeconds 1800 (sampleSession "a" false true)]]))
    as [= ->]; [|reflexivity].
  rewrite <- H1. vm_compute. reflexivity.
Defined.

Lemma X9_witness :
  let st := mkStorage (Holds [sampleSession "a" true false]) Absent in
  let s := set_ElapsedSeconds 1500 (sampleSession "a" false true) in
  GetAllSessions st = Ok [sampleSession "a" true false] ∧
  ∃ ds, GetDayStats (lib := go_ref) "2024-03-04" (SaveSession s st).2 = Ok ds ∧
        day_SessionsCount ds = 1 ∧ day_TotalMinutes ds = 25.
Proof.
  split; [reflexivity|].
  destruct (X9_completed_session_adds_to_its_day (lib := go_ref)
              (mkStorage (Holds [sampleSession "a" true false]) Absent)
              _ (set_ElapsedSeconds 1500 (sampleSession "a" false true))
              "2024-03-04" eq_refl eq_refl)
    as (ds & ds' & H0 & H1 & Hc & Ht).
  - intros r Hr _. apply list_elem_of_singleton in Hr. by subst r.
  - exists ds'. split; [exact H1|].
    vm_compute in H0. injection H0 as <-.
    rewrite Hc, Ht. split; reflexivity.
Defined.

(** The groups of the grouping loop split the list: any additive measure of
    the groups adds up to the measure of the list. *)
Lemma group_sum `{Countable K} (key : Session → K) (g : Session → Z)
    (l : list Session) (m : gmap K (list Session)) :
  zsum ((λ kv, zsum (g <$> kv.2)) <$> map_to_list (groupFrom key m l))
  = zsum ((λ kv, zsum (g <$> kv.2)) <$> map_to_list m) + zsum (g <$> l).
Proof.
  revert m. induction l as [|s l IH]; intros m.
  - change (zsum (g <$> [])) with 0. simpl. lia.
  - change (groupFrom key m (s :: l))
      with (groupFrom key (map_append (key s) s m) l).
    rewrite IH, fmap_cons, zsum_cons. unfold map_append.
    destruct (m !! key s) as [v|] eqn:Hk; simpl.
    + rewrite <- insert_delete_eq.
      rewrite (zsum_perm _ _ (fmap_Permutation _ _ _
                 (map_to_list_insert _ _ _ (lookup_delete_eq m (key s))))).
      rewrite <- (zsum_perm _ _ (fmap_Permutation _ _ _
                    (map_to_list_delete _ _ _ Hk))).
      rewrite !fmap_cons, !zsum_cons. simpl.
      rewrite fmap_app, zsum_app, fmap_cons, zsum_cons. simpl. lia.
    + rewrite (zsum_perm _ _ (fmap_Permutation _ _ _
                 (map_to_list_insert _ _ _ Hk))).
      rewrite fmap_cons, zsum_cons. simpl. lia.
Qed.

Lemma zsum_ones {A} (l : list A) : zsum ((λ _, 1) <$> l) = len l.
Proof.
  unfold len. induction l as [|a l IH]; [done|].
  rewrite fmap_cons, zsum_cons, IH. simpl length. lia.
Qed.

Section add_up.
Context {lib : GoLib}.

Lemma groups_add_up `{Countable K} (key : Session → K) (l : list Session) :
  let groups := map_to_list (groupFrom key ∅ l) in
  NoDup (groups.*1) ∧
  (∀ k ks, (k, ks) ∈ groups → 1 <= len ks) ∧
  zsum ((λ kv, len kv.2) <$> groups) = len l ∧
  wrap (zsum ((λ kv, sumMinutes kv.2) <$> groups)) = sumMinutes l.
Proof.
  intros groups. split; [apply NoDup_fst_map_to_list|]. split; [|split].
  - intros k ks Hks. apply group_elem in Hks as [_ Hne].
    unfold len. destruct ks; [done|simpl; lia].
  - rewrite <- zsum_ones.
    rewrite <- (list_fmap_ext (λ kv, zsum ((λ _, 1) <$> kv.2)) _ groups)
      by (intros; by rewrite zsum_ones).
    unfold groups. rewrite (group_sum key (λ _, 1) l ∅).
    rewrite map_to_list_empty. simpl. lia.
  - rewrite sumMinutes_wrap.
    pose proof (group_sum key actualMinutes l ∅) as E.
    rewrite map_to_list_empty in E.
    change (zsum ((λ kv, zsum (actualMinutes <$> kv.2)) <$> [])) with 0 in E.
    rewrite Z.add_0_l in E. rewrite <- E. fold groups.
    rewrite (list_fmap_ext (λ kv, sumMinutes kv.2)
               (wrap ∘ (λ kv, zsum (actualMinutes <$> kv.2))) groups)
      by (intros; apply sumMinutes_wrap).
    by rewrite list_fmap_compose, wrap_zsum_wrap.
Qed.

(** X10. The day rollups inside a week rollup split the completed sessions
    of the week: their dates are pairwise distinct, each counts at least one
    session, their counts add up to the number of completed sessions of the
    week, and their totals add up, in 64-bit arithmetic, to the total of the
    week. *)
Theorem X10_week_days_add_up (st : Storage) (all : list Session)
    (year week : Z) (ws : WeekStats) :
  GetAllSessions st = Ok all →
  GetWeekStats year week st = Ok ws →
  NoDup (day_Date <$> week_DailyStats ws) ∧
  (∀ d, d ∈ week_DailyStats ws → 1 <= day_SessionsCount d) ∧
  zsum (day_SessionsCount <$> week_DailyStats ws)
  = len (completedIn (λ s, Year s = year ∧ Week s = week) all) ∧
  wrap (zsum (day_SessionsCount <$> week_DailyStats ws))
  = week_SessionsCount ws ∧
  wrap (zsum (day_TotalMinutes <$> week_DailyStats ws))
  = week_TotalMinutes ws.
Proof.
  intros Hall Hws. rewrite (GetWeekStats_eq _ _ _ _ Hall) in Hws.
  simplify_eq/=. fold (completedIn (λ s, Year s = year ∧ Week s = week) all).
  set (C := completedIn _ all).
  destruct (groups_add_up Date C) as (Hnd & Hone & Hcnt & Htot).
  rewrite <- !list_fmap_compose.
  assert (∀ (f : DayStats → Z) (g : string * list Session → Z)
            (l : list (string * list Session)),
            (∀ kv, f (let '(date, ks) := kv in
                      mkDayStats date (len ks) (sumMinutes ks) ks) = g kv) →
            (f ∘ (λ '(date, ks), mkDayStats date (len ks) (sumMinutes ks) ks))
              <$> l = g <$> l) as Hext.
  { intros f g l Hfg. apply list_fmap_ext. intros i [??] _. apply (Hfg (_, _)). }
  repeat split.
  - rewrite (list_fmap_ext _ fst (map_to_list (groupFrom Date ∅ C)));
      [done|]. by intros i [??] _.
  - intros d Hd. apply list_elem_of_fmap in Hd as ([k ks] & -> & Hks).
    simpl. by eapply Hone.
  - rewrite (Hext day_SessionsCount (λ kv, len kv.2)); [done|].
    by intros [??].
  - rewrite (Hext day_SessionsCount (λ kv, len kv.2)) by (by intros [??]).
    by rewrite Hcnt.
  - rewrite (Hext day_TotalMinutes (λ kv, sumMinutes kv.2)); [done|].
    by intros [??].
Qed.

(** X11. The week rollups inside a month rollup split the completed
    sessions of the month in the same way: pairwise distinct week numbers,
    at least one session each, counts and totals that add up to those of the
    month. *)
Theorem X11_month_weeks_add_up (st : Storage) (all : list Session)
    (year month : Z) (ms : MonthStats) :
  GetAllSessions st = Ok all →
  GetMonthStats year month st = Ok ms →
  NoDup (week_Week <$> month_WeeklyStats ms) ∧
  (∀ w, w ∈ month_WeeklyStats ms →
     1 <= week_SessionsCount w ∧ week_Year w = year) ∧
  wrap (zsum (week_SessionsCount <$> month_WeeklyStats ms))
  = month_SessionsCount ms ∧
  wrap (zsum (week_TotalMinutes <$> month_WeeklyStats ms))
  = month_TotalMinutes ms.
Proof.
  intros Hall Hms. rewrite (GetMonthStats_eq _ _ _ _ Hall) in Hms.
  simplify_eq/=.
  set (C := filter _ (filter _ all)).
  destruct (groups_add_up Week C) as (Hnd & Hone & Hcnt & Htot).
  rewrite <- !list_fmap_compose.
  assert (∀ (f : WeekStats → Z) (g : Z * list Session → Z)
            (l : list (Z * list Session)),
            (∀ kv, f (let '(week, ks) := kv in
                      mkWeekStats week year (len ks) (sumMinutes ks) [])
                   = g kv) →
            (f ∘ (λ '(week, ks),
                    mkWeekStats week year (len ks) (sumMinutes ks) []))
              <$> l = g <$> l) as Hext.
  { intros f g l Hfg. apply list_fmap_ext. intros i [??] _. apply (Hfg (_, _)). }
  repeat split.
  - rewrite (list_fmap_ext _ fst (map_to_list (groupFrom Week ∅ C)));
      [done|]. by intros i [??] _.
  - apply list_elem_of_fmap in H as ([k ks] & -> & Hks). simpl.
    by eapply Hone.
  - apply list_elem_of_fmap in H as ([k ks] & -> & Hks). done.
  - rewrite (Hext week_SessionsCount (λ kv, len kv.2)) by (by intros [??]).
    by rewrite Hcnt.
  - rewrite (Hext week_TotalMinutes (λ kv, sumMinutes kv.2)); [done|].
    by intros [??].
Qed.

End add_up.

Lemma X10_witness :
  let s1 := set_ElapsedSeconds 1800 (sampleSession "a" false true) in
  let s2 := mkSession "b" 0 0 25 true "2024-03-05" 10 "2024-03" 2024 false
              3000 false in
  let st := mkStorage (Holds [s1; s2]) Absent in
  GetAllSessions st = Ok [s1; s2] ∧
  ∃ ws, GetWeekStats (lib := go_ref) 2024 10 st = Ok ws ∧
        week_TotalMinutes ws = 80 ∧
        wrap (zsum (day_TotalMinutes <$> week_DailyStats ws)) = 80.
Proof.
  intros s1 s2 st. split; [reflexivity|].
  eexists. split; [vm_compute; reflexivity|]. split; [reflexivity|].
  refine (proj2 (proj2 (proj2 (proj2
            (X10_week_days_add_up (lib := go_ref) st [s1; s2] 2024 10 _
               eq_refl _))))).
  vm_compute. reflexivity.
Defined.

Lemma X11_witness :
  let s1 := set_ElapsedSeconds 1800 (sampleSession "a" false true) in
  let s2 := mkSession "b" 0 0 25 true "2024-03-12" 11 "2024-03" 2024 false
              3000 false in
  let st := mkStorage (Holds [s1; s2]) Absent in
  GetAllSessions st = Ok [s1; s2] ∧
  ∃ ms, GetMonthStats (lib := go_ref) 2024 3 st = Ok ms ∧
        month_TotalMinutes ms = 80 ∧
        wrap (zsum (week_TotalMinutes <$> month_WeeklyStats ms)) = 80.
Proof.
  intros s1 s2 st. split; [reflexivity|].
  eexists. split; [vm_compute; reflexivity|]. split; [reflexivity|].
  refine (proj2 (proj2 (proj2
            (X11_month_weeks_add_up (lib := go_ref) st [s1; s2] 2024 3 _
               eq_refl _)))).
  vm_compute. reflexivity.
Defined.

(** ** The dashboard loop *)

(** X12. Along every sequence of messages of the dashboard, started by New
    on a store with pairwise distinct ids and at most one active session, the
    store has at most one active session: the checkpoint ticks and the Pause,
    Resume and Quit keys, which save the session as active, included. *)
Theorem X12_dashboard_loop_keeps_one_active {lib : GoLib} (env0 : Env)
    (st0 st1 : Storage) (m0 : Model) (events : list (Env * Msg)) :
  NoDup (ID <$> stored st0) → atMostOneActive st0 →
  New env0 st0 = (Ok m0, st1) →
  atMostOneActive (run events m0 st1).2 ∧
  NoDup (ID <$> stored (run events m0 st1).2).
Proof.
  intros Hnd Hone Hnew.
  assert (coherent (activeSession m0) st1) as Hcoh.
  { unfold New in Hnew.
    destruct (GetConfig st0) as [[c|[c e]] st'] eqn:Hc; [|done].
    apply GetConfig_sessions in Hc.
    assert (stored st' = stored st0) as Hst
      by (unfold stored; by rewrite (GetAllSessions_ext _ _ Hc)).
    assert (coherent (match GetActiveSession st' with
                      | Ok a => a | Err _ => None end) st') as Hcoh.
    { destruct (GetActiveSession st') as [a|e] eqn:Ha.
      - apply coherent_loaded; [by rewrite Hst| |done].
        unfold atMostOneActive, activeCount. by rewrite Hst.
      - split; [by rewrite Hst|].
        unfold GetActiveSession in Ha.
        destruct (GetAllSessions st') as [l|e'] eqn:Hl; [done|].
        exists "". rewrite (stored_Err _ _ Hl).
        split; [by intros r Hr%elem_of_nil|done]. }
    cbv zeta in Hnew.
    destruct (match GetActiveSession st' with Ok a => a | Err _ => None end)
      as [s|] eqn:Es.
    - destruct (negb (Paused s)); by injection Hnew as <- <-.
    - by injection Hnew as <- <-. }
  pose proof (run_coherent events m0 st1 Hcoh) as Hrun.
  split; [by eapply coherent_at_most_one|]. by destruct Hrun.
Qed.

Lemma X12_witness :
  let st := mkStorage Absent (Holds DefaultConfig) in
  let env := mkEnv "id-1" (1000 * Minute) "2024-03-04" 10 "2024-03" 2024 3 in
  let env' := mkEnv "id-2" (1001 * Minute) "2024-03-04" 10 "2024-03" 2024 3 in
  ∃ m, New (lib := go_ref) env st = (Ok m, st) ∧
    atMostOneActive
      (run (lib := go_ref)
         [(env, KeyMsg "s"); (env, tickMsg); (env, KeyMsg "p");
          (env, KeyMsg "c"); (env', KeyMsg "s"); (env', KeyMsg "q")] m st).2.
Proof.
  intros st env env'. eexists. split; [vm_compute; reflexivity|].
  refine (proj1 (X12_dashboard_loop_keeps_one_active (lib := go_ref) env st st
                   _ _ _ _ eq_refl)).
  - constructor.
  - vm_compute. lia.
Defined.

(** X13. The same along every sequence of messages of the timer view, run
    from a store with pairwise distinct ids whose active sessions, if any,
    carry the id of the session of the view. *)
Theorem X13_timer_view_keeps_one_active (events : list (Env * timer.Msg))
    (m : timer.Model) (st : Storage) :
  coherent (timer.currentSession m) st →
  atMostOneActive (timer_run events m st).2 ∧
  NoDup (ID <$> stored (timer_run events m st).2).
Proof.
  intros Hc.
  assert (coherent (timer.currentSession (timer_run events m st).1)
            (timer_run events m st).2) as Hrun.
  { revert m st Hc. induction events as [|[env msg] events IH];
      intros m st Hc; [done|].
    unfold timer_run. cbn [foldl].
    pose proof (timer_Update_coherent env msg m st Hc) as H.
    destruct (timer.Update env msg m st) as [[m1 c] st1]. by apply IH. }
  split; [by eapply coherent_at_most_one|]. by destruct Hrun.
Qed.

Lemma X13_witness :
  let st := mkStorage Absent Absent in
  let env := mkEnv "id-1" (1000 * Minute) "2024-03-04" 10 "2024-03" 2024 3 in
  coherent (timer.currentSession (timer.New 25)) st ∧
  atMostOneActive
    (timer_run [(env, timer.KeyMsg "s"); (env, timer.tickMsg);
                (env, timer.KeyMsg "p"); (env, timer.KeyMsg "q")]
       (timer.New 25) st).2.
Proof.
  intros st env.
  assert (coherent (timer.currentSession (timer.New 25)) st) as Hc.
  { split; [constructor|]. exists "".
    split; [intros r Hr; by apply elem_of_nil in Hr|intros s Hs; discriminate Hs]. }
  split; [exact Hc|].
  exact (proj1 (X13_timer_view_keeps_one_active _ (timer.New 25) st Hc)).
Defined.

(** ** Completed sessions and their planned seconds *)

Lemma within_save s st :
  completedWithinPlanned st →
  (Completed s = true → ElapsedSeconds s <= Duration s * 60) →
  completedWithinPlanned (SaveSession s st).2.
Proof.
  intros Hst Hs r Hr Hc.
  destruct (stored_SaveSession s st) as [E|[E _]]; rewrite E in Hr.
  - apply upsert_elem_inv in Hr as [->|Hr]; [by apply Hs|by apply Hst].
  - by apply elem_of_nil in Hr.
Qed.

Lemma within_deactivate st :
  completedWithinPlanned st →
  completedWithinPlanned (DeactivateAllSessions st).2.
Proof.
  intros Hst r Hr Hc. rewrite stored_Deactivate in Hr.
  apply list_elem_of_fmap in Hr as (r0 & -> & Hr0). by apply (Hst r0).
Qed.

Lemma timerInv_same m m' :
  timerInv m →
  (config m', timerRunning m', activeSession m', timerElapsed m',
   timerDuration m')
  = (config m, timerRunning m, activeSession m, timerElapsed m,
     timerDuration m) →
  timerInv m'.
Proof. unfold timerInv. intros H [= -> -> -> -> ->]. exact H. Qed.

Lemma timerInv_idle m' :
  1 <= SessionDuration (config m') →
  SessionDuration (config m') * 60 <= int_max →
  timerRunning m' = false → timerInv m'.
Proof. unfold timerInv. intros H1 H2 ->. by repeat split. Qed.

Lemma saveActive_timerInv f m st :
  (∀ s, Completed (f s) = Completed s ∧ Duration (f s) = Duration s) →
  timerRunning m = true → timerInv m → completedWithinPlanned st →
  timerInv (saveActive f m st).1 ∧
  completedWithinPlanned (saveActive f m st).2 ∧
  (config (saveActive f m st).1, timerRunning (saveActive f m st).1,
   timerPaused (saveActive f m st).1, timerElapsed (saveActive f m st).1,
   timerDuration (saveActive f m st).1)
  = (config m, timerRunning m, timerPaused m, timerElapsed m,
     timerDuration m) ∧
  activeSession (saveActive f m st).1 = f <$> activeSession m.
Proof.
  intros Hf Hr Hinv Hst.
  destruct Hinv as (H1 & H2 & H3).
  destruct (H3 Hr) as (s & Hs & Hc & Hd & He & Hm).
  rewrite (saveActive_Some _ _ _ s) by done. cbn [fst snd].
  destruct (Hf s) as [Hfc Hfd].
  split; [|split; [|split; [done|by rewrite Hs]]].
  - unfold timerInv. split; [done|]. split; [done|].
    intros _. exists (f s). cbn. rewrite Hfc, Hfd. done.
  - apply within_save; [done|]. rewrite Hfc, Hc. done.
Qed.

Section within.
Context {lib : GoLib}.

Lemma startNewSession_timerInv env m st :
  timerInv m → completedWithinPlanned st →
  timerInv (startNewSession env m st).1.1 ∧
  completedWithinPlanned (startNewSession env m st).2.
Proof.
  intros (H1 & H2 & _) Hst. split.
  - unfold timerInv. split; [done|]. split; [done|].
    intros _. eexists. split; [reflexivity|].
    cbn. unfold int_mul.
    rewrite wrap_id by (unfold in_int, int_min; lia).
    repeat split; lia.
  - rewrite startNewSession_store.
    apply within_save; [by apply within_deactivate|done].
Qed.

Lemma cancelSession_timerInv env m st :
  timerInv m → completedWithinPlanned st →
  timerInv (cancelSession env m st).1.1 ∧
  completedWithinPlanned (cancelSession env m st).2.
Proof.
  intros (H1 & H2 & _) Hst. split.
  - unfold cancelSession.
    assert (config (saveActive
              (λ s, set_ElapsedSeconds (timerElapsed m) (set_Active false
                      (set_Completed false (set_EndTime (now env) s))))
              m st).1 = config m) as Hcfg
      by (unfold saveActive; by destruct (activeSession m)).
    destruct (saveActive _ m st) as [m1 st1]. cbn [fst] in Hcfg.
    apply timerInv_idle; cbn; rewrite ?Hcfg; done.
  - rewrite cancelSession_store. unfold saveActive.
    destruct (activeSession m); [|done]. by apply within_save.
Qed.

Lemma completeSession_timerInv env m st :
  1 <= SessionDuration (config m) →
  SessionDuration (config m) * 60 <= int_max →
  completedWithinPlanned st →
  (∀ s, activeSession m = Some s → timerElapsed m <= Duration s * 60) →
  timerInv (completeSession env m st).1.1 ∧
  completedWithinPlanned (completeSession env m st).2.
Proof.
  intros H1 H2 Hst He. split.
  - unfold completeSession.
    assert (config (saveActive
              (λ s, set_ElapsedSeconds (timerElapsed m) (set_Active false
                      (set_Completed true (set_EndTime (now env) s))))
              m st).1 = config m) as Hcfg
      by (unfold saveActive; by destruct (activeSession m)).
    destruct (saveActive _ m st) as [m1 st1]. cbn [fst] in Hcfg.
    case_match. all: apply timerInv_idle; cbn; rewrite ?Hcfg; done.
  - rewrite completeSession_store. unfold saveActive.
    destruct (activeSession m) as [s|] eqn:Hs; [|done].
    apply within_save; [done|]. intros _. cbn. by apply He.
Qed.

Lemma Update_timerInv env msg m st :
  timerInv m → completedWithinPlanned st →
  timerInv (Update env msg m st).1.1 ∧
  completedWithinPlanned (Update env msg m st).2.
Proof.
  intros Hinv Hst.
  destruct msg as [w h|k| | |ok text|]; cbn [Update].
  - split; [|done]. case_match; by apply (timerInv_same m).
  - unfold UpdateKey.
    destruct (timerRunning m) eqn:Hr;
      rewrite ?andb_true_r, ?andb_false_r; cbn [andb negb];
      rewrite ?andb_true_r, ?andb_false_r; cbn [andb negb];
      repeat match goal with
      | |- context [if ?b then _ else _] => destruct b
      | |- context [match viewState m with _ => _ end] =>
          destruct (viewState m)
      end;
      try match goal with
      | |- context [saveActive ?f ?m0 st] =>
          let H := fresh "Hsv" in
          assert (timerInv m0) as H by (by apply (timerInv_same m));
          destruct (saveActive_timerInv f m0 st
                      (λ _, conj eq_refl eq_refl) Hr H Hst)
            as (Hi & Hs & Heq & _);
          destruct (saveActive f m0 st) as [m1 st1];
          cbn [fst snd] in Hi, Hs, Heq;
          split; [|exact Hs];
          by apply (timerInv_same m1)
      | |- context [startNewSession env m st] =>
          by apply startNewSession_timerInv
      | |- context [cancelSession env m st] =>
          by apply cancelSession_timerInv
      | |- _ => split; [by apply (timerInv_same m)|exact Hst]
      end.
  - destruct (timerRunning m) eqn:Hr; [|done].
    destruct (timerPaused m) eqn:Hp; [done|]. cbn [andb negb].
    destruct Hinv as (H1 & H2 & H3).
    destruct (H3 Hr) as (s & Hs & Hc & Hd & He & Hm).
    unfold int_add. rewrite wrap_id by (unfold in_int, int_min; lia).
    set (e := timerElapsed m + 1).
    cbn [timerElapsed set_timerElapsed set_timer].
    assert (∀ m1 st1,
              config m1 = config m → timerRunning m1 = true →
              timerElapsed m1 = e → timerDuration m1 = timerDuration m →
              (∃ s1, activeSession m1 = Some s1 ∧ Completed s1 = false ∧
                     Duration s1 = Duration s) →
              completedWithinPlanned st1 →
              timerInv (if timerElapsed m1 >=? timerDuration m1
                        then completeSession env m1 st1
                        else (m1, tea.Tick, st1)).1.1 ∧
              completedWithinPlanned
                (if timerElapsed m1 >=? timerDuration m1
                 then completeSession env m1 st1
                 else (m1, tea.Tick, st1)).2) as Hfin.
    { intros m1 st1 Hcfg Hr1 He1 Hd1 (s1 & Hs1 & Hc1 & Hds1) Hst1.
      assert (1 <= SessionDuration (config m1) ∧
              SessionDuration (config m1) * 60 <= int_max) as [??]
        by (by rewrite Hcfg).
      rewrite He1, Hd1.
      destruct (Z.geb_spec e (timerDuration m)) as [Hge|Hlt];
        rewrite ?(geb_true _ _ ltac:(lia)), ?(geb_false _ _ ltac:(lia)).
      - apply completeSession_timerInv; [done..|].
        intros s2 Hs2. rewrite Hs1 in Hs2. injection Hs2 as <-.
        rewrite He1, Hds1, <- Hd. unfold e. lia.
      - split; [|done]. cbn [fst]. unfold timerInv.
        split; [done|]. split; [done|]. intros _. exists s1.
        rewrite Hd1, He1, Hds1, <- Hd. repeat split; try done; lia. }
    destruct (bool_decide (Z.rem e 10 = 0)).
    + rewrite (saveActive_Some _ _ _ s) by done.
      apply Hfin; try done.
      * exists (set_ElapsedSeconds e s). by repeat split.
      * apply within_save; [done|]. cbn. by rewrite Hc.
    + apply Hfin; try done. by exists s.
  - done.
  - split; [by apply (timerInv_same m)|done].
  - split; [by apply (timerInv_same m)|done].
Qed.

End within.

Lemma run_timerInv {lib : GoLib} events m st :
  timerInv m → completedWithinPlanned st →
  timerInv (run events m st).1 ∧ completedWithinPlanned (run events m st).2.
Proof.
  revert m st. induction events as [|[env msg] events IH]; intros m st Hm Hst;
    [done|].
  unfold run. cbn [foldl].
  pose proof (Update_timerInv env msg m st Hm Hst) as H.
  destruct (Update env msg m st) as [[m1 c] st1].
  destruct H as [H1 H2]. by apply IH.
Qed.

(** X14. A dashboard whose timer is idle and whose configured session
    duration is at least one minute and fits an [int] in seconds never
    stores a completed session with more elapsed seconds than planned,
    whatever messages follow: if every completed session of the store has
    at most its planned seconds before, so it is after. *)
Theorem X14_sessions_of_a_run_complete_within_planned {lib : GoLib}
    (events : list (Env * Msg)) (m : Model) (st : Storage) :
  timerRunning m = false →
  1 <= SessionDuration (config m) →
  SessionDuration (config m) * 60 <= int_max →
  completedWithinPlanned st →
  completedWithinPlanned (run events m st).2.
Proof.
  intros Hr H1 H2 Hst.
  exact (proj2 (run_timerInv events m st (timerInv_idle m H1 H2 Hr) Hst)).
Qed.

Lemma X14_witness :
  let st := mkStorage Absent (Holds (mkConfig 1 8 8 16)) in
  let env := mkEnv "id-1" (1000 * Minute) "2024-03-04" 10 "2024-03" 2024 3 in
  ∃ m, New (lib := go_ref) env st = (Ok m, st) ∧
    completedWithinPlanned
      (run (lib := go_ref)
         ((env, KeyMsg "s") :: replicate 60 (env, tickMsg)) m st).2.
Proof.
  intros st env. eexists. split; [vm_compute; reflexivity|].
  apply (X14_sessions_of_a_run_complete_within_planned (lib := go_ref)).
  - reflexivity.
  - simpl. lia.
  - unfold int_max. simpl. lia.
  - intros r Hr. by apply elem_of_nil in Hr.
Defined.

(** ** The store after a start, a cancel and a completion *)

Lemma find_only_active l s :
  s ∈ l → isActive s → (∀ r, r ∈ l → isActive r → r = s) →
  snd <$> list_find (λ r, Active r = true ∧ Completed r = false) l = Some s.
Proof.
  intros Hs Ha Hu.
  destruct (list_find _ l) as [[i x]|] eqn:Hf.
  - apply list_find_Some in Hf as (Hi & Hx & _). simpl. f_equal.
    apply Hu; [by eapply list_elem_of_lookup_2|done].
  - apply list_find_None in Hf. by eapply Forall_forall in Hf.
Qed.

Lemma NoDup_ID_eq l (x y : Session) :
  NoDup (ID <$> l) → x ∈ l → y ∈ l → ID x = ID y → x = y.
Proof.
  induction l as [|a l IH]; intros Hnd Hx Hy Hid;
    [by apply elem_of_nil in Hx|].
  rewrite fmap_cons in Hnd. apply NoDup_cons in Hnd as [Ha Hnd].
  apply elem_of_cons in Hx as [->|Hx];
    apply elem_of_cons in Hy as [->|Hy]; try done.
  - exfalso. apply Ha. rewrite Hid. by apply list_elem_of_fmap_2.
  - exfalso. apply Ha. rewrite <- Hid. by apply list_elem_of_fmap_2.
  - by apply IH.
Qed.

Lemma activeCount_0 st :
  activeCount st = 0%nat ↔ ∀ r, r ∈ stored st → Active r = false.
Proof.
  unfold activeCount. split.
  - intros H0 r Hr. destruct (Active r) eqn:Ha; [|done].
    assert (r ∈ filter (λ s, Active s = true) (stored st)) as Hin
      by by apply list_elem_of_filter.
    destruct (filter _ (stored st)); [by apply elem_of_nil in Hin|done].
  - intros Hall.
    destruct (filter _ (stored st)) as [|x l] eqn:E; [done|].
    assert (x ∈ filter (λ s, Active s = true) (stored st)) as Hin
      by (rewrite E; constructor).
    apply list_elem_of_filter in Hin as [Ha Hx].
    rewrite (Hall x Hx) in Ha. done.
Qed.

Lemma save_inactive_no_active s s' st :
  coherent (Some s) st → ID s' = ID s → Active s' = false →
  activeCount (SaveSession s' st).2 = 0%nat.
Proof.
  intros Hc Hid Hin. apply activeCount_0. intros r Hr.
  destruct (Active r) eqn:Ha; [exfalso|done].
  destruct (coherent_save s s' st Hc Hid) as [Hnd _].
  destruct Hc as [_ (c & Hact & Hs)]. specialize (Hs s eq_refl). subst c.
  destruct (stored_SaveSession s' st) as [E|[E _]]; rewrite E in Hr, Hnd;
    [|by apply elem_of_nil in Hr].
  assert (r = s') as ->; [|congruence].
  apply (NoDup_ID_eq (upsert s' (stored st))); [done..|apply upsert_elem|].
  apply upsert_elem_inv in Hr as [->|Hr]; [done|].
  rewrite Hid. by apply Hact.
Qed.

Lemma GetActiveSession_no_active st :
  activeCount st = 0%nat → sessionsFile st ≠ Corrupt →
  GetActiveSession st = Ok None.
Proof.
  intros H0 Hf. unfold GetActiveSession.
  destruct (GetAllSessions st) as [l|e] eqn:Hl.
  - destruct (list_find _ l) as [[i x]|] eqn:E; [exfalso|done].
    apply list_find_Some in E as (Hi & [Ha _] & _).
    rewrite (proj1 (activeCount_0 st) H0 x) in Ha; [done|].
    rewrite (stored_Ok _ _ Hl). by eapply list_elem_of_lookup_2.
  - unfold GetAllSessions in Hl.
    destruct (sessionsFile st); simplify_eq/=.
Qed.

Section after_ops.
Context {lib : GoLib}.

Lemma New_no_active env st m st' :
  activeCount st = 0%nat → New env st = (Ok m, st') →
  activeSession m = None ∧ timerRunning m = false.
Proof.
  intros H0 Hnew. unfold New in Hnew.
  destruct (GetConfig st) as [[c|[c e]] st1] eqn:Hc; [|done].
  apply GetConfig_sessions in Hc.
  assert (match GetActiveSession st1 with Ok a => a | Err _ => None end
          = None) as Ha.
  { rewrite (GetActiveSession_ext _ _ Hc). unfold GetActiveSession.
    destruct (GetAllSessions st) as [l|e] eqn:Hl; [|done].
    destruct (list_find _ l) as [[i x]|] eqn:E; [exfalso|done].
    apply list_find_Some in E as (Hi & [Ha _] & _).
    rewrite (proj1 (activeCount_0 st) H0 x) in Ha; [done|].
    rewrite (stored_Ok _ _ Hl). by eapply list_elem_of_lookup_2. }
  cbv zeta in Hnew. rewrite Ha in Hnew. by injection Hnew as <- <-.
Qed.

(** X15. On a store whose sessions file can be read, the session that the
    dashboard starts is the one GetActiveSession returns afterwards, and it is
    the only stored session with [Active = true]: it carries the fresh id,
    the configured duration and no elapsed seconds, and it is the session
    the dashboard works on. *)
Theorem X15_started_session_is_the_active_one (env : Env) (m : Model)
    (st : Storage) :
  sessionsFile st ≠ Corrupt →
  let r := startNewSession env m st in
  ∃ s, activeSession r.1.1 = Some s ∧ GetActiveSession r.2 = Ok (Some s) ∧
       ID s = uuid env ∧ Duration s = SessionDuration (config m) ∧
       ElapsedSeconds s = 0 ∧ Paused s = false ∧
       (∀ x, x ∈ stored r.2 → Active x = true → x = s).
Proof.
  intros Hf r.
  assert (∃ l, GetAllSessions st = Ok l) as [l Hl].
  { unfold GetAllSessions.
    destruct (sessionsFile st) as [| |l0]; simpl; [eauto|congruence|eauto]. }
  eexists. split; [reflexivity|].
  pose proof (SaveSession_readable
                {| ID := uuid env; StartTime := now env; EndTime := 0;
                   Duration := SessionDuration (config m); Completed := false;
                   Date := today env; Week := isoWeek env;
                   Month := monthKey env; Year := yearNow env; Active := true;
                   ElapsedSeconds := 0; Paused := false |}
                _ _ (Deactivate_readable _ _ Hl)) as Hsave.
  fold (startNewSession env m st).2 in Hsave.
  assert (∀ x, x ∈ stored r.2 → Active x = true →
            x = {| ID := uuid env; StartTime := now env; EndTime := 0;
                   Duration := SessionDuration (config m); Completed := false;
                   Date := today env; Week := isoWeek env;
                   Month := monthKey env; Year := yearNow env; Active := true;
                   ElapsedSeconds := 0; Paused := false |}) as Honly.
  { intros x Hx Ha. unfold r in Hx. rewrite startNewSession_store in Hx.
    rewrite (stored_Ok _ _ Hsave) in Hx.
    apply upsert_elem_inv in Hx as [->|Hx]; [done|].
    apply list_elem_of_fmap in Hx as (x0 & -> & _). done. }
  split; [|by repeat split].
  unfold r. rewrite startNewSession_store.
  unfold GetActiveSession. rewrite Hsave. f_equal.
  apply find_only_active; [apply upsert_elem|done|].
  intros x Hx [Ha _]. apply Honly; [|done].
  unfold r. rewrite startNewSession_store. by rewrite (stored_Ok _ _ Hsave).
Qed.

(** X16. When the stored ids are pairwise distinct and the active stored
    sessions carry the id of the session the dashboard works on, a cancel
    and a completion leave no stored session active: a dashboard made from
    the store afterwards has nothing to resume. *)
Theorem X16_cancel_and_complete_leave_none_active (env : Env) (m : Model)
    (st : Storage) (s : Session) :
  coherent (activeSession m) st → activeSession m = Some s →
  (activeCount (cancelSession env m st).2 = 0%nat ∧
   activeCount (completeSession env m st).2 = 0%nat) ∧
  ∀ env' m' st',
    (New env' (cancelSession env m st).2 = (Ok m', st') ∨
     New env' (completeSession env m st).2 = (Ok m', st')) →
    activeSession m' = None ∧ timerRunning m' = false.
Proof.
  intros Hc Hs. rewrite Hs in Hc.
  assert (activeCount (cancelSession env m st).2 = 0%nat ∧
          activeCount (completeSession env m st).2 = 0%nat) as [H1 H2].
  { rewrite cancelSession_store, completeSession_store.
    rewrite !(saveActive_Some _ _ _ s) by done. cbn [snd].
    split; by apply (save_inactive_no_active s). }
  split; [done|].
  intros env' m' st' [Hn|Hn].
  - exact (New_no_active _ _ _ _ H1 Hn).
  - exact (New_no_active _ _ _ _ H2 Hn).
Qed.

End after_ops.

Lemma X15_witness :
  let st := mkStorage (Holds [sampleSession "a" true false]) Absent in
  let env := mkEnv "id-1" (1000 * Minute) "2024-03-04" 10 "2024-03" 2024 3 in
  ∃ m, New (lib := go_ref) env st = (Ok m, writeConfig DefaultConfig st) ∧
    ∃ s, GetActiveSession (startNewSession env m st).2 = Ok (Some s) ∧
         ID s = "id-1".
Proof.
  intros st env. eexists. split; [vm_compute; reflexivity|].
  match goal with
  | |- context [startNewSession env ?m st] =>
      destruct (X15_started_session_is_the_active_one env m st)
        as (s & _ & Hs & Hid & _); [done|]
  end.
  exists s. split; [exact Hs|exact Hid].
Defined.

Lemma X16_witness :
  let s := sampleSession "a" true false in
  let st := mkStorage (Holds [s; sampleSession "b" false true]) Absent in
  let env := mkEnv "id-1" (1000 * Minute) "2024-03-04" 10 "2024-03" 2024 3 in
  ∃ m, New (lib := go_ref) env st = (Ok m, writeConfig DefaultConfig st) ∧
    activeCount (cancelSession (lib := go_ref) env m st).2 = 0%nat.
Proof.
  intros s st env. eexists. split; [vm_compute; reflexivity|].
  match goal with
  | |- context [cancelSession env ?m st] =>
      refine (proj1 (proj1 (X16_cancel_and_complete_leave_none_active
                              (lib := go_ref) env m st s _ eq_refl)))
  end.
  split.
  - apply (bool_decide_unpack _). vm_compute. exact I.
  - exists "a". split; [|by intros ? [= <-]].
    intros r Hr Ha. vm_compute in Hr.
    apply elem_of_cons in Hr as [->|Hr]; [done|].
    apply elem_of_cons in Hr as [->|Hr]; [done|].
    by apply elem_of_nil in Hr.
Defined.

(** ** The help view of the dashboard *)

Lemma saveActive_helpModel f m st :
  helpModel (saveActive f m st).1 = helpModel m.
Proof. unfold saveActive. by destruct (activeSession m). Qed.

Section help_view.
Context {lib : GoLib}.

Lemma cancelSession_helpModel env m st :
  helpModel (cancelSession env m st).1.1 = helpModel m.
Proof.
  unfold cancelSession.
  pose proof (saveActive_helpModel
                (λ s, set_ElapsedSeconds (timerElapsed m) (set_Active false
                        (set_Completed false (set_EndTime (now env) s))))
                m st) as H.
  by destruct (saveActive _ m st).
Qed.

Lemma completeSession_helpModel env m st :
  helpModel (completeSession env m st).1.1 = helpModel m.
Proof.
  unfold completeSession.
  pose proof (saveActive_helpModel
                (λ s, set_ElapsedSeconds (timerElapsed m) (set_Active false
                        (set_Completed true (set_EndTime (now env) s))))
                m st) as H.
  destruct (saveActive _ m st). by case_match.
Qed.

Lemma Update_help_quit env msg m st :
  help.quit (helpModel m) = true →
  help.quit (helpModel (Update env msg m st).1.1) = true.
Proof.
  intros Hq.
  destruct msg as [w h|k| | |ok text|]; cbn [Update].
  - by case_match.
  - unfold UpdateKey. destruct (bool_decide (viewState m = HelpView)).
    { unfold help.UpdateKey, help.ShouldQuit.
      destruct (_ || _); cbn; [done|]. by rewrite Hq. }
    repeat match goal with
    | |- context [if ?b then _ else _] => destruct b
    | |- context [match viewState m with _ => _ end] =>
        destruct (viewState m)
    end;
    try match goal with
    | |- context [saveActive ?f ?m0 st] =>
        let H := fresh "Hsv" in
        pose proof (saveActive_helpModel f m0 st) as H;
        destruct (saveActive f m0 st) as [m1 st1];
        cbn in H |- *; by rewrite H
    | |- context [cancelSession env m st] =>
        by rewrite cancelSession_helpModel
    end; done.
  - destruct (timerRunning m && negb (timerPaused m)); [|done].
    cbv zeta.
    match goal with
    | |- context [if bool_decide ?P then saveActive ?f ?m0 st else _] =>
        pose proof (saveActive_helpModel f m0 st) as Hsv;
        destruct (if bool_decide P then saveActive f m0 st else (m0, st))
          as [m1 st1] eqn:E;
        assert (helpModel m1 = helpModel m) as Hm1
          by (destruct (bool_decide P);
              [rewrite E in Hsv; exact Hsv|by injection E as <- <-])
    end.
    destruct (timerElapsed m1 >=? timerDuration m1); cbn [fst snd];
      [|by rewrite Hm1].
    by rewrite completeSession_helpModel, Hm1.
  - done.
  - done.
  - done.
Qed.

Lemma run_help_quit events m st :
  help.quit (helpModel m) = true →
  help.quit (helpModel (run events m st).1) = true.
Proof.
  revert m st. induction events as [|[env msg] events IH]; intros m st Hq;
    [done|].
  unfold run. cbn [foldl].
  pose proof (Update_help_quit env msg m st Hq) as H.
  destruct (Update env msg m st) as [[m1 c] st1]. by apply IH.
Qed.

(** X17. The quit flag of the help model of the dashboard is never cleared.
    A key bound to Back, Quit or Home pressed in the help view sets it and
    shows the home view; from then on, whatever messages follow, every key
    pressed while the help view is shown again, bound or not, closes it,
    changes nothing in the store and gives no command. *)
Theorem X17_help_view_closes_on_any_key_once_closed (env : Env) (k : string)
    (events : list (Env * Msg)) (m : Model) (st : Storage) :
  viewState m = HelpView →
  Matches k (help.Back help.keys) || Matches k (help.Quit help.keys)
    || Matches k (help.Home help.keys) = true →
  let u := Update env (KeyMsg k) m st in
  viewState u.1.1 = HomeView ∧ u.2 = st ∧
  let r := run events u.1.1 u.2 in
  viewState r.1 = HelpView →
  ∀ env' k', Update env' (KeyMsg k') r.1 r.2
             = (set_viewState HomeView
                  (set_helpModel (help.UpdateKey k' (helpModel r.1)) r.1),
                tea.Nil, r.2).
Proof.
  intros Hv Hk u.
  assert (u = (set_viewState HomeView
                 (set_helpModel
                    (help.mkModel (help.width (helpModel m))
                       (help.height (helpModel m)) true) m),
               tea.Nil, st)) as Hu.
  { unfold u. cbn [Update]. unfold UpdateKey.
    rewrite bool_decide_eq_true_2 by done.
    unfold help.UpdateKey. by rewrite Hk. }
  rewrite Hu. cbn [fst snd]. split; [done|]. split; [done|].
  intros Hr env' k'.
  match goal with
  | |- context [run events ?m1 st] =>
      pose proof (run_help_quit events m1 st eq_refl) as Hq;
      destruct (run events m1 st) as [m2 st2]
  end.
  cbn [fst snd] in *. cbn [Update]. unfold UpdateKey.
  rewrite bool_decide_eq_true_2 by done.
  assert (help.ShouldQuit
            (helpModel (set_helpModel (help.UpdateKey k' (helpModel m2)) m2))
          = true) as ->; [|done].
  cbn. unfold help.UpdateKey, help.ShouldQuit.
  by destruct (Matches k' _ || _ || _).
Qed.

End help_view.

Lemma X17_witness :
  let st := mkStorage Absent (Holds DefaultConfig) in
  let env := mkEnv "id-1" (1000 * Minute) "2024-03-04" 10 "2024-03" 2024 3 in
  ∃ m, New (lib := go_ref) env st = (Ok m, st) ∧
    let m1 := (run (lib := go_ref) [(env, KeyMsg "?"); (env, KeyMsg "esc");
                                    (env, KeyMsg "?")] m st).1 in
    viewState m1 = HelpView ∧
    viewState (Update (lib := go_ref) env (KeyMsg "x") m1 st).1.1 = HomeView.
Proof.
  intros st env. eexists. split; [vm_compute; reflexivity|].
  split; [vm_compute; reflexivity|].
  match goal with
  | |- context [run [?e1; ?e2; ?e3] ?m st] =>
      pose proof (proj2 (proj2
        (X17_help_view_closes_on_any_key_once_closed (lib := go_ref)
           env "esc" [e3] (Update (lib := go_ref) env (KeyMsg "?") m st).1.1
           st eq_refl eq_refl)) eq_refl env "x") as H
  end.
  exact (f_equal (λ x, viewState x.1.1) H).
Defined.

(** ** The settings view *)

Section settings_view.
Context {W : settings.Widgets}.

Lemma saveConfig_cases (m : settings.Model) (st : Storage) :
  (∃ text, settings.saveConfig m st = (Some (inl text), m, st)) ∨
  (∃ c, validConfig c ∧
        (settings.Atoi (settings.Value (settings.inputs m !!! 0%fin))
           = Some (SessionDuration c) ∧
         settings.Atoi (settings.Value (settings.inputs m !!! 1%fin))
           = Some (DailySessionGoal c) ∧
         settings.Atoi (settings.Value (settings.inputs m !!! 2%fin))
           = Some (WorkStartHour c) ∧
         settings.Atoi (settings.Value (settings.inputs m !!! 3%fin))
           = Some (WorkEndHour c)) ∧
        ((nextFails st = false ∧
          settings.saveConfig m st
          = (None, settings.set_config c m, writeConfig c (answered st))) ∨
         (nextFails st = true ∧
          settings.saveConfig m st
          = (Some (inr ErrIO), settings.set_config c m, answered st)))).
Proof.
  unfold settings.saveConfig. cbv zeta.
  destruct (bool_decide (_ = "")); [by eauto|].
  destruct (settings.Atoi _) as [d|] eqn:Hd; [|by eauto].
  destruct (Z.ltb_spec d 1); [by eauto|].
  destruct (Z.gtb_spec d 180); [by eauto|]. cbn [orb].
  destruct (bool_decide (_ = "")); [by eauto|].
  destruct (settings.Atoi (settings.Value (settings.inputs m !!! 1%fin)))
    as [g|] eqn:Hg; [|by eauto].
  destruct (Z.ltb_spec g 1); [by eauto|].
  destruct (Z.gtb_spec g 24); [by eauto|]. cbn [orb].
  destruct (bool_decide (_ = "")); [by eauto|].
  destruct (settings.Atoi (settings.Value (settings.inputs m !!! 2%fin)))
    as [s|] eqn:Hs; [|by eauto].
  destruct (Z.ltb_spec s 0); [by eauto|].
  destruct (Z.gtb_spec s 23); [by eauto|]. cbn [orb].
  destruct (bool_decide (_ = "")); [by eauto|].
  destruct (settings.Atoi (settings.Value (settings.inputs m !!! 3%fin)))
    as [e|] eqn:He; [|by eauto].
  destruct (Z.ltb_spec e 0); [by eauto|].
  destruct (Z.gtb_spec e 23); [by eauto|]. cbn [orb].
  destruct (Z.leb_spec e s); [by eauto|].
  right. exists (mkConfig d g s e).
  split; [unfold validConfig; cbn; lia|]. split; [done|].
  cbn [settings.config settings.set_config]. unfold SaveConfig.
  destruct (nextFails st); [right|left]; done.
Qed.

Lemma neverFails_nextFails st : neverFails st → nextFails st = false.
Proof.
  unfold neverFails, nextFails. destruct (ioFails st) as [|b l]; [done|].
  intros H. by apply Forall_cons in H as [-> _].
Qed.

Lemma answersLeft_refl st : answersLeft st st.
Proof. by exists 0%nat. Qed.

Lemma answersLeft_trans st1 st2 st3 :
  answersLeft st1 st2 → answersLeft st2 st3 → answersLeft st1 st3.
Proof.
  intros [k1 H1] [k2 H2]. exists (k1 + k2)%nat.
  by rewrite H2, H1, drop_drop.
Qed.


Lemma answersLeft_answered st : answersLeft st (answered st).
Proof. exists 1%nat. unfold answered. cbn. by destruct (ioFails st). Qed.

Lemma answersLeft_neverFails st st' :
  answersLeft st st' → neverFails st → neverFails st'.
Proof.
  intros [k H]. unfold neverFails. rewrite H. apply Forall_drop.
Qed.

Lemma ResetAllData_cases st :
  let r := ResetAllData st in
  answersLeft st r.2 ∧
  ((r.1 = None ∧ sessionsFile r.2 = Absent ∧ configFile r.2 = Absent) ∨
   (r.1 = Some ErrIO ∧ ¬ neverFails st ∧ configFile r.2 = configFile st ∧
    (sessionsFile r.2 = sessionsFile st ∨ sessionsFile r.2 = Absent))).
Proof.
  assert (∀ l, ¬ Forall (λ b, b = false) (true :: l)) as Hno1
    by (by intros l [? _]%Forall_cons).
  assert (∀ l, ¬ Forall (λ b, b = false) (false :: true :: l)) as Hno2
    by (by intros l [_ [? _]%Forall_cons]%Forall_cons).
  destruct st as [sf cf l].
  unfold ResetAllData, removeSessions, removeConfig, nextFails, answered,
    neverFails, answersLeft.
  destruct sf, cf, l as [|[] [|[] l]];
    cbn [sessionsFile configFile ioFails head tail default isFailure
         IsNotExist negb fst snd];
    (split;
     [first [by exists 0%nat | by exists 1%nat | by exists 2%nat]
     |first [by left | right; by eauto 10]]).
Qed.

Lemma updateInputs_fields msg m :
  settings.reset (settings.updateInputs msg m) = settings.reset m ∧
  settings.focusIndex (settings.updateInputs msg m) = settings.focusIndex m ∧
  settings.config (settings.updateInputs msg m) = settings.config m.
Proof.
  unfold settings.updateInputs.
  generalize [0%fin; 1%fin; 2%fin; 3%fin : fin 4]. intros l.
  revert m. induction l as [|i l IH]; intros m; [done|].
  cbn [foldl].
  match goal with
  | |- context [foldl ?f ?m1 l] => destruct (IH m1) as (-> & -> & ->)
  end.
  by case_bool_decide.
Qed.

Lemma settings_Update_store msg m st :
  let r := settings.Update msg m st in
  answersLeft st r.2 ∧
  ((settings.reset r.1.1 = settings.reset m ∧
    sessionsFile r.2 = sessionsFile st ∧
    (configFile r.2 = configFile st ∨
     ∃ c, configFile r.2 = Holds c ∧ validConfig c))
   ∨ (settings.confirmReset m = true ∧
      (∃ k, msg = settings.KeyMsg k ∧
            Matches k (settings.Reset settings.keys) = true) ∧
      (configFile r.2 = configFile st ∨ configFile r.2 = Absent) ∧
      sessionsFile r.2 = Absent ∧
      (settings.reset r.1.1 = true ∨
       settings.reset r.1.1 = settings.reset m ∧ ¬ neverFails st))).
Proof.
  cbv zeta.
  pose (Q := λ (m' : settings.Model) (st' : Storage),
          answersLeft st st' ∧
          ((settings.reset m' = settings.reset m ∧
            sessionsFile st' = sessionsFile st ∧
            (configFile st' = configFile st ∨
             ∃ c, configFile st' = Holds c ∧ validConfig c))
           ∨ (settings.confirmReset m = true ∧
              (∃ k, msg = settings.KeyMsg k ∧
                    Matches k (settings.Reset settings.keys) = true) ∧
              (configFile st' = configFile st ∨ configFile st' = Absent) ∧
              sessionsFile st' = Absent ∧
              (settings.reset m' = true ∨
               settings.reset m' = settings.reset m ∧ ¬ neverFails st)))).
  change (Q (settings.Update msg m st).1.1 (settings.Update msg m st).2).
  assert (∀ m' st', Q m' st' → Q (settings.updateInputs msg m') st') as Hrest.
  { intros m' st' HQ. unfold Q in *.
    by destruct (updateInputs_fields msg m') as (-> & _ & _). }
  assert (∀ m', settings.reset m' = settings.reset m → Q m' st) as Hsame.
  { intros m' Hm'. split; [apply answersLeft_refl|]. left. by eauto. }
  destruct msg as [w h|k|]; cbn [settings.Update]; cbv zeta.
  - by apply Hsame.
  - destruct (Matches k (settings.Tab settings.keys) || _);
      [destruct (_ >? _); by apply Hsame|].
    destruct (Matches k (settings.ShiftTab settings.keys) || _);
      [destruct (_ <? _); by apply Hsame|].
    destruct (Matches k (settings.Save settings.keys)).
    { destruct (saveConfig_cases m st)
        as [[text ->]|(c & Hv & _ & [[Hn ->]|[Hn ->]])].
      - by apply Hrest, Hsame.
      - split; [apply answersLeft_answered|]. left. cbn.
        split; [done|]. split; [done|]. right. by eexists.
      - apply Hrest. split; [apply answersLeft_answered|]. left. cbn.
        by eauto. }
    destruct (Matches k (settings.Reset settings.keys)) eqn:Hk.
    { destruct (settings.confirmReset m) eqn:Hc; cbn [negb];
        [|by apply Hsame].
      unfold settings.resetAllData.
      destruct (ResetAllData_cases st) as [Hl H].
      destruct (ResetAllData st) as [[e|] st1]; cbn [fst snd] in *.
      - apply Hrest. split; [done|].
        destruct H as [(? & _)|(_ & Hn & Hcf & [Hs|Hs])]; [done|..].
        + left. by eauto.
        + right. split; [done|]. split; [by eauto|]. split; [by left|].
          split; [done|]. by right.
      - destruct H as [(_ & Hs & Hcf)|(? & _)]; [|done].
        split; [done|]. right. split; [done|]. split; [by eauto|].
        split; [by right|]. split; [done|]. by left. }
    destruct (Matches k (settings.Back settings.keys) || _).
    { destruct (settings.confirmReset m); by apply Hsame. }
    by apply Hrest, Hsame.
  - by apply Hrest, Hsame.
Qed.

Lemma settings_Update_focus msg m st :
  0 <= settings.focusIndex m <= 3 →
  0 <= settings.focusIndex (settings.Update msg m st).1.1 <= 3.
Proof.
  intros Hf.
  assert (∀ m0, settings.focusIndex m0 = settings.focusIndex m →
            0 <= settings.focusIndex (settings.updateInputs msg m0) <= 3)
    as Hrest.
  { intros m0 Hm0.
    destruct (updateInputs_fields msg m0) as (_ & -> & _). by rewrite Hm0. }
  destruct msg as [w h|k|]; cbn [settings.Update]; cbv zeta.
  - done.
  - destruct (Matches k (settings.Tab settings.keys) || _).
    { cbn. unfold int_add.
      rewrite wrap_id by (unfold in_int, int_min, int_max; lia).
      destruct (Z.gtb_spec (settings.focusIndex m + 1) (4 - 1)); cbn; lia. }
    destruct (Matches k (settings.ShiftTab settings.keys) || _).
    { cbn. unfold int_add.
      rewrite wrap_id by (unfold in_int, int_min, int_max; lia).
      destruct (Z.ltb_spec (settings.focusIndex m + -1) 0); cbn; lia. }
    destruct (Matches k (settings.Save settings.keys)).
    { destruct (saveConfig_cases m st)
        as [[text ->]|(c & _ & _ & [[_ ->]|[_ ->]])].
      - by apply Hrest.
      - done.
      - by apply Hrest. }
    destruct (Matches k (settings.Reset settings.keys)).
    { destruct (negb (settings.confirmReset m)); [done|].
      unfold settings.resetAllData.
      destruct (ResetAllData st) as [[e|] st1]; [by apply Hrest|done]. }
    destruct (Matches k (settings.Back settings.keys) || _).
    { by destruct (settings.confirmReset m). }
    by apply Hrest.
  - by apply Hrest.
Qed.

Lemma settings_run_store msgs m st st0 :
  (sessionsFile st = sessionsFile st0 ∨ sessionsFile st = Absent) →
  (settings.reset m = true → sessionsFile st = Absent) →
  (neverFails st0 →
   settings.reset m = false → sessionsFile st = sessionsFile st0) →
  (configFile st = configFile st0 ∨ configFile st = Absent ∨
   ∃ c, configFile st = Holds c ∧ validConfig c) →
  answersLeft st0 st →
  let r := settings.run msgs m st in
  (sessionsFile r.2 = sessionsFile st0 ∨ sessionsFile r.2 = Absent) ∧
  (settings.reset r.1 = true → sessionsFile r.2 = Absent) ∧
  (neverFails st0 →
   settings.reset r.1 = false → sessionsFile r.2 = sessionsFile st0) ∧
  (configFile r.2 = configFile st0 ∨ configFile r.2 = Absent ∨
   ∃ c, configFile r.2 = Holds c ∧ validConfig c) ∧
  answersLeft st0 r.2.
Proof.
  revert m st.
  induction msgs as [|msg msgs IH]; intros m1 st1 H1 H2 H3 H4 H5; [done|].
  unfold settings.run. cbn [foldl].
  pose proof (settings_Update_store msg m1 st1) as [Hl H].
  destruct (settings.Update msg m1 st1) as [[m2 c2] st2].
  cbn [fst snd] in Hl, H.
  pose proof (answersLeft_trans _ _ _ H5 Hl) as H5'.
  apply IH; [| | | |done].
  - destruct H as [(_ & -> & _)|(_ & _ & _ & -> & _)]; [done|by right].
  - destruct H as [(-> & -> & _)|(_ & _ & _ & -> & _)]; done.
  - intros Hnf Hr.
    destruct H as [(Hr' & -> & _)|(_ & _ & _ & _ & [Hr'|[_ Hno]])].
    + apply H3; [done|congruence].
    + congruence.
    + destruct Hno. by eapply answersLeft_neverFails.
  - destruct H as [(_ & _ & [-> | Hc])|(_ & _ & [-> | ->] & _)]; eauto.
Qed.




(** X20. The focus of the settings view stays on one of the four inputs
    whatever messages arrive, and moving it forward and then backward brings
    it back. *)
Theorem X20_settings_focus_stays_on_an_input (msgs : list settings.Msg)
    (m : settings.Model) (st : Storage) :
  0 <= settings.focusIndex m <= 3 →
  0 <= settings.focusIndex (settings.run msgs m st).1 <= 3 ∧
  (let m1 := (settings.Update (settings.KeyMsg "tab") m st).1.1 in
   settings.focusIndex m1 = (settings.focusIndex m + 1) `mod` 4 ∧
   settings.focusIndex
     (settings.Update (settings.KeyMsg "shift+tab") m1 st).1.1
   = settings.focusIndex m).
Proof.
  intros Hf. split.
  - revert m st Hf. induction msgs as [|msg msgs IH]; intros m st Hf; [done|].
    unfold settings.run. cbn [foldl].
    pose proof (settings_Update_focus msg m st Hf) as H.
    destruct (settings.Update msg m st) as [[m2 c2] st2]. by apply IH.
  - assert (Matches "tab" (settings.Tab settings.keys)
            || Matches "tab" (settings.Down settings.keys) = true) as Ht
      by (vm_compute; reflexivity).
    assert (Matches "shift+tab" (settings.Tab settings.keys)
            || Matches "shift+tab" (settings.Down settings.keys) = false)
      as Hs1 by (vm_compute; reflexivity).
    assert (Matches "shift+tab" (settings.ShiftTab settings.keys)
            || Matches "shift+tab" (settings.Up settings.keys) = true)
      as Hs2 by (vm_compute; reflexivity).
    cbn [settings.Update]. cbv zeta. rewrite Ht, Hs1, Hs2.
    cbn [fst snd]. unfold settings.updateFocus.
    cbn [settings.focusIndex settings.set_inputs settings.set_focusIndex].
    assert (int_add (settings.focusIndex m) 1 = settings.focusIndex m + 1)
      as -> by (unfold int_add; apply wrap_id;
                unfold in_int, int_min, int_max; lia).
    destruct (Z.gtb_spec (settings.focusIndex m + 1) (4 - 1));
      cbn [settings.focusIndex settings.set_inputs settings.set_focusIndex].
    + assert (settings.focusIndex m = 3) as -> by lia.
      split; [done|]. change (int_add 0 (-1) <? 0) with true.
      cbn [settings.focusIndex settings.set_inputs settings.set_focusIndex].
      done.
    + rewrite Z.mod_small by lia. split; [done|].
      assert (int_add (settings.focusIndex m + 1) (-1) = settings.focusIndex m)
        as -> by (unfold int_add; rewrite wrap_id;
                  unfold in_int, int_min, int_max; lia).
      destruct (Z.ltb_spec (settings.focusIndex m) 0); [lia|done].
Qed.

End settings_view.



Lemma X20_witness :
  let m := settings.mkModel (W := plain_widgets) DefaultConfig
             [# "25"; "8"; "9"; "17"] 3 false false false "" 80 24 in
  let st := mkStorage Absent Absent in
  settings.focusIndex
    (settings.Update (W := plain_widgets) (settings.KeyMsg "tab") m st).1.1
  = 0.
Proof.
  intros m st.
  refine (proj1 (proj2 (X20_settings_focus_stays_on_an_input
                          (W := plain_widgets) [] m st _))).
  simpl. lia.
Defined.

(** ** The menu *)

Lemma menu_keys_up_down :
  Matches "down" (menu.Up menu.keys) = false ∧
  Matches "down" (menu.Down menu.keys) = true ∧
  Matches "up" (menu.Up menu.keys) = true ∧
  Matches "enter" (menu.Up menu.keys) = false ∧
  Matches "enter" (menu.Down menu.keys) = false ∧
  Matches "enter" (menu.Enter menu.keys) = true.
Proof. vm_compute. done. Qed.

Lemma menu_Update_fields msg m :
  1 <= len (menu.choices m) <= int_max →
  0 <= menu.cursor m < len (menu.choices m) →
  menu.choices (menu.Update msg m).1 = menu.choices m ∧
  menu.activeSession (menu.Update msg m).1 = menu.activeSession m ∧
  0 <= menu.cursor (menu.Update msg m).1 < len (menu.choices m).
Proof.
  intros Hl Hc.
  assert (wrap (len (menu.choices m) - 1) = len (menu.choices m) - 1) as Hw
    by (apply wrap_id; unfold in_int, int_min, int_max in *; lia).
  destruct msg as [w h|k|]; cbn [menu.Update]; [done| |done].
  destruct (Matches k (menu.Up menu.keys)).
  { destruct (Z.gtb_spec (menu.cursor m) 0);
      cbn [fst menu.cursor menu.set_cursor menu.choices menu.activeSession];
      rewrite ?Hw; (split; [done|]); (split; [done|]).
    - unfold int_add.
      rewrite wrap_id by (unfold in_int, int_min, int_max in *; lia). lia.
    - lia. }
  destruct (Matches k (menu.Down menu.keys)).
  { rewrite Hw.
    destruct (Z.ltb_spec (menu.cursor m) (len (menu.choices m) - 1));
      cbn [fst menu.cursor menu.set_cursor menu.choices menu.activeSession];
      (split; [done|]); (split; [done|]).
    - unfold int_add.
      rewrite wrap_id by (unfold in_int, int_min, int_max in *; lia). lia.
    - lia. }
  destruct (Matches k (menu.Enter menu.keys)).
  { cbv zeta.
    repeat match goal with
    | |- context [if ?b then _ else _] => destruct b
    end; done. }
  by destruct (Matches k (menu.Quit_ menu.keys)).
Qed.

Lemma menu_run_fields msgs m cs a :
  1 <= len cs <= int_max →
  menu.choices m = cs → menu.activeSession m = a →
  0 <= menu.cursor m < len cs →
  menu.choices (menu.run msgs m) = cs ∧
  menu.activeSession (menu.run msgs m) = a ∧
  0 <= menu.cursor (menu.run msgs m) < len cs.
Proof.
  revert m. induction msgs as [|msg msgs IH]; intros m Hl Hcs Ha Hc; [done|].
  unfold menu.run. cbn [foldl]. subst cs a.
  destruct (menu_Update_fields msg m Hl Hc) as (H1 & H2 & H3).
  by apply IH.
Qed.

Section menu_view.
Context {lib : GoLib}.
Variable resumeLabel : string → Z → string.

(** X21. In a menu made by New the Enter key selects the choice whose label
    is under the cursor, whatever keys moved the cursor before: the cursor
    stays on one of the seven labels when a session can be resumed, on one
    of the six others when none can, and the selected choice is the cursor
    position, shifted by one when the Resume label is missing; Resume is
    never selected without a session to resume, and selecting Exit sets the
    quit flag. *)
Theorem X21_menu_enter_selects_the_label_under_the_cursor (env : Env)
    (st st' : Storage) (m : menu.Model) (msgs : list menu.Msg) :
  menu.New resumeLabel env st = (Ok m, st') →
  let off := match menu.activeSession m with Some _ => 0 | None => 1 end in
  let m1 := menu.run msgs m in
  let m2 := (menu.Update (menu.KeyMsg "enter") m1).1 in
  len (menu.choices m1) = 7 - off ∧
  0 <= menu.cursor m1 < len (menu.choices m1) ∧
  menu.selected m2 = menu.cursor m1 + off ∧
  (menu.selected m2 = menu.ResumeSession → menu.activeSession m ≠ None) ∧
  (menu.selected m2 = menu.Exit → menu.shouldQuit m2 = true).
Proof.
  intros Hnew off m1 m2.
  assert (len (menu.choices m) = 7 - off ∧ menu.cursor m = 0) as [Hlen Hcur].
  { unfold menu.New in Hnew.
    destruct (GetConfig st) as [[c|[c e]] st1]; [|done].
    cbv zeta in Hnew. injection Hnew as <- <-. unfold off. cbn.
    by destruct (match GetActiveSession st1 with
                 | Ok a => a | Err _ => None end). }
  assert (0 <= off <= 1) as Hoff
    by (unfold off; destruct (menu.activeSession m); lia).
  destruct (menu_run_fields msgs m (menu.choices m) (menu.activeSession m))
    as (Hch & Hact & Hc); [unfold int_max; lia|done|done|lia|].
  fold m1 in Hch, Hact, Hc. rewrite Hch.
  split; [done|]. split; [done|].
  destruct menu_keys_up_down as (_ & _ & _ & E1 & E2 & E3).
  unfold m2. cbn [menu.Update]. rewrite E1, E2, E3. cbv zeta. cbn [fst].
  rewrite Hact. fold off.
  destruct (menu.activeSession m) as [s|] eqn:Ha.
  - rewrite !(bool_decide_eq_true_2 (Some s ≠ None)) by done.
    case_bool_decide as Hx;
      cbn [menu.selected menu.set_selected menu.shouldQuit
           menu.set_shouldQuit] in *; unfold off;
      (split; [lia|]); (split; [done|]); done.
  - rewrite !(bool_decide_eq_false_2 (None ≠ None)) by (by intros ?).
    unfold off in *.
    repeat case_bool_decide;
      cbn [menu.selected menu.set_selected menu.shouldQuit
           menu.set_shouldQuit] in *;
      unfold menu.StartSession, menu.ViewToday, menu.ViewWeek,
        menu.ViewMonth, menu.Settings, menu.Exit, menu.ResumeSession in *;
      try lia; (split; [lia|]); (split; [intros; lia|]); try done;
      intros; lia.
Qed.

End menu_view.

(** X22. In a menu whose cursor is on one of its labels, Down followed by Up
    and Up followed by Down bring the cursor back, with the wrap from the
    last label to the first and back. *)
Theorem X22_menu_down_and_up_are_inverse (m : menu.Model) :
  1 <= len (menu.choices m) <= int_max →
  0 <= menu.cursor m < len (menu.choices m) →
  menu.cursor
    (menu.run [menu.KeyMsg "down"; menu.KeyMsg "up"] m) = menu.cursor m ∧
  menu.cursor
    (menu.run [menu.KeyMsg "up"; menu.KeyMsg "down"] m) = menu.cursor m.
Proof.
  intros Hl Hc.
  assert (wrap (len (menu.choices m) - 1) = len (menu.choices m) - 1) as Hw
    by (apply wrap_id; unfold in_int, int_min, int_max in *; lia).
  assert (∀ z, 0 <= z <= len (menu.choices m) → wrap z = z) as Hz
    by (intros z Hz; apply wrap_id; unfold in_int, int_min, int_max in *; lia).
  destruct menu_keys_up_down as (E1 & E2 & E3 & _).
  unfold menu.run. cbn [foldl menu.Update]. rewrite E1, E2, E3. split.
  - destruct (Z.ltb_spec (menu.cursor m) (wrap (len (menu.choices m) - 1)));
      cbn [fst menu.cursor menu.set_cursor menu.choices].
    + unfold int_add. rewrite (Hz (menu.cursor m + 1)) by lia.
      destruct (Z.gtb_spec (menu.cursor m + 1) 0); [|lia].
      cbn [fst menu.cursor menu.set_cursor]. rewrite Hz; lia.
    + change (0 >? 0) with false.
      cbn [fst menu.cursor menu.set_cursor]. lia.
  - destruct (Z.gtb_spec (menu.cursor m) 0);
      cbn [fst menu.cursor menu.set_cursor menu.choices].
    + unfold int_add. rewrite (Hz (menu.cursor m + -1)) by lia.
      destruct (Z.ltb_spec (menu.cursor m + -1)
                  (wrap (len (menu.choices m) - 1))); [|lia].
      cbn [fst menu.cursor menu.set_cursor]. rewrite Hz; lia.
    + rewrite Hw, Z.ltb_irrefl.
      cbn [fst menu.cursor menu.set_cursor]. lia.
Qed.

Lemma X21_witness :
  let st := mkStorage (Holds [sampleSession "a" false true])
              (Holds DefaultConfig) in
  let env := mkEnv "id-1" (1000 * Minute) "2024-03-04" 10 "2024-03" 2024 3 in
  ∃ m, menu.New (lib := go_ref) (λ _ _, "Resume") env st = (Ok m, st) ∧
    menu.selected
      (menu.Update (menu.KeyMsg "enter")
         (menu.run [menu.KeyMsg "down"; menu.KeyMsg "down"] m)).1
    = menu.ViewWeek.
Proof.
  intros st env. eexists. split; [vm_compute; reflexivity|].
  match goal with
  | |- context [menu.run ?msgs ?m] =>
      rewrite (proj1 (proj2 (proj2
        (X21_menu_enter_selects_the_label_under_the_cursor (lib := go_ref)
           (λ _ _, "Resume") env st st m msgs eq_refl))))
  end.
  vm_compute. reflexivity.
Defined.

Lemma X22_witness :
  let m := menu.mkModel ["a"; "b"; "c"] 2 0 DefaultConfig zeroDayStats None
             80 24 false in
  menu.cursor (menu.run [menu.KeyMsg "down"; menu.KeyMsg "up"] m) = 2.
Proof.
  intros m.
  refine (proj1 (X22_menu_down_and_up_are_inverse m _ _)).
  - subst m. unfold len, int_max. simpl. lia.
  - subst m. unfold len. simpl. lia.
Defined.

(** ** The application loop *)

Lemma stored_ext st1 st2 :
  sessionsFile st1 = sessionsFile st2 → stored st1 = stored st2.
Proof. intros H. unfold stored. by rewrite (GetAllSessions_ext _ _ H). Qed.

Lemma stored_Absent st : sessionsFile st = Absent → stored st = [].
Proof. unfold stored, GetAllSessions. by intros ->. Qed.

Lemma GetConfig_cases st :
  match configFile st with
  | Absent =>
      if nextFails st
      then GetConfig st = (inr (DefaultConfig, ErrIO), answered st)
      else GetConfig st
           = (inl DefaultConfig, writeConfig DefaultConfig (answered st))
  | Holds c => GetConfig st = (inl c, st)
  | Corrupt => GetConfig st = (inr (mkConfig 0 0 0 0, ErrUnmarshal), st)
  end.
Proof.
  unfold GetConfig, SaveConfig.
  destruct (configFile st); cbn; [by destruct (nextFails st)|done..].
Qed.

Lemma nextFails_neverFails st : nextFails st = true → ¬ neverFails st.
Proof. intros H Hn. apply neverFails_nextFails in Hn. congruence. Qed.


(** What the read of the configuration does to the store, and when it
    fails. *)
Lemma GetConfig_store st :
  let r := GetConfig st in
  sessionsFile r.2 = sessionsFile st ∧
  (configFile st ≠ Corrupt → configFile r.2 ≠ Corrupt) ∧
  answersLeft st r.2 ∧
  (∀ c e, r.1 = inr (c, e) →
     (e = ErrUnmarshal ∧ configFile st = Corrupt ∧ r.2 = st) ∨
     (e = ErrIO ∧ configFile st ≠ Corrupt ∧ ¬ neverFails st)) ∧
  (configFile st = Corrupt → r = (inr (mkConfig 0 0 0 0, ErrUnmarshal), st)).
Proof.
  pose proof (GetConfig_cases st) as Hc.
  pose proof (answersLeft_answered st) as Ha.
  pose proof (nextFails_neverFails st) as Hnf.
  destruct st as [sf cf fs].
  unfold answered, writeConfig in *. cbn [sessionsFile configFile] in *.
  destruct cf as [| |c].
  - destruct (nextFails _) eqn:Hn; rewrite Hc; cbn [fst snd].
    + split; [done|]. split; [done|]. split; [done|].
      split; [|done]. intros c e [= <- <-]. right.
      split; [done|]. split; [done|by apply Hnf].
    + done.
  - rewrite Hc. cbn [fst snd]. split; [done|]. split; [done|].
    split; [apply answersLeft_refl|]. split; [|done].
    intros c e [= <- <-]. by left.
  - rewrite Hc. cbn [fst snd]. split; [done|]. split; [done|].
    split; [apply answersLeft_refl|]. done.
Qed.




Lemma SaveSession_config s st :
  configFile (SaveSession s st).2 = configFile st.
Proof.
  unfold SaveSession.
  destruct (GetAllSessions st) as [l|e]; [done|]. by destruct (IsNotExist e).
Qed.

Lemma Deactivate_config st :
  configFile (DeactivateAllSessions st).2 = configFile st.
Proof. unfold DeactivateAllSessions. by destruct (GetAllSessions st). Qed.

Lemma saveActive_config f m st :
  configFile (saveActive f m st).2 = configFile st.
Proof.
  unfold saveActive. destruct (activeSession m); [|done].
  apply SaveSession_config.
Qed.

Section app.
Context {lib : GoLib}.

Lemma Update_config env msg m st :
  configFile (Update env msg m st).2 = configFile st.
Proof.
  destruct msg as [w h|k| | |ok text|]; cbn [Update]; try done.
  - unfold UpdateKey.
    repeat match goal with
    | |- context [if ?b then _ else _] => destruct b
    | |- context [match viewState m with _ => _ end] =>
        destruct (viewState m)
    end;
    try match goal with
    | |- context [saveActive ?f ?m0 st] =>
        let H := fresh "Hsv" in
        pose proof (saveActive_config f m0 st) as H;
        destruct (saveActive f m0 st) as [m1 st1]; exact H
    | |- context [startNewSession env m st] =>
        by rewrite startNewSession_store, SaveSession_config,
             Deactivate_config
    | |- context [cancelSession env m st] =>
        by rewrite cancelSession_store, saveActive_config
    end; done.
  - destruct (timerRunning m && negb (timerPaused m)); [|done].
    cbv zeta.
    match goal with
    | |- context [if bool_decide ?P then saveActive ?f ?m0 st else _] =>
        pose proof (saveActive_config f m0 st) as Hsv;
        destruct (if bool_decide P then saveActive f m0 st else (m0, st))
          as [m1 st1] eqn:E;
        assert (configFile st1 = configFile st) as Hst1
          by (destruct (bool_decide P);
              [rewrite E in Hsv; exact Hsv|by injection E as <- <-])
    end.
    destruct (timerElapsed m1 >=? timerDuration m1); [|done].
    by rewrite completeSession_store, saveActive_config.
Qed.

Lemma run_config events m st :
  configFile (run events m st).2 = configFile st.
Proof.
  revert m st. induction events as [|[env msg] events IH]; intros m st;
    [done|].
  unfold run. cbn [foldl].
  pose proof (Update_config env msg m st) as H.
  destruct (Update env msg m st) as [[m1 c] st1].
  cbn [snd] in H. rewrite <- H. apply IH.
Qed.



Lemma New_coherent env st m st' :
  NoDup (ID <$> stored st) → atMostOneActive st →
  New env st = (Ok m, st') → coherent (activeSession m) st'.
Proof.
  intros Hnd Hone Hnew. unfold New in Hnew.
  destruct (GetConfig st) as [[c|[c e]] st1] eqn:Hc; [|done].
  apply GetConfig_sessions in Hc.
  pose proof (stored_ext _ _ Hc) as Hst.
  assert (coherent (match GetActiveSession st1 with
                    | Ok a => a | Err _ => None end) st1) as Hcoh.
  { destruct (GetActiveSession st1) as [a|e] eqn:Ha.
    - apply coherent_loaded; [by rewrite Hst| |done].
      unfold atMostOneActive, activeCount. by rewrite Hst.
    - split; [by rewrite Hst|].
      unfold GetActiveSession in Ha.
      destruct (GetAllSessions st1) as [l|e'] eqn:Hl; [done|].
      exists "". rewrite (stored_Err _ _ Hl).
      split; [by intros r Hr%elem_of_nil|done]. }
  cbv zeta in Hnew.
  destruct (match GetActiveSession st1 with Ok a => a | Err _ => None end)
    as [s|] eqn:Es.
  - destruct (negb (Paused s)); by injection Hnew as <- <-.
  - by injection Hnew as <- <-.
Qed.

Lemma New_store env st r st' :
  New env st = (r, st') →
  sessionsFile st' = sessionsFile st ∧
  (configFile st ≠ Corrupt → configFile st' ≠ Corrupt) ∧
  answersLeft st st' ∧
  (∀ e, r = Err e →
     (e = ErrUnmarshal ∧ configFile st = Corrupt ∧ st' = st) ∨
     (e = ErrIO ∧ configFile st ≠ Corrupt ∧ ¬ neverFails st)) ∧
  (configFile st = Corrupt → r = Err ErrUnmarshal ∧ st' = st).
Proof.
  intros Hnew. unfold New in Hnew.
  destruct (GetConfig_store st) as (Hs & Hc & Hl & He & Hcor).
  destruct (GetConfig st) as [[c|[c e]] st1]; cbn [fst snd] in *.
  - assert (st' = st1 ∧ ∃ m, r = Ok m) as [-> [m ->]].
    { cbv zeta in Hnew. repeat case_match; simplify_eq/=; eauto. }
    split; [done|]. split; [done|]. split; [done|]. split; [done|].
    intros Hf. by specialize (Hcor Hf).
  - injection Hnew as <- <-.
    split; [done|]. split; [done|]. split; [done|]. split.
    + intros e' [= <-]. by apply (He c).
    + intros Hf. specialize (Hcor Hf). by injection Hcor as _ <- <-.
Qed.

Context {W : settings.Widgets}.

Lemma settings_New_store st r st' :
  settings.New st = (r, st') →
  sessionsFile st' = sessionsFile st ∧
  (configFile st ≠ Corrupt → configFile st' ≠ Corrupt) ∧
  answersLeft st st' ∧
  (∀ e, r = Err e →
     (e = ErrUnmarshal ∧ configFile st = Corrupt ∧ st' = st) ∨
     (e = ErrIO ∧ configFile st ≠ Corrupt ∧ ¬ neverFails st)) ∧
  (∀ m, r = Ok m → settings.reset m = false).
Proof.
  intros Hnew. unfold settings.New in Hnew.
  destruct (GetConfig_store st) as (Hs & Hc & Hl & He & _).
  destruct (GetConfig st) as [[c|[c e]] st1]; cbn [fst snd] in *;
    cbv zeta in Hnew; injection Hnew as <- <-.
  - split; [done|]. split; [done|]. split; [done|]. split; [done|].
    by intros ? [= <-].
  - split; [done|]. split; [done|]. split; [done|]. split; [|done].
    intros e' [= <-]. by apply (He c).
Qed.

Lemma runSettings_store input st :
  let r := main.runSettings input st in
  (sessionsFile r.2 = sessionsFile st ∨ sessionsFile r.2 = Absent) ∧
  (configFile st ≠ Corrupt → configFile r.2 ≠ Corrupt) ∧
  answersLeft st r.2 ∧
  (∀ e, r.1 = Some (main.StoreError e) →
     (e = ErrUnmarshal ∧ configFile st = Corrupt ∧ r.2 = st) ∨
     (e = ErrIO ∧ configFile st ≠ Corrupt ∧ ¬ neverFails st)).
Proof.
  unfold main.runSettings.
  destruct (settings.New st) as [[m|e] st1] eqn:Hnew;
    apply settings_New_store in Hnew as (Hs & Hc & Hl & He & Hm).
  - destruct (settings_run_store (main.messages input) m st1 st1)
      as (H1 & _ & _ & H3 & H4);
      [by left|by rewrite (Hm m)|done|by left|apply answersLeft_refl|].
    destruct (settings.run (main.messages input) m st1) as [m2 st2].
    cbn [fst snd] in *.
    assert ((sessionsFile st2 = sessionsFile st ∨ sessionsFile st2 = Absent) ∧
            (configFile st ≠ Corrupt → configFile st2 ≠ Corrupt) ∧
            answersLeft st st2) as (? & ? & ?).
    { split; [by rewrite <- Hs|]. split; [|by eapply answersLeft_trans].
      intros Hne. specialize (Hc Hne).
      destruct H3 as [-> | [-> | (c & -> & _)]]; done. }
    by destruct (main.fails input).
  - cbn. split; [by left|]. split; [done|]. split; [done|].
    intros e' [= <-]. by apply He.
Qed.

(** X23. Whatever the terminal sends, the application keeps the stored ids
    pairwise distinct and at most one stored session active: through the
    settings view of a first run, every dashboard made from the store by
    New, and every settings view opened in between, whether a program fails
    or not. *)
Theorem X23_application_keeps_one_active (first : main.Input settings.Msg)
    (turns : list main.Turn) (st : Storage) :
  NoDup (ID <$> stored st) → atMostOneActive st →
  NoDup (ID <$> stored (main.runApp first turns st).2) ∧
  atMostOneActive (main.runApp first turns st).2.
Proof.
  assert (∀ st1 st2,
            sessionsFile st2 = sessionsFile st1 ∨ sessionsFile st2 = Absent →
            NoDup (ID <$> stored st1) ∧ atMostOneActive st1 →
            NoDup (ID <$> stored st2) ∧ atMostOneActive st2) as Hkeep.
  { intros st1 st2 [E|E] [H1 H2].
    - unfold atMostOneActive, activeCount. by rewrite (stored_ext _ _ E).
    - unfold atMostOneActive, activeCount. rewrite (stored_Absent _ E).
      split; [constructor|simpl; lia]. }
  assert (∀ input st1,
            NoDup (ID <$> stored st1) ∧ atMostOneActive st1 →
            NoDup (ID <$> stored (main.runSettings input st1).2) ∧
            atMostOneActive (main.runSettings input st1).2) as Hset.
  { intros input st1. apply Hkeep.
    by destruct (runSettings_store input st1) as [? _]. }
  assert (∀ st1,
            NoDup (ID <$> stored st1) ∧ atMostOneActive st1 →
            NoDup (ID <$> stored (main.mainLoop turns st1).2) ∧
            atMostOneActive (main.mainLoop turns st1).2) as Hloop.
  { induction turns as [|turn turns IH]; intros st1 Hst1; [done|].
    cbn [main.mainLoop].
    destruct (New (main.turnEnv turn) st1) as [[m|e] st2] eqn:Hnew.
    - destruct Hst1 as [H1 H2].
      pose proof (New_coherent _ _ _ _ H1 H2 Hnew) as Hcoh.
      apply (run_coherent (main.messages (main.dashboardInput turn)))
        in Hcoh.
      destruct (run _ m st2) as [m3 st3]. cbn [fst snd] in Hcoh.
      assert (NoDup (ID <$> stored st3) ∧ atMostOneActive st3) as Hst3
        by (split; [by destruct Hcoh|by eapply coherent_at_most_one]).
      destruct (main.fails (main.dashboardInput turn)); [done|].
      destruct (shouldQuit m3); [done|].
      destruct (openSettings m3); [|by apply IH].
      specialize (Hset (main.settingsInput turn) st3 Hst3).
      destruct (main.runSettings _ st3) as [[e|] st4]; [done|by apply IH].
    - apply New_store in Hnew as [Hs _].
      apply (Hkeep st1); [by left|done]. }
  intros H1 H2. unfold main.runApp.
  destruct (IsFirstTime st); [|by apply Hloop].
  specialize (Hset first st (conj H1 H2)).
  destruct (main.runSettings first st) as [[e|] st1]; [done|by apply Hloop].
Qed.


End app.

Lemma X23_witness :
  let st := mkStorage Absent Absent in
  let env := mkEnv "id-1" (1000 * Minute) "2024-03-04" 10 "2024-03" 2024 3 in
  let turn :=
    main.mkTurn env
      (main.mkInput [(env, KeyMsg "s"); (env, tickMsg); (env, KeyMsg "g")]
         false)
      (main.mkInput [settings.KeyMsg "esc"] false) in
  atMostOneActive
    (main.runApp (lib := go_ref) (W := plain_widgets)
       (main.mkInput [settings.KeyMsg "s"] false) [turn; turn] st).2.
Proof.
  intros st env turn.
  refine (proj2 (X23_application_keeps_one_active (lib := go_ref)
                   (W := plain_widgets) _ _ st _ _)).
  - constructor.
  - vm_compute. lia.
Defined.


(** ** The store mirrors the running timer *)

Lemma quot_10_next a :
  0 <= a → (a + 1) `rem` 10 ≠ 0 → (a + 1) `quot` 10 = a `quot` 10.
Proof.
  intros Ha Hr.
  rewrite Z.rem_mod_nonneg in Hr by lia.
  rewrite !Z.quot_div_nonneg by lia.
  pose proof (Z.div_mod a 10). pose proof (Z.div_mod (a + 1) 10).
  pose proof (Z.mod_pos_bound a 10). pose proof (Z.mod_pos_bound (a + 1) 10).
  lia.
Qed.

Lemma SaveSession_file s st :
  sessionsFile st ≠ Corrupt → sessionsFile (SaveSession s st).2 ≠ Corrupt.
Proof.
  unfold SaveSession, GetAllSessions.
  by destruct (sessionsFile st).
Qed.

Lemma Deactivate_file st :
  sessionsFile st ≠ Corrupt →
  sessionsFile (DeactivateAllSessions st).2 ≠ Corrupt.
Proof.
  unfold DeactivateAllSessions, GetAllSessions.
  by destruct (sessionsFile st).
Qed.

Lemma saveActive_file f m st :
  sessionsFile st ≠ Corrupt → sessionsFile (saveActive f m st).2 ≠ Corrupt.
Proof.
  unfold saveActive. destruct (activeSession m); [|done].
  apply SaveSession_file.
Qed.

Lemma readable_file st :
  sessionsFile st ≠ Corrupt → ∃ l, GetAllSessions st = Ok l.
Proof.
  unfold GetAllSessions.
  destruct (sessionsFile st) as [| |l]; simpl; [eauto|done|eauto].
Qed.

Lemma mirrored_same m m' st :
  mirrored m st →
  (timerRunning m', timerPaused m', timerElapsed m', timerDuration m',
   activeSession m')
  = (timerRunning m, timerPaused m, timerElapsed m, timerDuration m,
     activeSession m) →
  mirrored m' st.
Proof. unfold mirrored. intros H [= -> -> -> -> ->]. exact H. Qed.

Lemma mirrored_idle m st :
  sessionsFile st ≠ Corrupt → timerRunning m = false → mirrored m st.
Proof. unfold mirrored. intros Hf ->. by split. Qed.

Lemma mirrored_saved m s st :
  sessionsFile st ≠ Corrupt →
  activeSession m = Some s →
  Active s = true → Completed s = false →
  Paused s = timerPaused m →
  timerDuration m = int_mul (Duration s) 60 →
  0 <= ElapsedSeconds s <= timerElapsed m →
  timerElapsed m < int_max →
  timerElapsed m `quot` 10 = ElapsedSeconds s `quot` 10 →
  (timerPaused m = true → ElapsedSeconds s = timerElapsed m) →
  mirrored m (SaveSession s st).2.
Proof.
  intros Hf Hs Ha Hc Hp Hd He Hmax Hq Hpe.
  split; [by apply SaveSession_file|]. intros _. exists s.
  destruct (readable_file st Hf) as [l Hl].
  split; [done|]. split; [by eapply SaveSession_stored_elem|done].
Qed.

Section mirror.
Context {lib : GoLib}.

Lemma startNewSession_mirrored env m st :
  sessionsFile st ≠ Corrupt →
  mirrored (startNewSession env m st).1.1 (startNewSession env m st).2.
Proof.
  intros Hf. rewrite startNewSession_store.
  apply mirrored_saved; try done; try (by apply Deactivate_file);
    unfold int_max; cbn; lia.
Qed.

Lemma cancelSession_mirrored env m st :
  sessionsFile st ≠ Corrupt →
  mirrored (cancelSession env m st).1.1 (cancelSession env m st).2.
Proof.
  intros Hf. apply mirrored_idle.
  - rewrite cancelSession_store. by apply saveActive_file.
  - unfold cancelSession. by destruct (saveActive _ m st).
Qed.

Lemma completeSession_mirrored env m st :
  sessionsFile st ≠ Corrupt →
  mirrored (completeSession env m st).1.1 (completeSession env m st).2.
Proof.
  intros Hf. apply mirrored_idle.
  - rewrite completeSession_store. by apply saveActive_file.
  - by destruct (completeSession_fields env m st) as [? _].
Qed.

Lemma Update_mirrored env msg m st :
  mirrored m st → mirrored (Update env msg m st).1.1 (Update env msg m st).2.
Proof.
  intros Hinv. pose proof Hinv as [Hf Hrun].
  destruct msg as [w h|k| | |ok text|]; cbn [Update].
  - case_match; by apply (mirrored_same m).
  - unfold UpdateKey.
    destruct (timerRunning m) eqn:Hr.
    + destruct (Hrun eq_refl)
        as (s & Hs & Hin & Ha & Hc & Hp & Hd & He & Hmax & Hq & Hpe).
      destruct (timerPaused m) eqn:Hpa;
        rewrite ?andb_true_r, ?andb_false_r; cbn [andb negb];
        rewrite ?andb_true_r, ?andb_false_r; cbn [andb negb];
        repeat match goal with
        | |- context [if ?b then _ else _] => destruct b
        | |- context [match viewState m with _ => _ end] =>
            destruct (viewState m)
        end;
        try match goal with
        | |- context [saveActive ?f ?m0 st] =>
            rewrite (saveActive_Some f m0 st s) by exact Hs;
            cbn [fst snd];
            apply mirrored_saved; cbn; rewrite ?Hr, ?Hpa; try done;
            try (rewrite Hpe by done); try lia
        | |- context [cancelSession env m st] =>
            by apply cancelSession_mirrored
        end;
        try (apply (mirrored_same m); [done|]; cbn; by rewrite ?Hr, ?Hpa).
    + rewrite ?andb_true_r, ?andb_false_r; cbn [andb negb];
        rewrite ?andb_true_r, ?andb_false_r; cbn [andb negb];
        repeat match goal with
        | |- context [if ?b then _ else _] => destruct b
        | |- context [match viewState m with _ => _ end] =>
            destruct (viewState m)
        end;
        try match goal with
        | |- context [startNewSession env m st] =>
            by apply startNewSession_mirrored
        end;
        apply mirrored_idle; done.
  - destruct (timerRunning m) eqn:Hr; [|by apply (mirrored_same m)].
    destruct (timerPaused m) eqn:Hpa; [by apply (mirrored_same m)|].
    destruct (Hrun eq_refl)
      as (s & Hs & Hin & Ha & Hc & Hp & Hd & He & Hmax & Hq & Hpe).
    pose proof (tick_running env m st s Hr Hpa Hs Hmax) as Ht.
    cbv zeta in Ht. cbn [Update] in Ht. rewrite Hr, Hpa in Ht.
    rewrite Ht by (unfold int_min; lia). clear Ht.
    assert (sessionsFile
              (if bool_decide ((timerElapsed m + 1) `rem` 10 = 0)
               then (SaveSession
                       (if bool_decide ((timerElapsed m + 1) `rem` 10 = 0)
                        then set_ElapsedSeconds (timerElapsed m + 1) s else s)
                       st).2
               else st) ≠ Corrupt) as Hf1
      by (case_bool_decide; [by apply SaveSession_file|done]).
    destruct (Z.geb_spec (timerElapsed m + 1) (timerDuration m)) as [Hge|Hlt];
      [by apply completeSession_mirrored|].
    assert (timerElapsed m + 1 < int_max) as Hmax'.
    { pose proof (wrap_in_int (Duration s * 60)) as Hw.
      unfold int_mul in Hd. rewrite <- Hd in Hw. unfold in_int in Hw. lia. }
    cbn [fst snd]. case_bool_decide as Hcp.
    + apply mirrored_saved; cbn; rewrite ?Hr, ?Hpa; try done; lia.
    + split; [done|]. intros _. exists s. cbn. rewrite ?Hr, ?Hpa.
      repeat split; try done; try lia.
      rewrite <- Hq. apply quot_10_next; [lia|done].
  - by apply (mirrored_same m).
  - by apply (mirrored_same m).
  - by apply (mirrored_same m).
Qed.

Lemma run_mirrored events m st :
  coherent (activeSession m) st → mirrored m st →
  coherent (activeSession (run events m st).1) (run events m st).2 ∧
  mirrored (run events m st).1 (run events m st).2.
Proof.
  revert m st. induction events as [|[env msg] events IH]; intros m st Hc Hm;
    [done|].
  unfold run. cbn [foldl].
  pose proof (Update_coherent env msg m st Hc) as H1.
  pose proof (Update_mirrored env msg m st Hm) as H2.
  destruct (Update env msg m st) as [[m1 c] st1]. by apply IH.
Qed.

End mirror.

Section mirror_run.
Context {lib : GoLib}.

Lemma New_config env st m st' :
  New env st = (Ok m, st') → ∃ c, configFile st' = Holds c.
Proof.
  intros Hnew. unfold New in Hnew.
  pose proof (GetConfig_cases st) as Hc.
  destruct (configFile st) as [| |c] eqn:Hf;
    [destruct (nextFails st)|..]; rewrite Hc in Hnew;
    cbv zeta in Hnew; [done| |done|].
  - exists DefaultConfig. repeat case_match; by simplify_eq/=.
  - exists c. repeat case_match; by simplify_eq/=.
Qed.

Lemma run_mirrored_active env0 st0 st1 m0 events :
  sessionsFile st0 ≠ Corrupt → NoDup (ID <$> stored st0) →
  activeCount st0 = 0%nat →
  New env0 st0 = (Ok m0, st1) →
  let r := run events m0 st1 in
  timerRunning r.1 = true →
  (∃ c, configFile r.2 = Holds c) ∧
  ∃ s, activeSession r.1 = Some s ∧ GetActiveSession r.2 = Ok (Some s) ∧
       Paused s = timerPaused r.1 ∧
       timerDuration r.1 = int_mul (Duration s) 60 ∧
       0 <= ElapsedSeconds s <= timerElapsed r.1 ∧
       timerElapsed r.1 `quot` 10 = ElapsedSeconds s `quot` 10 ∧
       (timerPaused r.1 = true → ElapsedSeconds s = timerElapsed r.1).
Proof.
  intros Hf Hnd H0 Hnew r Hr.
  assert (atMostOneActive st0) as Hone by (unfold atMostOneActive; lia).
  pose proof (New_coherent _ _ _ _ Hnd Hone Hnew) as Hcoh.
  destruct (New_no_active _ _ _ _ H0 Hnew) as [_ Hidle].
  destruct (New_store _ _ _ _ Hnew) as (Hs & _).
  destruct (New_config _ _ _ _ Hnew) as [c Hc].
  assert (mirrored m0 st1) as Hm
    by (apply mirrored_idle; [by rewrite Hs|done]).
  destruct (run_mirrored events m0 st1 Hcoh Hm) as [Hcoh' Hm'].
  pose proof (run_config events m0 st1) as Hcfg.
  fold r in Hcoh', Hm', Hcfg.
  split; [exists c; by rewrite Hcfg|].
  destruct Hm' as [Hf' Hrun].
  destruct (Hrun Hr)
    as (s & Hs' & Hin & Ha & Hcm & Hp & Hd & He & Hmax & Hq & Hpe).
  exists s. split; [done|]. split; [|done].
  destruct (readable_file _ Hf') as [l Hl].
  unfold GetActiveSession. rewrite Hl. f_equal.
  rewrite (stored_Ok _ _ Hl) in Hin.
  apply find_only_active; [done|done|].
  intros x Hx [Hxa _].
  destruct Hcoh' as [Hnd' (i & Hact & Hid)].
  rewrite (stored_Ok _ _ Hl) in Hnd', Hact.
  apply (NoDup_ID_eq l); [done..|].
  rewrite (Hact x Hx Hxa). symmetry. by apply Hid.
Qed.

(** X25. The store mirrors the running timer of the dashboard. Along every
    sequence of messages of a dashboard made by New on a store that can be
    read, with pairwise distinct ids and no active session: while the timer
    runs, the session that GetActiveSession finds in the store is the one
    the dashboard works on, with the pause flag of the timer; its stored
    seconds are at most those of the timer and less than ten seconds behind,
    and they are those of the timer while it is paused. *)
Theorem X25_store_mirrors_the_running_timer (env0 : Env) (st0 st1 : Storage)
    (m0 : Model) (events : list (Env * Msg)) :
  sessionsFile st0 ≠ Corrupt → NoDup (ID <$> stored st0) →
  activeCount st0 = 0%nat →
  New env0 st0 = (Ok m0, st1) →
  let r := run events m0 st1 in
  timerRunning r.1 = true →
  ∃ s, activeSession r.1 = Some s ∧ GetActiveSession r.2 = Ok (Some s) ∧
       Paused s = timerPaused r.1 ∧
       ElapsedSeconds s <= timerElapsed r.1 < ElapsedSeconds s + 10 ∧
       (timerPaused r.1 = true → ElapsedSeconds s = timerElapsed r.1).
Proof.
  intros Hf Hnd H0 Hnew r Hr.
  destruct (run_mirrored_active env0 st0 st1 m0 events Hf Hnd H0 Hnew Hr)
    as (_ & s & Hs & Hg & Hp & Hd & He & Hq & Hpe).
  fold r in Hs, Hg, Hp, Hd, He, Hq, Hpe.
  exists s. repeat split; try done; try lia.
  rewrite !Z.quot_div_nonneg in Hq by lia.
  pose proof (Z.div_mod (timerElapsed r.1) 10).
  pose proof (Z.div_mod (ElapsedSeconds s) 10).
  pose proof (Z.mod_pos_bound (timerElapsed r.1) 10).
  pose proof (Z.mod_pos_bound (ElapsedSeconds s) 10).
  lia.
Qed.

(** X26. A session paused in the dashboard resumes where it stopped. With
    the dashboard as in X25, when its timer is running and paused, a
    dashboard made by New from the store, at any later time, works on the
    same session with the timer running, paused, and with the same elapsed
    seconds and the same duration; New succeeds and writes nothing. *)
Theorem X26_paused_session_resumes_where_it_stopped (env0 env' : Env)
    (st0 st1 : Storage) (m0 : Model) (events : list (Env * Msg)) :
  sessionsFile st0 ≠ Corrupt → NoDup (ID <$> stored st0) →
  activeCount st0 = 0%nat →
  New env0 st0 = (Ok m0, st1) →
  let r := run events m0 st1 in
  timerRunning r.1 = true → timerPaused r.1 = true →
  ∃ m', New env' r.2 = (Ok m', r.2) ∧
        activeSession m' = activeSession r.1 ∧
        timerRunning m' = true ∧ timerPaused m' = true ∧
        timerElapsed m' = timerElapsed r.1 ∧
        timerDuration m' = timerDuration r.1.
Proof.
  intros Hf Hnd H0 Hnew r Hr Hpa.
  destruct (run_mirrored_active env0 st0 st1 m0 events Hf Hnd H0 Hnew Hr)
    as ([c Hc] & s & Hs & Hg & Hp & Hd & He & Hq & Hpe).
  fold r in Hc, Hs, Hg, Hp, Hd, He, Hq, Hpe.
  rewrite Hpa in Hp. specialize (Hpe Hpa).
  unfold New. pose proof (GetConfig_cases r.2) as Hcfg.
  rewrite Hc in Hcfg. rewrite Hcfg, Hg. cbv zeta. rewrite Hp. cbn [negb].
  eexists. split; [reflexivity|].
  cbn. by rewrite Hs, Hpe, Hd.
Qed.

End mirror_run.

Lemma X25_witness :
  let st := mkStorage Absent (Holds DefaultConfig) in
  let env := mkEnv "id-1" (1000 * Minute) "2024-03-04" 10 "2024-03" 2024 3 in
  ∃ m, New (lib := go_ref) env st = (Ok m, st) ∧
    let r := run (lib := go_ref)
               ((env, KeyMsg "s") :: replicate 12 (env, tickMsg)) m st in
    ∃ s, GetActiveSession r.2 = Ok (Some s) ∧
         ElapsedSeconds s <= timerElapsed r.1 < ElapsedSeconds s + 10.
Proof.
  intros st env. eexists. split; [vm_compute; reflexivity|]. intros r.
  match goal with
  | r := run ?events ?m st |- _ =>
      destruct (X25_store_mirrors_the_running_timer (lib := go_ref)
                  env st st m events)
        as (s & _ & Hg & _ & He & _)
  end.
  - done.
  - constructor.
  - reflexivity.
  - reflexivity.
  - vm_compute. reflexivity.
  - exists s. split; [exact Hg|exact He].
Defined.

Lemma X26_witness :
  let st := mkStorage Absent (Holds DefaultConfig) in
  let env := mkEnv "id-1" (1000 * Minute) "2024-03-04" 10 "2024-03" 2024 3 in
  let env' := mkEnv "id-2" (5000 * Minute) "2024-03-07" 10 "2024-03" 2024 3 in
  ∃ m, New (lib := go_ref) env st = (Ok m, st) ∧
    let r := run (lib := go_ref)
               ((env, KeyMsg "s") :: replicate 12 (env, tickMsg)
                ++ [(env, KeyMsg "p"); (env, tickMsg)]) m st in
    ∃ m', New (lib := go_ref) env' r.2 = (Ok m', r.2) ∧
          timerElapsed m' = timerElapsed r.1.
Proof.
  intros st env env'. eexists. split; [vm_compute; reflexivity|]. intros r.
  match goal with
  | r := run ?events ?m st |- _ =>
      destruct (X26_paused_session_resumes_where_it_stopped (lib := go_ref)
                  env env' st st m events)
        as (m' & Hn & _ & _ & _ & He & _)
  end.
  - done.
  - constructor.
  - reflexivity.
  - reflexivity.
  - vm_compute. reflexivity.
  - vm_compute. reflexivity.
  - exists m'. split; [exact Hn|exact He].
Defined.

(** ** Completed sessions of the timer view *)

Lemma timerViewInv_same d m m' :
  timerViewInv d m →
  (timer.duration m', timer.elapsed m', timer.running m', timer.finished m',
   timer.currentSession m')
  = (timer.duration m, timer.elapsed m, timer.running m, timer.finished m,
     timer.currentSession m) →
  timerViewInv d m'.
Proof. unfold timerViewInv. intros H [= -> -> -> -> ->]. exact H. Qed.

Lemma timer_Update_within d env msg m st :
  1 <= d → d * 60 <= int_max →
  timerViewInv d m → completedWithinPlanned st →
  timerViewInv d (timer.Update env msg m st).1.1 ∧
  completedWithinPlanned (timer.Update env msg m st).2.
Proof.
  intros Hd1 Hd2 Hinv Hst. pose proof Hinv as (Hdur & Hidle & Hrun).
  destruct msg as [w h|k| |]; cbn [timer.Update].
  - split; [by apply (timerViewInv_same d m)|done].
  - cbn [timer.running timer.finished timer.paused timer.set_exitToMenu].
    destruct (timer.running m) eqn:Hr.
    + destruct (Hrun eq_refl) as (Hfin & s & Hs & Hc & Hds & He & Hlt).
      rewrite Hfin. rewrite ?andb_true_r, ?andb_false_r; cbn [andb negb];
        rewrite ?andb_true_r, ?andb_false_r; cbn [andb negb].
      repeat match goal with
      | |- context [if ?b then _ else _] => destruct b
      end;
      try match goal with
      | |- context [timer.saveCurrent ?f ?m0 st] =>
          rewrite (saveCurrent_Some f m0 st s) by exact Hs;
          cbn [fst snd];
          (split; [|apply within_save; [done|]; cbn; by rewrite ?Hc]);
          unfold timerViewInv; cbn; rewrite ?Hr, ?Hfin;
          (split; [done|]); (split; [done|]);
          first [done
                |intros _; (split; [done|]);
                 eexists; (split; [reflexivity|]); cbn;
                 repeat split; try done; lia]
      end;
      (split; [by apply (timerViewInv_same d m)|done]).
    + destruct (timer.finished m) eqn:Hfin;
        rewrite ?andb_true_r, ?andb_false_r; cbn [andb negb];
        rewrite ?andb_true_r, ?andb_false_r; cbn [andb negb];
        repeat match goal with
        | |- context [if ?b then _ else _] => destruct b
        end;
        try match goal with
        | |- context [DeactivateAllSessions st] =>
            split;
            [unfold timerViewInv; cbn; (split; [done|]); (split; [done|]);
             intros _; (split; [done|]);
             eexists; (split; [reflexivity|]); cbn;
             rewrite Hdur, Z.quot_mul by lia; rewrite (Hidle eq_refl eq_refl);
             repeat split; try done; lia
            |apply within_save; [by apply within_deactivate|done]]
        end;
        (split; [apply (timerViewInv_same d m); [done|cbn; by rewrite ?Hr, ?Hfin]
                |done]).
  - destruct (timer.running m) eqn:Hr;
      [|split; [by apply (timerViewInv_same d m)|done]].
    destruct (Hrun eq_refl) as (Hfin & s & Hs & Hc & Hds & He & Hlt).
    destruct (timer.paused m) eqn:Hpa;
      [rewrite Hfin; split; [by apply (timerViewInv_same d m)|done]|].
    pose proof (timer_tick_running env m st s Hr Hpa Hfin Hs) as Ht.
    cbv zeta in Ht. cbn [timer.Update] in Ht. rewrite Hr, Hpa, Hfin in Ht.
    rewrite Hfin. rewrite Ht by (unfold int_min; lia). clear Ht.
    set (e := timer.elapsed m + 1).
    set (s1 := if bool_decide (e `rem` 10 = 0) then set_ElapsedSeconds e s
               else s).
    assert (Completed s1 = false ∧ Duration s1 = d ∧ ElapsedSeconds s1 <= e)
      as (Hc1 & Hd1' & He1).
    { unfold s1. case_bool_decide; cbn; repeat split; try done; lia. }
    assert (completedWithinPlanned
              (if bool_decide (e `rem` 10 = 0) then (SaveSession s1 st).2
               else st)) as Hst1.
    { case_bool_decide; [|done]. apply within_save; [done|]. by rewrite Hc1. }
    rewrite Hdur.
    destruct (Z.geb_spec e (d * 60)) as [Hge|Hlt']; cbn [fst snd].
    + split.
      * unfold timerViewInv. cbn. by rewrite Hdur.
      * apply within_save; [done|]. intros _. cbn. rewrite Hd1'. lia.
    + split; [|done].
      unfold timerViewInv. cbn. rewrite Hr, Hfin.
      split; [done|]. split; [done|]. intros _. split; [done|].
      exists s1. repeat split; try done; lia.
  - split; [by apply (timerViewInv_same d m)|done].
Qed.

(** X27. A timer view made for at least one minute, and for a number of
    minutes that fits an [int] in seconds, never stores a completed session
    with more elapsed seconds than planned, whatever messages follow: if
    every completed session of the store has at most its planned seconds
    before, so it is after. The session it starts is planned for the minutes
    of the view. *)
Theorem X27_timer_view_completes_within_planned (d : Z)
    (events : list (Env * timer.Msg)) (st : Storage) :
  1 <= d → d * 60 <= int_max →
  completedWithinPlanned st →
  completedWithinPlanned (timer_run events (timer.New d) st).2 ∧
  ∀ s, timer.currentSession (timer_run events (timer.New d) st).1 = Some s →
       timer.running (timer_run events (timer.New d) st).1 = true →
       Duration s = d.
Proof.
  intros Hd1 Hd2 Hst.
  assert (timerViewInv d (timer.New d)) as Hinv.
  { unfold timerViewInv, timer.New. cbn. unfold int_mul.
    rewrite wrap_id by (unfold in_int, int_min; lia). by repeat split. }
  assert (timerViewInv d (timer_run events (timer.New d) st).1 ∧
          completedWithinPlanned (timer_run events (timer.New d) st).2)
    as [Hi Hc].
  { generalize (timer.New d) Hinv. revert st Hst.
    induction events as [|[env msg] events IH]; intros st Hst m Hm; [done|].
    unfold timer_run. cbn [foldl].
    pose proof (timer_Update_within d env msg m st Hd1 Hd2 Hm Hst) as H.
    destruct (timer.Update env msg m st) as [[m1 c] st1].
    destruct H as [H1 H2]. by apply IH. }
  split; [done|]. intros s Hs Hr.
  destruct Hi as (_ & _ & Hrun).
  destruct (Hrun Hr) as (_ & s' & Hs' & _ & Hd & _). congruence.
Qed.

Lemma X27_witness :
  let st := mkStorage Absent Absent in
  let env := mkEnv "id-1" (1000 * Minute) "2024-03-04" 10 "2024-03" 2024 3 in
  completedWithinPlanned
    (timer_run ((env, timer.KeyMsg "s") :: replicate 60 (env, timer.tickMsg))
       (timer.New 1) st).2.
Proof.
  intros st env.
  refine (proj1 (X27_timer_view_completes_within_planned 1 _ st _ _ _)).
  - lia.
  - unfold int_max. simpl. lia.
  - intros r Hr. by apply elem_of_nil in Hr.
Defined.

(** ** The months of a year rollup *)

Lemma omap_all_Some {A B} (f : A → option B) (g : A → B) (l : list A) :
  (∀ x, x ∈ l → f x = Some (g x)) → omap f l = g <$> l.
Proof.
  induction l as [|a l IH]; intros H; [done|].
  cbn. rewrite (H a) by constructor. rewrite IH; [done|].
  intros x Hx. apply H. by constructor.
Qed.

Section year_months.
Context {lib : GoLib}.

Lemma yearLoop_scanned year l y c t (m : gmap Z (list Session)) :
  (∀ s, s ∈ l → Completed s = true →
     ∃ mo, Sscanf_month (Month s) = Some (year, Some mo)) →
  y = year →
  foldl (λ '(year, completedCount, totalMinutes, monthMap) session,
           if Completed session
           then let '(year, month) := scanMonth (Month session) year in
                (year, int_add completedCount 1,
                 int_add totalMinutes (actualMinutes session),
                 map_append month session monthMap)
           else (year, completedCount, totalMinutes, monthMap))
        (y, c, t, m) l
  = (year,
     foldl (λ c _, int_add c 1) c (filter (λ s, Completed s = true) l),
     sumFrom t (filter (λ s, Completed s = true) l),
     groupFrom (λ s, (scanMonth (Month s) year).2) m
       (filter (λ s, Completed s = true) l)).
Proof.
  revert y c t m. induction l as [|s l IH]; intros y c t m Hk ->; [done|].
  cbn [foldl]. destruct (Completed s) eqn:Hs.
  - rewrite filter_cons_True by done.
    destruct (Hk s) as [mo Hmo]; [constructor|done|].
    assert (scanMonth (Month s) year = (year, mo)) as Hsm
      by (unfold scanMonth; by rewrite Hmo).
    rewrite Hsm.
    rewrite IH; [|intros s0 ??; apply Hk; [by constructor|done]|done].
    unfold sumFrom, groupFrom. cbn [foldl]. by rewrite Hsm.
  - rewrite filter_cons_False by congruence.
    apply IH; [|done]. intros; apply Hk; [by constructor|done].
Qed.

(** X28. When the month keys agree with the years (a completed session of
    the year carries the key printed from the year and a month, which scans
    back to them, and a completed session with such a key is of the year),
    the year rollup on a readable store carries the year asked for, its
    month rollups are those of GetMonthStats for that year, and their counts
    and totals add up, in 64-bit arithmetic, to those of the year. *)
Theorem X28_year_months_add_up (st : Storage) (all : list Session)
    (year : Z) (ys : YearStats) :
  GetAllSessions st = Ok all →
  (∀ s, s ∈ all → Completed s = true → Year s = year →
     ∃ mo, Month s = Sprintf_month year mo ∧
           Sscanf_month (Month s) = Some (year, Some mo)) →
  (∀ s mo, s ∈ all → Completed s = true →
     Month s = Sprintf_month year mo → Year s = year) →
  GetYearStats year st = Ok ys →
  year_Year ys = year ∧
  (∀ ms, ms ∈ year_MonthlyStats ys →
     month_Year ms = year ∧ ∃ mo, GetMonthStats year mo st = Ok ms) ∧
  wrap (zsum (month_SessionsCount <$> year_MonthlyStats ys))
  = year_SessionsCount ys ∧
  wrap (zsum (month_TotalMinutes <$> year_MonthlyStats ys))
  = year_TotalMinutes ys.
Proof.
  intros Hall K1 K2 Hys.
  unfold GetYearStats, GetYearSessions in Hys. rewrite Hall in Hys.
  cbn in Hys. unfold yearLoop in Hys.
  set (Y := filter (λ s, Year s = year) all) in *.
  set (C := filter (λ s, Completed s = true) Y).
  set (monthOf := λ s : Session, (scanMonth (Month s) year).2).
  rewrite (yearLoop_scanned year Y year 0 0 ∅) in Hys; [|..|done].
  2:{ intros s Hs Hc. apply list_elem_of_filter in Hs as [Hy Hs].
      destruct (K1 s Hs Hc Hy) as (mo & _ & Hmo). by exists mo. }
  fold C monthOf in Hys.
  set (G := map_to_list (groupFrom monthOf ∅ C)) in *.
  assert (∀ mo ks, (mo, ks) ∈ G →
            filter (λ s, Completed s = true)
              (filter (λ s, Month s = Sprintf_month year mo) all) = ks)
    as Hgroup.
  { intros mo ks Hks. apply group_elem in Hks as [-> Hne].
    destruct (filter (λ s, monthOf s = mo) C) as [|s0 ?] eqn:E; [done|].
    clear Hne.
    assert (s0 ∈ filter (λ s, monthOf s = mo) C) as Hs0
      by (rewrite E; constructor).
    rewrite <- E. clear E.
    apply list_elem_of_filter in Hs0 as [Hmo0 Hs0].
    apply list_elem_of_filter in Hs0 as [Hc0 Hs0].
    apply list_elem_of_filter in Hs0 as [Hy0 Hs0].
    destruct (K1 s0 Hs0 Hc0 Hy0) as (mo0 & Hk0 & Hscan0).
    assert (mo0 = mo) as ->.
    { unfold monthOf, scanMonth in Hmo0. by rewrite Hscan0 in Hmo0. }
    unfold C, Y. rewrite !list_filter_filter.
    apply filter_ext_in. intros s Hs. split.
    - intros [Hc Hm]. assert (Year s = year) as Hy by by eapply K2.
      split; [|done]. unfold monthOf, scanMonth.
      by rewrite Hm, <- Hk0, Hscan0.
    - intros [[Hm Hc] Hy]. split; [done|].
      destruct (K1 s Hs Hc Hy) as (mo1 & Hk1 & Hscan1).
      unfold monthOf, scanMonth in Hm. rewrite Hscan1 in Hm. simpl in Hm.
      by subst mo1. }
  assert (omap (λ kv : Z * list Session,
                  match GetMonthStats year kv.1 st with
                  | Err _ => None
                  | Ok monthStats => Some monthStats
                  end) G
          = (λ kv : Z * list Session,
               mkMonthStats (Sprintf_month year kv.1) year (wrap (len kv.2))
                 (sumMinutes kv.2)
                 ((λ '(week, weekSessions),
                     mkWeekStats week year (len weekSessions)
                       (sumMinutes weekSessions) [])
                  <$> map_to_list (groupFrom Week ∅ kv.2))) <$> G) as Hmonths.
  { apply omap_all_Some. intros [mo ks] Hks.
    rewrite (GetMonthStats_eq _ _ _ _ Hall). cbn [fst snd].
    by rewrite (Hgroup mo ks Hks). }
  assert (∀ mo ks, (mo, ks) ∈ G →
            GetMonthStats year mo st
            = Ok (mkMonthStats (Sprintf_month year mo) year (wrap (len ks))
                    (sumMinutes ks)
                    ((λ '(week, weekSessions),
                        mkWeekStats week year (len weekSessions)
                          (sumMinutes weekSessions) [])
                     <$> map_to_list (groupFrom Week ∅ ks)))) as Hget.
  { intros mo ks Hks. rewrite (GetMonthStats_eq _ _ _ _ Hall).
    by rewrite (Hgroup mo ks Hks). }
  injection Hys as <-.
  cbn [year_Year year_MonthlyStats year_SessionsCount year_TotalMinutes].
  rewrite Hmonths.
  destruct (groups_add_up monthOf C) as (_ & _ & Hcnt & Htot).
  fold G in Hcnt, Htot.
  split; [done|]. split; [|split].
  - intros ms Hms. apply list_elem_of_fmap in Hms as ([mo ks] & -> & Hks).
    split; [done|]. exists mo. by apply Hget.
  - rewrite <- list_fmap_compose.
    rewrite (list_fmap_ext _ (wrap ∘ (λ kv, len kv.2)) G)
      by (by intros i [??] _).
    rewrite list_fmap_compose, wrap_zsum_wrap, Hcnt.
    change 0 with (wrap 0) at 1. rewrite count_loop. by rewrite Z.add_0_l.
  - rewrite <- list_fmap_compose.
    rewrite (list_fmap_ext _ (λ kv, sumMinutes kv.2) G)
      by (by intros i [??] _).
    by rewrite Htot.
Qed.

End year_months.

Lemma X28_witness :
  let s1 := set_ElapsedSeconds 1500 (sampleSession "a" false true) in
  let s2 := set_ElapsedSeconds 600 (sampleSession "b" false true) in
  let st := mkStorage (Holds [s1; s2]) Absent in
  ∃ ys, GetYearStats (lib := go_ref) 2024 st = Ok ys ∧
    wrap (zsum (month_TotalMinutes <$> year_MonthlyStats ys))
    = year_TotalMinutes ys.
Proof.
  intros s1 s2 st. eexists. split; [vm_compute; reflexivity|].
  refine (proj2 (proj2 (proj2
    (X28_year_months_add_up (lib := go_ref) st [s1; s2] 2024 _ eq_refl _ _
       eq_refl)))).
  - intros s Hs _ _. exists 3.
    apply elem_of_cons in Hs as [->|Hs]; [by vm_compute|].
    apply elem_of_cons in Hs as [->|Hs]; [by vm_compute|].
    by apply elem_of_nil in Hs.
  - intros s mo Hs _ _.
    apply elem_of_cons in Hs as [->|Hs]; [done|].
    apply elem_of_cons in Hs as [->|Hs]; [done|].
    by apply elem_of_nil in Hs.
Defined.

(** ** From the settings view to the next session *)

Section settings_to_session.
Context {lib : GoLib} {W : settings.Widgets}.

(** X29. The session duration typed in the settings view is the planned
    duration of the next session. After a successful saveConfig, a dashboard
    made by New from the store works with the saved configuration, and the
    session it starts is planned for the number read from the first input,
    which is between 1 and 180 minutes; the timer is set to that many
    minutes in seconds, without wrap-around, and New wrote nothing. *)
Theorem X29_saved_duration_plans_the_next_session (m m' : settings.Model)
    (st st' st'' : Storage) (env env' : Env) (dm : Model) :
  settings.saveConfig m st = (None, m', st') →
  New env st' = (Ok dm, st'') →
  st'' = st' ∧ config dm = settings.config m' ∧
  ∃ s, activeSession (startNewSession env' dm st'').1.1 = Some s ∧
       settings.Atoi (settings.Value (settings.inputs m !!! 0%fin))
         = Some (Duration s) ∧
       1 <= Duration s <= 180 ∧
       timerDuration (startNewSession env' dm st'').1.1 = Duration s * 60.
Proof.
  intros Hsave Hnew.
  destruct (saveConfig_cases m st)
    as [[text E]|(c & Hv & (Hd & _) & [[_ E]|[_ E]])];
    rewrite E in Hsave; [done| |done].
  injection Hsave as <- <-.
  remember (answered st) as st0 eqn:Hst0. clear Hst0.
  assert (st'' = writeConfig c st0 ∧ config dm = c) as [-> Hc].
  { unfold New in Hnew.
    assert (GetConfig (writeConfig c st0) = (inl c, writeConfig c st0)) as Hg
      by reflexivity.
    rewrite Hg in Hnew. cbv zeta in Hnew.
    repeat case_match; by simplify_eq/=. }
  split; [done|]. split; [done|].
  eexists. split; [reflexivity|]. cbn. rewrite Hc.
  destruct Hv as (Hr & _).
  split; [done|]. split; [done|].
  unfold int_mul. apply wrap_id. unfold in_int, int_min, int_max. lia.
Qed.

End settings_to_session.

Lemma X29_witness :
  let m := settings.mkModel (W := plain_widgets) DefaultConfig
             [# "25"; "8"; "9"; "17"] 0 false false false "" 80 24 in
  let st := mkStorage Absent Absent in
  let st' := writeConfig (mkConfig 25 8 9 17) st in
  let env := mkEnv "id-1" (1000 * Minute) "2024-03-04" 10 "2024-03" 2024 3 in
  settings.saveConfig (W := plain_widgets) m st
  = (None, settings.set_config (mkConfig 25 8 9 17) m, st') ∧
  ∃ dm, New (lib := go_ref) env st' = (Ok dm, st') ∧
        timerDuration (startNewSession env dm st').1.1 = 1500.
Proof.
  intros m st st' env. split; [reflexivity|].
  eexists. split; [vm_compute; reflexivity|].
  match goal with
  | |- context [startNewSession env ?dm st'] =>
      destruct (X29_saved_duration_plans_the_next_session (lib := go_ref)
                  (W := plain_widgets) m
                  (settings.set_config (mkConfig 25 8 9 17) m) st st' st'
                  env env dm eq_refl eq_refl)
        as (_ & _ & s & Hs & _ & _ & Hd)
  end.
  rewrite Hd. injection Hs as <-. reflexivity.
Defined.

(** ** Leaving the timer view *)

(** X30. A session left with Quit or Home while the timer view runs is
    resumed where it was left. The key stores the session paused with the
    seconds counted; the view that NewFromSession makes from the stored
    session has these seconds and the duration of the view that was left,
    runs paused, and asks for no tick: a tick leaves it as it is. *)
Theorem X30_timer_view_resumes_where_it_was_left (env : Env) (k : string)
    (m : timer.Model) (st : Storage) (s : Session) :
  k = "q" ∨ k = "h" →
  timer.running m = true → timer.finished m = false →
  timer.currentSession m = Some s →
  timer.duration m = Duration s * 60 → in_int (timer.duration m) →
  sessionsFile st ≠ Corrupt →
  let r := timer.Update env (timer.KeyMsg k) m st in
  ∃ s', timer.currentSession r.1.1 = Some s' ∧ s' ∈ stored r.2 ∧
        ID s' = ID s ∧ Active s' = Active s ∧
        let m' := timer.NewFromSession s' in
        timer.elapsed m' = timer.elapsed m ∧
        timer.duration m' = timer.duration m ∧
        timer.running m' = true ∧ timer.paused m' = true ∧
        timer.Init m' = tea.Nil ∧
        ∀ env', timer.Update env' timer.tickMsg m' r.2 = (m', tea.Nil, r.2).
Proof.
  intros Hk Hr Hfin Hs Hd Hin Hf r.
  destruct (readable_file st Hf) as [l Hl].
  assert (∃ m1, r = (timer.set_currentSession
                       (Some (set_Paused true
                                (set_ElapsedSeconds (timer.elapsed m) s)))
                       m1,
                     tea.Quit,
                     (SaveSession (set_Paused true
                                     (set_ElapsedSeconds (timer.elapsed m) s))
                        st).2)) as [m1 ->].
  { unfold r. destruct Hk as [-> | ->]; cbn [timer.Update].
    - change (Matches "q" (timer.Start timer.keys)) with false.
      change (Matches "q" (timer.Pause timer.keys)) with false.
      change (Matches "q" (timer.Resume timer.keys)) with false.
      change (Matches "q" (timer.Cancel timer.keys)) with false.
      change (Matches "q" (timer.Menu timer.keys)) with false.
      change (Matches "q" (timer.Home timer.keys)) with false.
      change (Matches "q" (timer.Quit timer.keys)) with true.
      cbn [andb]. rewrite Hr, Hfin. cbn [andb negb].
      rewrite (saveCurrent_Some _ _ _ s) by done. by eexists.
    - change (Matches "h" (timer.Start timer.keys)) with false.
      change (Matches "h" (timer.Pause timer.keys)) with false.
      change (Matches "h" (timer.Resume timer.keys)) with false.
      change (Matches "h" (timer.Cancel timer.keys)) with false.
      change (Matches "h" (timer.Menu timer.keys)) with false.
      change (Matches "h" (timer.Home timer.keys)) with true.
      cbn [andb timer.running timer.finished timer.set_exitToMenu].
      rewrite Hr, Hfin. cbn [andb negb].
      rewrite (saveCurrent_Some _ _ _ s) by done. by eexists. }
  cbn [fst snd]. eexists. split; [reflexivity|].
  split; [by eapply SaveSession_stored_elem|].
  split; [done|]. split; [done|]. cbn.
  assert (int_mul (Duration s) 60 = timer.duration m) as ->
    by (unfold int_mul; rewrite <- Hd; by apply wrap_id).
  by repeat split.
Qed.

Lemma X30_witness :
  let s := sampleSession "a" true false in
  let m := timer.mkModel 1500 7 true false false false false (Some s) 80 24
             false in
  let st := mkStorage (Holds [s]) Absent in
  let env := mkEnv "id-1" (1000 * Minute) "2024-03-04" 10 "2024-03" 2024 3 in
  ∃ s', timer.currentSession
          (timer.Update env (timer.KeyMsg "q") m st).1.1 = Some s' ∧
        timer.elapsed (timer.NewFromSession s') = 7.
Proof.
  intros s m st env.
  destruct (X30_timer_view_resumes_where_it_was_left env "q" m st s)
    as (s' & Hs' & _ & _ & _ & He & _).
  - by left.
  - reflexivity.
  - reflexivity.
  - reflexivity.
  - reflexivity.
  - unfold in_int, int_min, int_max. simpl. lia.
  - discriminate.
  - exists s'. split; [exact Hs'|exact He].
Defined.
